(** * PWM fan controller with LCD: the scheduler, the button resolver and the
      power/speed state machine of [pwm_fan_controller.ino]

    The sketch is embedded function by function.  Globals and function-local
    [static] variables become record fields that are passed explicitly; a
    [static] with a run-time initialiser ([static T x = millis();]) is an
    [option] that is filled the first time its function is entered.  The
    millisecond clock and the pin levels are inputs: a task receives the
    clock reading [now] and the function [digitalRead] as arguments, every
    call of [millis()] made during one invocation returns that reading, and
    one pass of [loop] hands the same reading to its three tasks.  The
    counters of the two button loops are declared without an initial value;
    what they hold when the loops are entered is an input of the pass as
    well.  [unsigned long] is a [Z] reduced modulo [2^32], [byte] a [Z]
    reduced modulo [2^8]. *)

From Stdlib Require Import ZArith List Bool Lia Ascii.
From stdpp Require Import base tactics option list.
Import ListNotations.
Local Open Scope Z_scope.

(** ** Tuning numbers and wiring *)

Definition MIN_FAN_DUTYCYCLE_ANALOG : Z := 155.
Definition MAX_FAN_DUTYCYCLE_ANALOG : Z := 255.
Definition BUTTON_HOLD_FOR_TURBO_DELAY_IN_MILLIS : Z := 2000.
Definition BOOTSCREEN_DISPLAY_TIME_IN_MILLIS : Z := 2000.
Definition TURBO_TEXT_DISPLAY_TIME_IN_MILLIS : Z := 500.
Definition DEBOUNCE_DELAY_MILLS : Z := 40.
Definition DISPLAY_REFRESH_RATE_MILLIS : Z := 100.
Definition FAN_REFRESH_RATE_MILLIS : Z := 10.

Definition FAN_CONTROL_PIN : nat := 3.
Definition BUTTON_SPEED_UP_PIN : nat := 1.
Definition BUTTON_SPEED_DOWN_PIN : nat := 2.
Definition BUTTON_ONOFF_TOGGLE_PIN : nat := 0.
Definition FAN_PULSE_READ_PIN : nat := 4.
Definition RELAY_CONTROL_PIN : nat := 7.
Definition RELAY_ON : bool := true.
Definition RELAY_OFF : bool := false.
Definition LOW : bool := false.
Definition HIGH : bool := true.

Definition SPEED_UP_BUTTON : nat := 0.
Definition SPEED_DOWN_BUTTON : nat := 1.
Definition ONOFF_TOGGLE_BUTTON : nat := 2.
Definition NUMBER_OF_BUTTONS : nat := 3.

Definition button_pins : list nat :=
  [BUTTON_SPEED_UP_PIN; BUTTON_SPEED_DOWN_PIN; BUTTON_ONOFF_TOGGLE_PIN].

Definition OFF_FAN_SPEED : Z := 0.
Definition MIN_FAN_SPEED : Z := 1.
Definition MAX_PWM_SPEED : Z := 9.
Definition MAX_FAN_SPEED : Z := 10.
Definition INCREMENT_FAN_SPEED : Z := 1.
Definition DEFAULT_FAN_SPEED : Z := MIN_FAN_SPEED + INCREMENT_FAN_SPEED.

(** ** Machine integers *)

Definition ULONG_MODULUS : Z := 4294967296.
Definition wrap32 (x : Z) : Z := x mod ULONG_MODULUS.
Definition wrap8 (x : Z) : Z := x mod 256.

(** Every timer of the sketch is tested with the same expression,
    [mark + interval < millis()], evaluated in [unsigned long]. *)
Definition deadline_passed (mark interval now : Z) : bool :=
  wrap32 (mark + interval) <? now.

(** ** The two anonymous enums *)

Inductive button_code : Set :=
| IS_NOT_PRESSED
| IS_PRESSED
| WAS_RELEASED
| IS_HELD
| PROCESSED
| NOT_PROCESSED.

Inductive system_state : Set :=
| SYSTEM_ON
| SYSTEM_OFF
| TURBO_REQUESTED
| TURBO_ON.

#[global] Instance button_code_eq_dec : EqDecision button_code.
Proof. solve_decision. Defined.

#[global] Instance system_state_eq_dec : EqDecision system_state.
Proof. solve_decision. Defined.

#[global] Instance button_code_inhabited : Inhabited button_code :=
  populate IS_NOT_PRESSED.

(** ** Power/speed state machine

    [onoff_state], [turbo_requested_by_user] and [user_fan_speed] are the
    globals; [save_fan_speed] is the static of [process_onoff_click] and
    [turbo_request_displayed_timer] the static of [process_turbo_request]. *)

Record machine : Set := Machine {
  onoff_state : system_state;
  turbo_requested_by_user : bool;
  user_fan_speed : Z;
  save_fan_speed : option Z;
  turbo_request_displayed_timer : option Z
}.

Definition set_onoff_state (v : system_state) (m : machine) : machine :=
  Machine v (turbo_requested_by_user m) (user_fan_speed m)
          (save_fan_speed m) (turbo_request_displayed_timer m).

Definition set_turbo_requested_by_user (v : bool) (m : machine) : machine :=
  Machine (onoff_state m) v (user_fan_speed m)
          (save_fan_speed m) (turbo_request_displayed_timer m).

Definition set_user_fan_speed (v : Z) (m : machine) : machine :=
  Machine (onoff_state m) (turbo_requested_by_user m) v
          (save_fan_speed m) (turbo_request_displayed_timer m).

Definition set_save_fan_speed (v : Z) (m : machine) : machine :=
  Machine (onoff_state m) (turbo_requested_by_user m) (user_fan_speed m)
          (Some v) (turbo_request_displayed_timer m).

Definition set_turbo_request_displayed_timer (v : Z) (m : machine) : machine :=
  Machine (onoff_state m) (turbo_requested_by_user m) (user_fan_speed m)
          (save_fan_speed m) (Some v).

Definition set_max_fan_speed (m : machine) : machine :=
  set_user_fan_speed MAX_FAN_SPEED m.

Definition speed_up_fan_speed (m : machine) : machine :=
  if user_fan_speed m =? OFF_FAN_SPEED then
    set_user_fan_speed MIN_FAN_SPEED m
  else if user_fan_speed m <? MAX_FAN_SPEED - INCREMENT_FAN_SPEED then
    set_user_fan_speed (wrap8 (user_fan_speed m + INCREMENT_FAN_SPEED)) m
  else
    set_turbo_requested_by_user true m.

Definition slow_down_fan_speed (m : machine) : machine :=
  if MIN_FAN_SPEED + INCREMENT_FAN_SPEED <=? user_fan_speed m then
    set_user_fan_speed (wrap8 (user_fan_speed m - INCREMENT_FAN_SPEED)) m
  else m.

(** [static byte save_fan_speed = user_fan_speed;] runs on the first entry
    only, before the body. *)
Definition process_onoff_click (m : machine) : machine :=
  let m := set_save_fan_speed (default (user_fan_speed m) (save_fan_speed m)) m in
  if bool_decide (onoff_state m ≠ SYSTEM_OFF) then
    set_user_fan_speed OFF_FAN_SPEED
      (set_save_fan_speed (user_fan_speed m)
         (set_onoff_state SYSTEM_OFF m))
  else
    set_user_fan_speed (default 0 (save_fan_speed m))
      (set_onoff_state SYSTEM_ON m).

Definition process_onoff_hold (m : machine) : machine :=
  if bool_decide (onoff_state m ≠ SYSTEM_OFF) then set_max_fan_speed m else m.

Definition process_speed_up_click (m : machine) : machine :=
  if bool_decide (onoff_state m ≠ SYSTEM_OFF) then speed_up_fan_speed m else m.

Definition process_speed_down_click (m : machine) : machine :=
  if bool_decide (onoff_state m ≠ SYSTEM_OFF) then slow_down_fan_speed m else m.

Definition process_button_click (button_clicked : nat) (m : machine) : machine :=
  if (button_clicked =? ONOFF_TOGGLE_BUTTON)%nat then process_onoff_click m
  else if (button_clicked =? SPEED_UP_BUTTON)%nat then process_speed_up_click m
  else if (button_clicked =? SPEED_DOWN_BUTTON)%nat then process_speed_down_click m
  else m.

Definition process_button_hold (button_held : nat) (m : machine) : machine :=
  if (button_held =? ONOFF_TOGGLE_BUTTON)%nat then process_onoff_hold m
  else m.

(** [process_turbo_request], in the three steps of its body: the request is
    taken up (first [if]), the exit test is evaluated (second [if]), and the
    exit is performed and the one-shot flag cleared. *)
Definition turbo_request_enter (now : Z) (m : machine) : machine :=
  let m :=
    set_turbo_request_displayed_timer
      (default now (turbo_request_displayed_timer m)) m in
  if negb (user_fan_speed m =? MAX_FAN_SPEED) then
    if turbo_requested_by_user m then
      set_turbo_request_displayed_timer now (set_onoff_state TURBO_REQUESTED m)
    else m
  else m.

Definition turbo_request_exit (now : Z) (m : machine) : bool :=
  if bool_decide (onoff_state m = TURBO_REQUESTED) then
    deadline_passed (default 0 (turbo_request_displayed_timer m))
                    TURBO_TEXT_DISPLAY_TIME_IN_MILLIS now
    || (user_fan_speed m =? MAX_FAN_SPEED)
  else false.

Definition process_turbo_request (now : Z) (m : machine) : machine :=
  let m1 := turbo_request_enter now m in
  let m2 := if turbo_request_exit now m1 then set_onoff_state SYSTEM_ON m1 else m1 in
  set_turbo_requested_by_user false m2.

(** ** Button handling

    [button_state] is the global array; [last_button_read] is the static of
    [poll_input_signals]; [last_interaction_timestamp] and
    [last_button_state] are the statics of [process_buttons].  The second
    static array of [poll_input_signals], [current_button_read], is written
    at index [i] before it is read there and is a local here.

    The two button loops are written [for(byte i; i < NUMBER_OF_BUTTONS;
    i++)]: the counter is declared and never initialised, so the source does
    not say at which button a loop starts.  The value the counter holds when
    a loop is entered is therefore an input of the pass, like the clock and
    the pins ([poll_start] and [process_start] of a [tick] below): a loop
    entered with [start] visits the buttons [start], [start + 1], ... below
    NUMBER_OF_BUTTONS, and none when [start] is not below NUMBER_OF_BUTTONS.
    The third loop of this form, in [setup], only sets pin modes, which are
    not part of the state. *)

Record buttons : Set := Buttons {
  button_state : list button_code;
  last_button_read : list bool;
  last_interaction_timestamp : option (list Z);
  last_button_state : list button_code
}.

Inductive logical_event : Set :=
| Click (button : nat)
| Hold (button : nat).

#[global] Instance logical_event_eq_dec : EqDecision logical_event.
Proof. solve_decision. Defined.

(** The hardware calls the sketch itself makes: its own [digitalWrite] and
    [analogWrite] calls, [lcd.clear()], and a refresh of the display, which
    stands for the [lcd.setCursor] and [lcd.print] calls of
    [process_display_updates] and is recorded with the two values it
    renders.  The text on the display is outside the embedding, and so is
    what the display library writes to its own pins: the display is declared
    [LiquidCrystal lcd(7, 8, 9, 10, 11, 12)], so its register-select line
    is pin 7, the pin that RELAY_CONTROL_PIN names as well.  The list of
    outputs is the list of these calls, not the levels of the pins. *)
Inductive output : Set :=
| DigitalWrite (pin : nat) (level : bool)
| AnalogWrite (pin : nat) (value : Z)
| LcdClear
| LcdRefresh (state : system_state) (speed : Z).

(** The whole sketch: the two components above, the statics of the three
    schedulers, the list of handler calls made so far ([events], ghost) and
    the list of hardware writes made so far ([outputs]). *)
Record controller : Type := Controller {
  btn : buttons;
  fsm : machine;
  last_buttons_update : option Z;
  last_fan_update : option Z;
  last_display_update : option Z;
  events : list logical_event;
  outputs : list output
}.

Definition with_btn (f : buttons → buttons) (c : controller) : controller :=
  Controller (f (btn c)) (fsm c) (last_buttons_update c) (last_fan_update c)
             (last_display_update c) (events c) (outputs c).

Definition with_fsm (f : machine → machine) (c : controller) : controller :=
  Controller (btn c) (f (fsm c)) (last_buttons_update c) (last_fan_update c)
             (last_display_update c) (events c) (outputs c).

Definition emit (e : logical_event) (c : controller) : controller :=
  Controller (btn c) (fsm c) (last_buttons_update c) (last_fan_update c)
             (last_display_update c) (events c ++ [e]) (outputs c).

Definition hw_write (o : output) (c : controller) : controller :=
  Controller (btn c) (fsm c) (last_buttons_update c) (last_fan_update c)
             (last_display_update c) (events c) (outputs c ++ [o]).

Definition set_last_buttons_update (v : Z) (c : controller) : controller :=
  Controller (btn c) (fsm c) (Some v) (last_fan_update c)
             (last_display_update c) (events c) (outputs c).

Definition set_last_fan_update (v : Z) (c : controller) : controller :=
  Controller (btn c) (fsm c) (last_buttons_update c) (Some v)
             (last_display_update c) (events c) (outputs c).

Definition set_last_display_update (v : Z) (c : controller) : controller :=
  Controller (btn c) (fsm c) (last_buttons_update c) (last_fan_update c)
             (Some v) (events c) (outputs c).

(** The classification of one button from its previous and current read. *)
Definition classify (last current : bool) : button_code :=
  if negb last && current then IS_PRESSED
  else if last && current then IS_HELD
  else if last && negb current then WAS_RELEASED
  else IS_NOT_PRESSED.

Definition poll_input_signal (digitalRead : nat → bool) (i : nat)
    (b : buttons) : buttons :=
  let current := negb (digitalRead (button_pins !!! i)) in
  let last := last_button_read b !!! i in
  Buttons (<[i := classify last current]> (button_state b))
          (<[i := current]> (last_button_read b))
          (last_interaction_timestamp b)
          (last_button_state b).

(** The buttons visited by [for(byte i; i < NUMBER_OF_BUTTONS; i++)] when
    the counter holds [start] on entry. *)
Definition buttons_from (start : nat) : list nat :=
  seq start (NUMBER_OF_BUTTONS - start).

Definition poll_input_signals (start : nat) (digitalRead : nat → bool)
    (b : buttons) : buttons :=
  fold_left (λ b i, poll_input_signal digitalRead i b) (buttons_from start) b.

Definition timestamps (b : buttons) : list Z :=
  default [] (last_interaction_timestamp b).

Definition set_timestamp (i : nat) (v : Z) (b : buttons) : buttons :=
  Buttons (button_state b) (last_button_read b)
          (Some (<[i := v]> (timestamps b))) (last_button_state b).

Definition set_last_button_state (i : nat) (v : button_code) (b : buttons) : buttons :=
  Buttons (button_state b) (last_button_read b)
          (last_interaction_timestamp b) (<[i := v]> (last_button_state b)).

(** The static initialiser [{millis(), millis(), millis()}]. *)
Definition enter_process_buttons (now : Z) (b : buttons) : buttons :=
  Buttons (button_state b) (last_button_read b)
          (Some (default (replicate NUMBER_OF_BUTTONS now)
                         (last_interaction_timestamp b)))
          (last_button_state b).

(** One turn of the loop of [process_buttons]. *)
Definition process_button (now : Z) (i : nat) (c : controller) : controller :=
  let b := btn c in
  if bool_decide (button_state b !!! i = IS_HELD)
     && deadline_passed (timestamps b !!! i)
                        BUTTON_HOLD_FOR_TURBO_DELAY_IN_MILLIS now then
    let c := with_btn (set_timestamp i now) c in
    if bool_decide (last_button_state b !!! i = NOT_PROCESSED) then
      with_fsm (process_button_hold i)
        (emit (Hold i) (with_btn (set_last_button_state i PROCESSED) c))
    else c
  else if bool_decide (button_state b !!! i = IS_NOT_PRESSED)
          && deadline_passed (timestamps b !!! i) DEBOUNCE_DELAY_MILLS now then
    let c := with_btn (set_timestamp i now) c in
    if bool_decide (last_button_state b !!! i = NOT_PROCESSED) then
      with_fsm (process_button_click i)
        (emit (Click i) (with_btn (set_last_button_state i PROCESSED) c))
    else c
  else if bool_decide (button_state b !!! i = IS_NOT_PRESSED) then
    with_btn (set_last_button_state i NOT_PROCESSED)
      (with_btn (set_timestamp i now) c)
  else c.

Definition process_buttons (start : nat) (now : Z) (c : controller) : controller :=
  fold_left (λ c i, process_button now i c)
            (buttons_from start)
            (with_btn (enter_process_buttons now) c).

(** [process_turbo_request] on the whole sketch: the machine part above, and
    [lcd.clear()] when the exit is taken. *)
Definition process_turbo_request_task (now : Z) (c : controller) : controller :=
  let c' := with_fsm (process_turbo_request now) c in
  if turbo_request_exit now (turbo_request_enter now (fsm c))
  then hw_write LcdClear c' else c'.

(** ** Fan output *)

(** [map] of the Arduino core, on [long]; the quotient truncates. *)
Definition arduino_map (x in_min in_max out_min out_max : Z) : Z :=
  (x - in_min) * (out_max - out_min) ÷ (in_max - in_min) + out_min.

Definition set_fan_speed (requested_fan_speed : Z) (c : controller) : controller :=
  if requested_fan_speed =? OFF_FAN_SPEED then
    hw_write (AnalogWrite FAN_CONTROL_PIN OFF_FAN_SPEED) c
  else
    let target :=
      wrap8 (arduino_map requested_fan_speed MIN_FAN_SPEED MAX_PWM_SPEED
                         MIN_FAN_DUTYCYCLE_ANALOG MAX_FAN_DUTYCYCLE_ANALOG) in
    hw_write (AnalogWrite FAN_CONTROL_PIN target) c.

Definition process_fan_relay (c : controller) : controller :=
  if bool_decide (onoff_state (fsm c) ≠ SYSTEM_OFF) then
    hw_write (DigitalWrite RELAY_CONTROL_PIN RELAY_ON) c
  else
    hw_write (DigitalWrite RELAY_CONTROL_PIN RELAY_OFF) c.

Definition process_fan_speed (c : controller) : controller :=
  if bool_decide (onoff_state (fsm c) ≠ SYSTEM_OFF) then
    if user_fan_speed (fsm c) =? MAX_FAN_SPEED then
      hw_write (DigitalWrite FAN_CONTROL_PIN LOW) (set_fan_speed OFF_FAN_SPEED c)
    else
      set_fan_speed (user_fan_speed (fsm c)) c
  else
    set_fan_speed OFF_FAN_SPEED c.

(** The display task, up to the rendering: one refresh call is recorded;
    the tachometer read, the text, and the pin traffic of the display
    library (see [output]) are outside the embedding. *)
Definition process_display_updates (c : controller) : controller :=
  hw_write (LcdRefresh (onoff_state (fsm c)) (user_fan_speed (fsm c))) c.

(** ** Scheduling *)

(** [poll_start] and [process_start] are what the counters of the loops of
    [poll_input_signals] and [process_buttons] hold on entry. *)
Definition process_button_schedule (now : Z) (digitalRead : nat → bool)
    (poll_start process_start : nat) (c : controller) : controller :=
  let c := set_last_buttons_update now c in
  let c := with_btn (poll_input_signals poll_start digitalRead) c in
  let c := process_buttons process_start now c in
  process_turbo_request_task now c.

Definition process_fan_schedule (now : Z) (c : controller) : controller :=
  let c := set_last_fan_update (default now (last_fan_update c)) c in
  if deadline_passed (default 0 (last_fan_update c)) FAN_REFRESH_RATE_MILLIS now then
    process_fan_speed (process_fan_relay (set_last_fan_update now c))
  else c.

Definition process_display_schedule (now : Z) (c : controller) : controller :=
  let c := set_last_display_update (default now (last_display_update c)) c in
  if deadline_passed (default 0 (last_display_update c))
                     DISPLAY_REFRESH_RATE_MILLIS now then
    process_display_updates (set_last_display_update now c)
  else c.

(** What one pass of [loop] takes from the outside: the clock reading, the
    pin levels, and the values the uninitialised counters of the two button
    loops hold when the loops are entered. *)
Record tick : Type := Tick {
  millis : Z;
  digitalRead : nat → bool;
  poll_start : nat;
  process_start : nat
}.

Definition loop (t : tick) (c : controller) : controller :=
  process_display_schedule (millis t)
    (process_fan_schedule (millis t)
       (process_button_schedule (millis t) (digitalRead t)
                                (poll_start t) (process_start t) c)).

(** ** Start-up *)

(** The values the globals and the constant-initialised statics have when
    [setup] is entered. *)
Definition power_on : controller :=
  Controller
    (Buttons [IS_NOT_PRESSED; IS_NOT_PRESSED; IS_NOT_PRESSED]
             [false; false; false]
             None
             [NOT_PROCESSED; NOT_PROCESSED; NOT_PROCESSED])
    (Machine SYSTEM_ON false DEFAULT_FAN_SPEED None None)
    None None None [] [].

(** The [while] of [show_boot_screen], one turn per element of [ticks].  The
    test [bootscreen_timer + BOOTSCREEN_DISPLAY_TIME_IN_MILLIS > millis()]
    compares a [long] with an [unsigned long] and so is evaluated in
    [unsigned long].  [None]: the readings end before the loop does. *)
Fixpoint boot_screen_loop (bootscreen_timer : Z) (ticks : list tick)
    (c : controller) : option controller :=
  match ticks with
  | [] => None
  | t :: ticks =>
      if millis t <? wrap32 (bootscreen_timer + BOOTSCREEN_DISPLAY_TIME_IN_MILLIS)
      then
        let c := process_button_schedule (millis t) (digitalRead t)
                                         (poll_start t) (process_start t) c in
        if bool_decide (onoff_state (fsm c) ≠ SYSTEM_OFF) then Some c
        else boot_screen_loop bootscreen_timer ticks c
      else Some c
  end.

Definition show_boot_screen (now : Z) (ticks : list tick) (c : controller)
    : option controller :=
  hw_write LcdClear <$> boot_screen_loop now ticks c.

(** [setup], entered at clock reading [now].  Of the pin and display set-up
    the two [digitalWrite] are recorded. *)
Definition setup (now : Z) (ticks : list tick) : option controller :=
  let c := hw_write (DigitalWrite RELAY_CONTROL_PIN RELAY_OFF) power_on in
  let c := hw_write (DigitalWrite FAN_PULSE_READ_PIN HIGH) c in
  let c := with_fsm (set_onoff_state SYSTEM_OFF) c in
  show_boot_screen now ticks c.

(** ** Runs *)

Definition run (ticks : list tick) (c : controller) : controller :=
  fold_left (λ c t, loop t c) ticks c.

(** The handler calls made during one pass of [loop], and during a run. *)
Definition tick_events (t : tick) (c : controller) : list logical_event :=
  drop (length (events c)) (events (loop t c)).

Definition run_events (ticks : list tick) (c : controller) : list logical_event :=
  drop (length (events c)) (events (run ticks c)).

Definition event_button (e : logical_event) : nat :=
  match e with Click b | Hold b => b end.

Definition events_of (i : nat) (l : list logical_event) : list logical_event :=
  filter (λ e, event_button e = i) l.

(** Button [i] reads as pressed: its line is low. *)
Definition pressed (t : tick) (i : nat) : bool :=
  negb (digitalRead t (button_pins !!! i)).

(** Both button loops of the pass [t] reach button [i]: neither counter
    holds more than [i] when its loop is entered. *)
Definition visits (i : nat) (t : tick) : Prop :=
  (poll_start t ≤ i)%nat ∧ (process_start t ≤ i)%nat.

(** Pin levels with no button pressed, and with exactly button [i] pressed. *)
Definition all_released : nat → bool := λ _, true.

Definition only_pressed (i : nat) : nat → bool :=
  λ pin, negb (pin =? button_pins !!! i)%nat.

(** The states reached by the sketch between two passes of [loop]. *)
Inductive reachable : controller → Prop :=
| reachable_setup (now : Z) (ticks : list tick) (c : controller) :
    setup now ticks = Some c → reachable c
| reachable_loop (t : tick) (c : controller) :
    reachable c → reachable (loop t c).

(** What the state machine is asked to do: a handler call or the turbo
    check that ends every pass of the button task. *)
Inductive machine_op : Set :=
| OpClick (button : nat)
| OpHold (button : nat)
| OpTurbo (now : Z).

Definition machine_step (op : machine_op) (m : machine) : machine :=
  match op with
  | OpClick i => process_button_click i m
  | OpHold i => process_button_hold i m
  | OpTurbo now => process_turbo_request now m
  end.

Definition machine_run (ops : list machine_op) (m : machine) : machine :=
  fold_left (λ m op, machine_step op m) ops m.

(** The machine states passed through, one after each operation. *)
Fixpoint machine_trace (ops : list machine_op) (m : machine) : list machine :=
  match ops with
  | [] => []
  | op :: ops => machine_step op m :: machine_trace ops (machine_step op m)
  end.

Definition op_of_event (e : logical_event) : machine_op :=
  match e with Click i => OpClick i | Hold i => OpHold i end.

(** The machine as [setup] leaves it before the boot screen. *)
Definition boot_machine : machine :=
  set_onoff_state SYSTEM_OFF (fsm power_on).

(** Elapsed time in the arithmetic of the clock: the unsigned difference. *)
Definition elapsed (mark now : Z) : Z := wrap32 (now - mark).

(** ** The resolver seen from one button

    What [poll_input_signals] and [process_buttons] keep for button [i]
    between two passes: its last read, its timestamp (when initialised) and
    its processed flag.  The functions on views below are read off the
    array code above and describe a pass in which both button loops reach
    the button; [process_button_schedule_view] and [run_view] prove that the
    arrays evolve as they say in such passes. *)
Record button_view : Set := ButtonView {
  view_read : bool;
  view_timestamp : option Z;
  view_flag : button_code
}.

Definition view (i : nat) (c : controller) : button_view :=
  ButtonView (last_button_read (btn c) !!! i)
             (match last_interaction_timestamp (btn c) with
              | Some l => l !! i
              | None => None
              end)
             (last_button_state (btn c) !!! i).

(** The turn of the loop of [process_buttons] for button [i], on its view,
    with the handler calls it makes. *)
Definition button_resolve (i : nat) (now : Z) (state : button_code)
    (v : button_view) : button_view * list logical_event :=
  let ts := default now (view_timestamp v) in
  if bool_decide (state = IS_HELD)
     && deadline_passed ts BUTTON_HOLD_FOR_TURBO_DELAY_IN_MILLIS now then
    if bool_decide (view_flag v = NOT_PROCESSED)
    then (ButtonView (view_read v) (Some now) PROCESSED, [Hold i])
    else (ButtonView (view_read v) (Some now) (view_flag v), [])
  else if bool_decide (state = IS_NOT_PRESSED)
          && deadline_passed ts DEBOUNCE_DELAY_MILLS now then
    if bool_decide (view_flag v = NOT_PROCESSED)
    then (ButtonView (view_read v) (Some now) PROCESSED, [Click i])
    else (ButtonView (view_read v) (Some now) (view_flag v), [])
  else if bool_decide (state = IS_NOT_PRESSED) then
    (ButtonView (view_read v) (Some now) NOT_PROCESSED, [])
  else (ButtonView (view_read v) (Some ts) (view_flag v), []).

Definition button_tick (i : nat) (now : Z) (current : bool) (v : button_view)
    : button_view * list logical_event :=
  button_resolve i now (classify (view_read v) current)
                 (ButtonView current (view_timestamp v) (view_flag v)).

Fixpoint button_run (i : nat) (ticks : list tick) (v : button_view)
    : button_view * list logical_event :=
  match ticks with
  | [] => (v, [])
  | t :: ticks =>
      let r := button_tick i (millis t) (pressed t i) v in
      let r' := button_run i ticks r.1 in
      (r'.1, r.2 ++ r'.2)
  end.

(** What button [i] may still call without a new press: one call while its
    flag is clear, except when it was last seen released in a pass that
    reset its timestamp to [prev], the reading of the latest pass. *)
Definition credit (prev : Z) (v : button_view) : nat :=
  if bool_decide (view_flag v = NOT_PROCESSED) then
    if negb (view_read v)
       && bool_decide (view_timestamp v = None ∨ view_timestamp v = Some prev)
    then 0 else 1
  else 0.

(** The arrays have their declared length. *)
Definition wf (c : controller) : Prop :=
  length (button_state (btn c)) = NUMBER_OF_BUTTONS
  ∧ length (last_button_read (btn c)) = NUMBER_OF_BUTTONS
  ∧ length (last_button_state (btn c)) = NUMBER_OF_BUTTONS
  ∧ match last_interaction_timestamp (btn c) with
    | Some l => length l = NUMBER_OF_BUTTONS
    | None => True
    end.

(** How many times button [i] goes from released to pressed in a run that
    starts with last read [last]. *)
Fixpoint presses (i : nat) (last : bool) (ticks : list tick) : nat :=
  match ticks with
  | [] => 0
  | t :: ticks =>
      ((if negb last && pressed t i then 1 else 0)
       + presses i (pressed t i) ticks)%nat
  end.

(** The passes of [loop] follow each other by at most the debounce delay,
    and no reading is within the debounce delay of the wrap of the clock. *)
Fixpoint paced (prev : Z) (ticks : list tick) : Prop :=
  match ticks with
  | [] => True
  | t :: ticks =>
      millis t ≤ prev + DEBOUNCE_DELAY_MILLS
      ∧ 0 ≤ millis t ∧ millis t + DEBOUNCE_DELAY_MILLS < ULONG_MODULUS
      ∧ paced (millis t) ticks
  end.

(** A start-up with nothing pressed: [setup] is entered at reading [start]
    and the boot screen polls every 25 ms until its 2000 ms are over.  In
    this and in all the passes below the counters of both button loops hold
    0 on entry. *)
Definition boot_ticks (start : Z) : list tick :=
  map (λ k, Tick (start + 25 * Z.of_nat k) all_released 0 0) (seq 0 81).

Definition booted_at (start : Z) : controller :=
  default power_on (setup start (boot_ticks start)).

(** Passes with nothing pressed, and with exactly button [i] pressed. *)
Definition released_at (now : Z) : tick := Tick now all_released 0 0.
Definition pressed_at (i : nat) (now : Z) : tick := Tick now (only_pressed i) 0 0.

(** One press of the power button, 60 ms long, 3000 ms before the clock
    wraps, followed by passes 40 ms apart up to the wrap. *)
Definition near_wrap_press : list tick :=
  [pressed_at ONOFF_TOGGLE_BUTTON 4294964296;
   pressed_at ONOFF_TOGGLE_BUTTON 4294964326;
   released_at 4294964356;
   released_at 4294964357]
  ++ map (λ k, released_at (4294964396 + 40 * Z.of_nat k)) (seq 0 73)
  ++ [released_at 4294967286].

(** One press of the power button, 60 ms long, after which one pass comes
    48 ms after the pass before it. *)
Definition stalled_press : list tick :=
  [pressed_at ONOFF_TOGGLE_BUTTON 2000; pressed_at ONOFF_TOGGLE_BUTTON 2030;
   released_at 2060; released_at 2061; released_at 2062; released_at 2110].

(** The speed-up button held for 60 ms, up to the pass after its release. *)
Definition late_release_press : list tick :=
  [released_at 2000; pressed_at SPEED_UP_BUTTON 2001;
   pressed_at SPEED_UP_BUTTON 2030; pressed_at SPEED_UP_BUTTON 2060;
   released_at 2061].

(** The speed-up button held for 10 ms, polled every millisecond. *)
Definition ten_ms_press : list tick :=
  [pressed_at SPEED_UP_BUTTON 2001; pressed_at SPEED_UP_BUTTON 2002;
   pressed_at SPEED_UP_BUTTON 2003; pressed_at SPEED_UP_BUTTON 2004;
   pressed_at SPEED_UP_BUTTON 2005; pressed_at SPEED_UP_BUTTON 2006;
   pressed_at SPEED_UP_BUTTON 2007; pressed_at SPEED_UP_BUTTON 2008;
   pressed_at SPEED_UP_BUTTON 2009; pressed_at SPEED_UP_BUTTON 2010;
   released_at 2011; released_at 2012].

(** ** Notions used by the further properties *)

(** The fan speed level and the saved level are levels of the bar graph. *)
Definition levels_in_range (m : machine) : Prop :=
  0 ≤ user_fan_speed m ≤ MAX_FAN_SPEED
  ∧ match save_fan_speed m with
    | Some v => 0 ≤ v ≤ MAX_FAN_SPEED
    | None => True
    end.

(** How many clicks of button [i] a list of operations holds. *)
Fixpoint clicks_of (i : nat) (ops : list machine_op) : Z :=
  match ops with
  | [] => 0
  | OpClick j :: ops => (if (j =? i)%nat then 1 else 0) + clicks_of i ops
  | _ :: ops => clicks_of i ops
  end.

(** An operation is a click of button [i] or a turbo check. *)
Definition click_or_turbo (i : nat) (op : machine_op) : Prop :=
  match op with
  | OpClick j => j = i
  | OpHold _ => False
  | OpTurbo _ => True
  end.

(** The duty cycle [set_fan_speed] writes for a level of the bar graph. *)
Definition duty_cycle (level : Z) : Z :=
  wrap8 (arduino_map level MIN_FAN_SPEED MAX_PWM_SPEED
                     MIN_FAN_DUTYCYCLE_ANALOG MAX_FAN_DUTYCYCLE_ANALOG).

(** A write the fan hardware is meant to see: an analog write goes to the
    fan control pin, and its value is 0 or lies between the smallest and the
    largest duty cycle. *)
Definition output_in_range (o : output) : Prop :=
  match o with
  | AnalogWrite pin value =>
      pin = FAN_CONTROL_PIN
      ∧ (value = 0
         ∨ MIN_FAN_DUTYCYCLE_ANALOG ≤ value ≤ MAX_FAN_DUTYCYCLE_ANALOG)
  | _ => True
  end.

(** Two passes read the same clock and the same level of button [i]. *)
Definition same_for_button (i : nat) (t t' : tick) : Prop :=
  millis t = millis t' ∧ pressed t i = pressed t' i.

(** A loop of [process_display_updates] that prints one character per turn:
    [for(; i < limit; i++) lcd.print(ch)] with a [byte] counter.  The
    result is what was printed and the counter at the exit; [fuel] bounds
    the turns. *)
Fixpoint print_loop (fuel : nat) (i limit : Z) (ch : ascii) : list ascii * Z :=
  match fuel with
  | O => ([], i)
  | S fuel =>
      if i <? limit then
        let r := print_loop fuel (wrap8 (i + 1)) limit ch in
        (ch :: r.1, r.2)
      else ([], i)
  end.

(** The bar of the second display row while the system is On: the first
    loop prints a mark per level, the second starts where the first stopped
    and pads to MAX_FAN_SPEED. *)
Definition bargraph (user_fan_speed : Z) : list ascii :=
  let marks := print_loop 256 0 user_fan_speed "#"%char in
  let blanks := print_loop 256 marks.2 MAX_FAN_SPEED " "%char in
  marks.1 ++ blanks.1.

(** One press of button [i], 60 ms long, polled every 20 ms, up to the fourth
    pass after its release. *)
Definition press_at (i : nat) (start : Z) : list tick :=
  [pressed_at i start; pressed_at i (start + 20); pressed_at i (start + 40);
   released_at (start + 60); released_at (start + 80); released_at (start + 100);
   released_at (start + 120)].

(** The power button pressed once, then the speed-up button eight times,
    polled every 20 ms. *)
Definition climb_to_prompt : list tick :=
  press_at ONOFF_TOGGLE_BUTTON 2020
  ++ flat_map (λ k, press_at SPEED_UP_BUTTON (2160 + 140 * Z.of_nat k)) (seq 0 8).

(** The speed-up button held from reading [start] on, polled every 20 ms. *)
Definition hold_from (start : Z) (passes : nat) : list tick :=
  map (λ k, pressed_at SPEED_UP_BUTTON (start + 20 * Z.of_nat k)) (seq 0 passes).

(** The pass [t] with button [j] pressed as well. *)
Definition also_pressed (j : nat) (t : tick) : tick :=
  Tick (millis t)
       (λ pin, digitalRead t pin && negb (pin =? button_pins !!! j)%nat)
       (poll_start t) (process_start t).

(** Button [i] read pressed in one pass only, polled every 20 ms, up to the
    third pass after its release; its click is handled in the second. *)
Definition tap_at (i : nat) (start : Z) : list tick :=
  [pressed_at i start; released_at (start + 20); released_at (start + 40);
   released_at (start + 60)].

(** After a start-up at reading [2^32 - 3201]: the power button tapped
    once and the speed-up button eight times; the last pass, at reading
    [2^32 - 501], handles the eighth speed-up click. *)
Definition climb_before_wrap : list tick :=
  released_at 4294966095
  :: tap_at ONOFF_TOGGLE_BUTTON 4294966115
  ++ flat_map (λ k, tap_at SPEED_UP_BUTTON (4294966195 + 80 * Z.of_nat k))
              (seq 0 7)
  ++ [pressed_at SPEED_UP_BUTTON 4294966755; released_at 4294966775;
      released_at 4294966795].

(** The pass [t] entered with the counters of the poll loop and of the
    process loop holding [poll] and [process]. *)
Definition entered_at (poll process : nat) (t : tick) : tick :=
  Tick (millis t) (digitalRead t) poll process.

(** The speed-up and the power button pressed together for 40 ms, up to
    the first pass after their release. *)
Definition two_button_press : list tick :=
  [also_pressed ONOFF_TOGGLE_BUTTON (pressed_at SPEED_UP_BUTTON 2020);
   also_pressed ONOFF_TOGGLE_BUTTON (pressed_at SPEED_UP_BUTTON 2040);
   released_at 2060].

(** ** The claims that fail, as stated *)

(** C1 as stated: in every run that starts with a press of button [i], the
    handler calls for [i] are at most as many as its presses.  The runs are
    those in which both loops reach the button in every pass. *)
Definition one_event_per_press_always : Prop :=
  ∀ (c : controller) (i : nat) (t : tick) (ticks : list tick),
    reachable c → (i < NUMBER_OF_BUTTONS)%nat →
    Forall (visits i) (t :: ticks) →
    last_button_read (btn c) !!! i = false → pressed t i = true →
    (length (events_of i (run_events (t :: ticks) c))
     ≤ presses i false (t :: ticks))%nat.

(** C2 as stated. *)
Definition off_means_speed_zero : Prop :=
  ∀ c : controller,
    reachable c → onoff_state (fsm c) = SYSTEM_OFF → user_fan_speed (fsm c) = 0.

(** C5 as stated: a turbo check made in TurboRequested, with no request
    pending, more than the prompt time after the prompt mark was taken
    leaves the system On. *)
Definition turbo_prompt_always_times_out : Prop :=
  ∀ (m : machine) (mark now : Z),
    onoff_state m = TURBO_REQUESTED →
    turbo_request_displayed_timer m = Some mark →
    turbo_requested_by_user m = false →
    0 ≤ mark < ULONG_MODULUS → 0 ≤ now < ULONG_MODULUS →
    TURBO_TEXT_DISPLAY_TIME_IN_MILLIS < elapsed mark now →
    onoff_state (process_turbo_request now m) = SYSTEM_ON.

(** C6 as stated: a click for button [i] comes only in a pass before which
    the button has read as released for the whole debounce delay.  Both
    loops reach the button in every pass. *)
Definition click_needs_stable_release : Prop :=
  ∀ (c : controller) (i : nat) (before : list tick) (t : tick),
    reachable c → (i < NUMBER_OF_BUTTONS)%nat →
    Forall (visits i) (before ++ [t]) →
    In (Click i) (tick_events t (run before c)) →
    ∀ t', In t' (before ++ [t]) →
          millis t - DEBOUNCE_DELAY_MILLS ≤ millis t' ≤ millis t →
          pressed t' i = false.

(** C7 as stated: button [i] reads released in the pass [idle] and before,
    pressed in the passes [d :: down] and released in the passes [u :: up];
    the first released read comes less than the debounce delay after the
    first pressed read; then no handler is called for [i] after [idle].
    Both loops reach the button in every pass. *)
Definition short_press_is_silent : Prop :=
  ∀ (c : controller) (i : nat) (idle d u : tick) (down up : list tick),
    reachable c → (i < NUMBER_OF_BUTTONS)%nat →
    Forall (visits i) (idle :: d :: down ++ u :: up) →
    last_button_read (btn c) !!! i = false →
    pressed idle i = false →
    Forall (λ t, pressed t i = true) (d :: down) →
    Forall (λ t, pressed t i = false) (u :: up) →
    millis u - millis d < DEBOUNCE_DELAY_MILLS →
    events_of i (run_events (d :: down ++ u :: up) (loop idle c)) = [].

(** C9 as stated: each gated task writes to the hardware exactly when at
    least its interval has passed since its last run. *)
Definition gates_open_at_interval : Prop :=
  ∀ (c : controller) (last now : Z),
    reachable c → 0 ≤ last ≤ now → now < ULONG_MODULUS →
    (last_fan_update c = Some last →
     (outputs (process_fan_schedule now c) ≠ outputs c
      ↔ FAN_REFRESH_RATE_MILLIS ≤ now - last))
    ∧ (last_display_update c = Some last →
       (outputs (process_display_schedule now c) ≠ outputs c
        ↔ DISPLAY_REFRESH_RATE_MILLIS ≤ now - last)).

(** The comparison of a timer agrees, for every clock reading, with the
    elapsed time taken modulo [2^32]. *)
Definition timers_wraparound_consistent : Prop :=
  ∀ mark interval now : Z,
    0 ≤ mark < ULONG_MODULUS → 0 ≤ now < ULONG_MODULUS →
    In interval [BUTTON_HOLD_FOR_TURBO_DELAY_IN_MILLIS; DEBOUNCE_DELAY_MILLS;
                 TURBO_TEXT_DISPLAY_TIME_IN_MILLIS; FAN_REFRESH_RATE_MILLIS;
                 DISPLAY_REFRESH_RATE_MILLIS] →
    deadline_passed mark interval now = (interval <? elapsed mark now).

(** * Properties *)

(** ** The embedding at work *)

Example speed_up_from_default :
  user_fan_speed (process_button_click SPEED_UP_BUTTON
                    (Machine SYSTEM_ON false DEFAULT_FAN_SPEED None None)) = 3.
Proof. reflexivity. Qed.

Example slow_down_stops_at_one :
  user_fan_speed (process_button_click SPEED_DOWN_BUTTON
                    (Machine SYSTEM_ON false 1 None None)) = 1.
Proof. reflexivity. Qed.

Example hold_sets_turbo :
  user_fan_speed (process_button_hold ONOFF_TOGGLE_BUTTON
                    (Machine TURBO_REQUESTED false 9 (Some 2) (Some 100))) = 10.
Proof. reflexivity. Qed.

Example duty_cycle_of_level_five :
  outputs (process_fan_speed
             (with_fsm (λ _, Machine SYSTEM_ON false 5 None None) power_on))
  = [AnalogWrite FAN_CONTROL_PIN 205].
Proof. reflexivity. Qed.

Example classify_table :
  classify false false = IS_NOT_PRESSED ∧ classify false true = IS_PRESSED
  ∧ classify true true = IS_HELD ∧ classify true false = WAS_RELEASED.
Proof. repeat split. Qed.

(** ** Clock arithmetic *)

Lemma wrap32_small (x : Z) : 0 ≤ x < ULONG_MODULUS → wrap32 x = x.
Proof. intros Hx. unfold wrap32. apply Z.mod_small. exact Hx. Qed.

Lemma wrap32_once (x : Z) :
  ULONG_MODULUS ≤ x < 2 * ULONG_MODULUS → wrap32 x = x - ULONG_MODULUS.
Proof.
  intros Hx. unfold wrap32.
  symmetry. apply (Z.mod_unique x ULONG_MODULUS 1); unfold ULONG_MODULUS in *; lia.
Qed.

Lemma deadline_passed_no_wrap (mark interval now : Z) :
  0 ≤ mark → 0 ≤ interval → mark + interval < ULONG_MODULUS →
  deadline_passed mark interval now = (mark + interval <? now).
Proof.
  intros Hm Hi Hs. unfold deadline_passed. rewrite wrap32_small; [reflexivity | lia].
Qed.

Lemma deadline_passed_wrapped (mark interval now : Z) :
  ULONG_MODULUS ≤ mark + interval < 2 * ULONG_MODULUS →
  deadline_passed mark interval now = (mark + interval - ULONG_MODULUS <? now).
Proof.
  intros Hs. unfold deadline_passed. rewrite wrap32_once; [reflexivity | lia].
Qed.

(** ** The state machine, operation by operation *)

Ltac machine_cases :=
  unfold process_button_click, process_button_hold, process_onoff_click,
    process_onoff_hold, process_speed_up_click, process_speed_down_click,
    speed_up_fan_speed, slow_down_fan_speed, set_max_fan_speed,
    process_turbo_request, turbo_request_exit, turbo_request_enter;
  cbn [onoff_state turbo_requested_by_user user_fan_speed save_fan_speed
       turbo_request_displayed_timer set_onoff_state
       set_turbo_requested_by_user set_user_fan_speed set_save_fan_speed
       set_turbo_request_displayed_timer default from_option];
  repeat (case_bool_decide || case_match);
  cbn [onoff_state turbo_requested_by_user user_fan_speed save_fan_speed
       turbo_request_displayed_timer set_onoff_state
       set_turbo_requested_by_user set_user_fan_speed set_save_fan_speed
       set_turbo_request_displayed_timer default from_option] in *.

(** Off is left only through the power handler or a pending turbo request;
    while Off nothing else changes the speed, the saved speed or the flag. *)
Lemma off_step_frame (op : machine_op) (m : machine) :
  onoff_state m = SYSTEM_OFF →
  turbo_requested_by_user m = false →
  op ≠ OpClick ONOFF_TOGGLE_BUTTON →
  onoff_state (machine_step op m) = SYSTEM_OFF
  ∧ turbo_requested_by_user (machine_step op m) = false
  ∧ user_fan_speed (machine_step op m) = user_fan_speed m
  ∧ save_fan_speed (machine_step op m) = save_fan_speed m.
Proof.
  intros Hoff Hflag Hop. destruct m as [st fl sp sv tm]. simpl in *. subst.
  destruct op as [i | i | now]; simpl; machine_cases; simplify_eq; auto.
  match goal with H : (_ =? _)%nat = true |- _ => apply Nat.eqb_eq in H; subst end.
  contradiction.
Qed.

Lemma off_step_saved (op : machine_op) (m : machine) :
  onoff_state m = SYSTEM_OFF →
  onoff_state (machine_step op m) = SYSTEM_OFF →
  save_fan_speed (machine_step op m) = save_fan_speed m.
Proof.
  intros Hoff Hoff'. destruct m as [st fl sp sv tm]. simpl in *. subst.
  destruct op as [i | i | now]; simpl in *; revert Hoff';
    machine_cases; intros; simplify_eq; auto.
Qed.

Lemma off_trace_saved (ops : list machine_op) (m : machine) :
  onoff_state m = SYSTEM_OFF →
  Forall (λ m', onoff_state m' = SYSTEM_OFF) (machine_trace ops m) →
  onoff_state (machine_run ops m) = SYSTEM_OFF
  ∧ save_fan_speed (machine_run ops m) = save_fan_speed m.
Proof.
  revert m. induction ops as [| op ops IH]; intros m Hoff Hall; simpl in *.
  - auto.
  - inversion Hall as [| ? ? Hhd Htl]; subst.
    destruct (IH _ Hhd Htl) as [Hst Hsv]. split; [exact Hst |].
    rewrite Hsv. apply off_step_saved; assumption.
Qed.

(** C3. A power-toggle click taken while the system is on (On or
    TurboRequested), followed by a second power-toggle click with the system
    Off in every state in between, whatever other handler calls and turbo
    checks happen meanwhile, puts the system On with the fan speed level it
    had before the first click. *)
Theorem power_toggle_round_trip (m : machine) (ops : list machine_op) :
  onoff_state m ≠ SYSTEM_OFF →
  Forall (λ m', onoff_state m' = SYSTEM_OFF)
         (machine_trace ops (process_button_click ONOFF_TOGGLE_BUTTON m)) →
  let off := process_button_click ONOFF_TOGGLE_BUTTON m in
  let back := process_button_click ONOFF_TOGGLE_BUTTON (machine_run ops off) in
  onoff_state off = SYSTEM_OFF
  ∧ onoff_state back = SYSTEM_ON
  ∧ user_fan_speed back = user_fan_speed m.
Proof.
  intros Hon Hall off back.
  assert (Hoff : onoff_state off = SYSTEM_OFF
                 ∧ save_fan_speed off = Some (user_fan_speed m)).
  { subst off. destruct m as [st fl sp sv tm]. simpl in *.
    machine_cases; simplify_eq; auto. }
  destruct Hoff as [Hoff Hsave].
  destruct (off_trace_saved ops off Hoff Hall) as [Hst Hsv].
  rewrite Hsave in Hsv. subst back.
  destruct (machine_run ops off) as [st fl sp sv tm]. simpl in *. subst.
  split; [exact Hoff |]. machine_cases; simplify_eq; auto.
Qed.

Lemma power_toggle_round_trip_witness :
  let m := Machine SYSTEM_ON false 7 (Some 2) (Some 1500) in
  let ops := [OpClick SPEED_UP_BUTTON; OpTurbo 3000; OpHold ONOFF_TOGGLE_BUTTON;
              OpClick SPEED_DOWN_BUTTON; OpTurbo 3001] in
  onoff_state (process_button_click ONOFF_TOGGLE_BUTTON m) = SYSTEM_OFF
  ∧ onoff_state (process_button_click ONOFF_TOGGLE_BUTTON
       (machine_run ops (process_button_click ONOFF_TOGGLE_BUTTON m))) = SYSTEM_ON
  ∧ user_fan_speed (process_button_click ONOFF_TOGGLE_BUTTON
       (machine_run ops (process_button_click ONOFF_TOGGLE_BUTTON m))) = 7.
Proof.
  intros m ops. apply (power_toggle_round_trip m ops).
  - discriminate.
  - repeat constructor.
Defined.

(** ** Turbo request *)

(** C4. With the system On at level 9, a speed-up click leaves the level at
    9 and raises the turbo request; the turbo check of the same pass takes
    the request up (the state becomes TurboRequested and the prompt timer is
    set to the clock reading), clears the flag and leaves the level at 9.
    The pass ends in TurboRequested when the clock reading is more than
    TURBO_TEXT_DISPLAY_TIME_IN_MILLIS below [2^32]; for the last 500
    readings before the clock wraps the exit test of the same call succeeds
    and the pass ends in On. *)
Theorem speed_up_at_nine_requests_turbo (m : machine) (now : Z) :
  onoff_state m = SYSTEM_ON →
  user_fan_speed m = MAX_PWM_SPEED →
  0 ≤ now < ULONG_MODULUS →
  let clicked := process_button_click SPEED_UP_BUTTON m in
  let ended := process_turbo_request now clicked in
  user_fan_speed clicked = 9
  ∧ turbo_requested_by_user clicked = true
  ∧ onoff_state (turbo_request_enter now clicked) = TURBO_REQUESTED
  ∧ user_fan_speed ended = 9
  ∧ turbo_requested_by_user ended = false
  ∧ (now + TURBO_TEXT_DISPLAY_TIME_IN_MILLIS < ULONG_MODULUS →
     onoff_state ended = TURBO_REQUESTED
     ∧ turbo_request_displayed_timer ended = Some now)
  ∧ (ULONG_MODULUS ≤ now + TURBO_TEXT_DISPLAY_TIME_IN_MILLIS →
     onoff_state ended = SYSTEM_ON).
Proof.
  intros Hon Hnine Hnow clicked ended. subst clicked ended.
  destruct m as [st fl sp sv tm]. simpl in *. subst.
  assert (Hkeep : deadline_passed now TURBO_TEXT_DISPLAY_TIME_IN_MILLIS now = false
                  ∨ ULONG_MODULUS ≤ now + TURBO_TEXT_DISPLAY_TIME_IN_MILLIS).
  { destruct (Z_lt_le_dec (now + TURBO_TEXT_DISPLAY_TIME_IN_MILLIS) ULONG_MODULUS)
      as [Hlt | Hge]; [left | right; exact Hge].
    rewrite deadline_passed_no_wrap;
      unfold TURBO_TEXT_DISPLAY_TIME_IN_MILLIS in *; lia. }
  assert (Hleave : ULONG_MODULUS ≤ now + TURBO_TEXT_DISPLAY_TIME_IN_MILLIS →
                   deadline_passed now TURBO_TEXT_DISPLAY_TIME_IN_MILLIS now = true).
  { intros Hge. rewrite deadline_passed_wrapped;
      unfold TURBO_TEXT_DISPLAY_TIME_IN_MILLIS, ULONG_MODULUS in *; lia. }
  unfold process_button_click, process_speed_up_click, speed_up_fan_speed,
    process_turbo_request, turbo_request_exit, turbo_request_enter.
  simpl.
  destruct (deadline_passed now TURBO_TEXT_DISPLAY_TIME_IN_MILLIS now) eqn:Hd;
    simpl; repeat split; try reflexivity.
  - destruct Hkeep as [Hk | Hk]; [discriminate Hk | lia].
  - intros Hc. discriminate (Hleave Hc).
Qed.

Lemma speed_up_at_nine_requests_turbo_witness :
  let m := Machine SYSTEM_ON false 9 (Some 2) (Some 1200) in
  let ended := process_turbo_request 60000 (process_button_click SPEED_UP_BUTTON m) in
  user_fan_speed ended = 9 ∧ onoff_state ended = TURBO_REQUESTED.
Proof.
  intros m ended.
  destruct (speed_up_at_nine_requests_turbo m 60000)
    as (_ & _ & _ & Hspeed & _ & Hstay & _).
  - reflexivity.
  - reflexivity.
  - unfold ULONG_MODULUS. lia.
  - split; [exact Hspeed |]. apply Hstay. reflexivity.
Defined.

(** C4, as stated, fails at the end of the clock range: at reading
    [2^32 - 1] the pass that handles the click ends in On. *)
Lemma speed_up_at_nine_counterexample :
  let m := Machine SYSTEM_ON false 9 (Some 2) (Some 1200) in
  onoff_state m = SYSTEM_ON ∧ user_fan_speed m = 9
  ∧ onoff_state
      (process_turbo_request 4294967295
         (process_button_click SPEED_UP_BUTTON m)) ≠ TURBO_REQUESTED.
Proof. repeat split. vm_compute. discriminate. Qed.

Lemma turbo_check_idle (now : Z) (m : machine) :
  turbo_requested_by_user m = false →
  process_turbo_request now m =
    Machine (if turbo_request_exit now
                  (set_turbo_request_displayed_timer
                     (default now (turbo_request_displayed_timer m)) m)
             then SYSTEM_ON else onoff_state m)
            false (user_fan_speed m) (save_fan_speed m)
            (Some (default now (turbo_request_displayed_timer m))).
Proof.
  intros Hflag. destruct m as [st fl sp sv tm]. simpl in *. subst.
  unfold process_turbo_request, turbo_request_enter. simpl.
  destruct (negb (sp =? MAX_FAN_SPEED));
    destruct (turbo_request_exit now _); reflexivity.
Qed.

Lemma turbo_prompt_waits (m : machine) (mark : Z) (idle : list Z) :
  onoff_state m = TURBO_REQUESTED →
  turbo_request_displayed_timer m = Some mark →
  turbo_requested_by_user m = false →
  0 ≤ mark → mark + TURBO_TEXT_DISPLAY_TIME_IN_MILLIS < ULONG_MODULUS →
  Forall (λ t, t ≤ mark + TURBO_TEXT_DISPLAY_TIME_IN_MILLIS) idle →
  let m' := machine_run (map OpTurbo idle) m in
  turbo_requested_by_user m' = false
  ∧ turbo_request_displayed_timer m' = Some mark
  ∧ user_fan_speed m' = user_fan_speed m
  ∧ (onoff_state m' = TURBO_REQUESTED ∨ onoff_state m' = SYSTEM_ON)
  ∧ (user_fan_speed m ≠ MAX_FAN_SPEED → onoff_state m' = TURBO_REQUESTED).
Proof.
  intros Hst Htm Hfl Hmark Hwrap Hidle.
  assert (Hgen : ∀ m0,
    (onoff_state m0 = TURBO_REQUESTED ∨ onoff_state m0 = SYSTEM_ON) →
    (user_fan_speed m ≠ MAX_FAN_SPEED → onoff_state m0 = TURBO_REQUESTED) →
    turbo_request_displayed_timer m0 = Some mark →
    turbo_requested_by_user m0 = false →
    user_fan_speed m0 = user_fan_speed m →
    let m' := machine_run (map OpTurbo idle) m0 in
    turbo_requested_by_user m' = false
    ∧ turbo_request_displayed_timer m' = Some mark
    ∧ user_fan_speed m' = user_fan_speed m
    ∧ (onoff_state m' = TURBO_REQUESTED ∨ onoff_state m' = SYSTEM_ON)
    ∧ (user_fan_speed m ≠ MAX_FAN_SPEED → onoff_state m' = TURBO_REQUESTED)).
  { induction Hidle as [| t idle Ht Hrest IH]; intros m0 Hs0 Hk0 Ht0 Hf0 Hp0; simpl.
    - auto.
    - apply IH; rewrite (turbo_check_idle t m0 Hf0); rewrite ?Ht0; simpl;
        try reflexivity; try assumption.
      + destruct (turbo_request_exit t _); auto.
      + intros Hne. specialize (Hk0 Hne).
        unfold turbo_request_exit. simpl. rewrite Hk0, Hp0.
        rewrite bool_decide_eq_true_2 by reflexivity.
        rewrite deadline_passed_no_wrap
          by (unfold TURBO_TEXT_DISPLAY_TIME_IN_MILLIS in *; lia).
        replace (mark + TURBO_TEXT_DISPLAY_TIME_IN_MILLIS <? t) with false
          by (symmetry; apply Z.ltb_ge; exact Ht).
        replace (user_fan_speed m =? MAX_FAN_SPEED) with false
          by (symmetry; apply Z.eqb_neq; exact Hne).
        reflexivity. }
  apply Hgen; auto.
Qed.

(** C5. From TurboRequested with the request flag down and with only turbo
    checks following: after checks at readings up to the prompt mark plus
    TURBO_TEXT_DISPLAY_TIME_IN_MILLIS, the first check at a later reading
    leaves the system On with the fan speed level it had; below level 10 the
    system is still TurboRequested until that check.  And a turbo check made
    in TurboRequested at level 10 leaves the system On, whatever the clock
    reading. *)
Theorem turbo_prompt_times_out (m : machine) :
  onoff_state m = TURBO_REQUESTED →
  (∀ (mark : Z) (idle : list Z) (now : Z),
     turbo_request_displayed_timer m = Some mark →
     turbo_requested_by_user m = false →
     0 ≤ mark →
     Forall (λ t, t ≤ mark + TURBO_TEXT_DISPLAY_TIME_IN_MILLIS) idle →
     mark + TURBO_TEXT_DISPLAY_TIME_IN_MILLIS < now < ULONG_MODULUS →
     let before := machine_run (map OpTurbo idle) m in
     let after := process_turbo_request now before in
     (user_fan_speed m ≠ MAX_FAN_SPEED → onoff_state before = TURBO_REQUESTED)
     ∧ onoff_state after = SYSTEM_ON
     ∧ user_fan_speed after = user_fan_speed m)
  ∧ (∀ now : Z,
       user_fan_speed m = MAX_FAN_SPEED →
       onoff_state (process_turbo_request now m) = SYSTEM_ON
       ∧ user_fan_speed (process_turbo_request now m) = MAX_FAN_SPEED).
Proof.
  intros Hst. split.
  - intros mark idle now Htm Hfl Hmark Hidle Hnow before after.
    destruct (turbo_prompt_waits m mark idle Hst Htm Hfl Hmark ltac:(lia) Hidle)
      as (Hf & Ht & Hp & Hs & Hk).
    fold before in Hf, Ht, Hp, Hs, Hk.
    split; [exact Hk |]. subst after.
    rewrite (turbo_check_idle now before Hf). simpl. split; [| exact Hp].
    rewrite Ht. simpl. unfold turbo_request_exit. simpl.
    destruct Hs as [Hs | Hs]; rewrite Hs.
    + rewrite bool_decide_eq_true_2 by reflexivity.
      rewrite deadline_passed_no_wrap
        by (unfold TURBO_TEXT_DISPLAY_TIME_IN_MILLIS in *; lia).
      replace (mark + TURBO_TEXT_DISPLAY_TIME_IN_MILLIS <? now) with true
        by (symmetry; apply Z.ltb_lt; lia).
      reflexivity.
    + rewrite bool_decide_eq_false_2 by discriminate. reflexivity.
  - intros now Hmax. destruct m as [st fl sp sv tm]. simpl in *. subst.
    unfold process_turbo_request, turbo_request_enter, turbo_request_exit. simpl.
    rewrite orb_true_r. simpl. auto.
Qed.

Lemma turbo_prompt_times_out_witness :
  let m := Machine TURBO_REQUESTED false 9 (Some 2) (Some 1000) in
  onoff_state (process_turbo_request 1501
                 (machine_run (map OpTurbo [1001; 1250; 1500]) m)) = SYSTEM_ON
  ∧ user_fan_speed (process_turbo_request 1501
                 (machine_run (map OpTurbo [1001; 1250; 1500]) m)) = 9
  ∧ onoff_state (machine_run (map OpTurbo [1001; 1250; 1500]) m) = TURBO_REQUESTED.
Proof.
  intros m.
  destruct (turbo_prompt_times_out m eq_refl) as [Htimeout _].
  destruct (Htimeout 1000 [1001; 1250; 1500] 1501) as (Hstay & Hon & Hspeed).
  - reflexivity.
  - reflexivity.
  - lia.
  - repeat constructor; unfold TURBO_TEXT_DISPLAY_TIME_IN_MILLIS; lia.
  - unfold TURBO_TEXT_DISPLAY_TIME_IN_MILLIS, ULONG_MODULUS; lia.
  - split; [exact Hon |]. split; [exact Hspeed |]. apply Hstay. discriminate.
Defined.

(** C5, as stated, fails when the clock wraps before a reading above the
    mark plus the prompt time is seen.  The sketch is started 3201 ms before
    the wrap, switched on and stepped up to level 9; the speed-up click
    handled at reading [2^32 - 501] puts up the prompt with that mark.  The
    deadline is [2^32 - 1], which no reading exceeds: a turbo check leaves
    the system in TurboRequested at every reading, so also 500 ms, 501 ms
    and 100501 ms after the mark. *)
Lemma turbo_prompt_stuck_counterexample :
  fsm (run climb_before_wrap (booted_at 4294964095))
  = Machine TURBO_REQUESTED false 9 (Some 2) (Some 4294966795)
  ∧ elapsed 4294966795 100000 = 100501
  ∧ onoff_state
      (machine_run (map OpTurbo [4294967295; 0; 1; 500; 1000; 100000])
         (fsm (run climb_before_wrap (booted_at 4294964095))))
    = TURBO_REQUESTED
  ∧ (∀ now, 0 ≤ now < ULONG_MODULUS →
       onoff_state (process_turbo_request now
                      (fsm (run climb_before_wrap (booted_at 4294964095))))
       = TURBO_REQUESTED)
  ∧ ¬ turbo_prompt_always_times_out.
Proof.
  assert (Hfsm : fsm (run climb_before_wrap (booted_at 4294964095))
                 = Machine TURBO_REQUESTED false 9 (Some 2) (Some 4294966795))
    by (vm_compute; reflexivity).
  rewrite Hfsm.
  split; [reflexivity |]. split; [reflexivity |]. split; [reflexivity |].
  assert (Hstuck : ∀ now, 0 ≤ now < ULONG_MODULUS →
            onoff_state (process_turbo_request now
              (Machine TURBO_REQUESTED false 9 (Some 2) (Some 4294966795)))
            = TURBO_REQUESTED).
  { intros now Hnow.
    assert (Hopen : deadline_passed 4294966795 TURBO_TEXT_DISPLAY_TIME_IN_MILLIS now
                    = false).
    { rewrite deadline_passed_no_wrap
        by (unfold TURBO_TEXT_DISPLAY_TIME_IN_MILLIS, ULONG_MODULUS; lia).
      apply Z.ltb_ge.
      unfold TURBO_TEXT_DISPLAY_TIME_IN_MILLIS, ULONG_MODULUS in *. lia. }
    rewrite turbo_check_idle by reflexivity.
    unfold turbo_request_exit. simpl. unfold id. rewrite Hopen. reflexivity. }
  split; [exact Hstuck |].
  intros Hclaim.
  specialize (Hclaim (Machine TURBO_REQUESTED false 9 (Some 2) (Some 4294966795))
                4294966795 100000).
  rewrite Hstuck in Hclaim by (unfold ULONG_MODULUS; lia).
  assert (Hon : TURBO_REQUESTED = SYSTEM_ON); [| discriminate Hon].
  apply Hclaim; try reflexivity; unfold ULONG_MODULUS; try lia.
Qed.

(** ** Power toggle *)

Lemma boot_machine_idles (ops : list machine_op) :
  Forall (λ op, op ≠ OpClick ONOFF_TOGGLE_BUTTON) ops →
  let m := machine_run ops boot_machine in
  onoff_state m = SYSTEM_OFF
  ∧ turbo_requested_by_user m = false
  ∧ user_fan_speed m = DEFAULT_FAN_SPEED
  ∧ save_fan_speed m = None.
Proof.
  intros Hops.
  assert (Hgen : ∀ m0,
    onoff_state m0 = SYSTEM_OFF → turbo_requested_by_user m0 = false →
    user_fan_speed m0 = DEFAULT_FAN_SPEED → save_fan_speed m0 = None →
    let m := machine_run ops m0 in
    onoff_state m = SYSTEM_OFF ∧ turbo_requested_by_user m = false
    ∧ user_fan_speed m = DEFAULT_FAN_SPEED ∧ save_fan_speed m = None).
  { induction Hops as [| op ops Hop Hrest IH]; intros m0 Hs Hf Hp Hv; simpl.
    - auto.
    - destruct (off_step_frame op m0 Hs Hf Hop) as (Hs' & Hf' & Hp' & Hv').
      apply IH; congruence. }
  apply Hgen; reflexivity.
Qed.

(** C10. Until the power-toggle click handler has run for the first time the
    saved speed is not initialised, the system is Off and the fan speed level
    is DEFAULT_FAN_SPEED; the first power-toggle click, whatever other
    handler calls and turbo checks came before it, initialises the saved
    speed to DEFAULT_FAN_SPEED = 2 and puts the system On at level 2. *)
Theorem first_power_on_uses_default (ops : list machine_op) :
  Forall (λ op, op ≠ OpClick ONOFF_TOGGLE_BUTTON) ops →
  let before := machine_run ops boot_machine in
  let after := process_button_click ONOFF_TOGGLE_BUTTON before in
  save_fan_speed before = None
  ∧ onoff_state before = SYSTEM_OFF
  ∧ save_fan_speed after = Some DEFAULT_FAN_SPEED
  ∧ onoff_state after = SYSTEM_ON
  ∧ user_fan_speed after = 2.
Proof.
  intros Hops before after.
  destruct (boot_machine_idles ops Hops) as (Hs & Hf & Hp & Hv).
  fold before in Hs, Hf, Hp, Hv. subst after.
  destruct before as [st fl sp sv tm]. simpl in *. subst.
  repeat split.
Qed.

Lemma first_power_on_uses_default_witness :
  let ops := [OpClick SPEED_UP_BUTTON; OpTurbo 2100; OpHold ONOFF_TOGGLE_BUTTON;
              OpTurbo 2101; OpClick SPEED_DOWN_BUTTON; OpTurbo 2102] in
  user_fan_speed
    (process_button_click ONOFF_TOGGLE_BUTTON (machine_run ops boot_machine)) = 2.
Proof.
  intros ops. apply (first_power_on_uses_default ops).
  repeat constructor; discriminate.
Defined.

(** ** Timers *)

(** C8. Take a mark, an interval and a clock reading, all below [2^32].
    The comparison [mark + interval < millis()] gives the elapsed-time
    answer exactly when the deadline [mark + interval] and the clock have
    wrapped equally often since the mark was taken: neither has, or both
    have.  When only the deadline has wrapped, the comparison reports the
    interval as over although it is not; when only the clock has wrapped,
    it reports the interval as not over although it is. *)
Theorem deadline_passed_iff_wraps_agree (mark interval now : Z) :
  0 ≤ mark < ULONG_MODULUS → 0 ≤ now < ULONG_MODULUS →
  0 ≤ interval < ULONG_MODULUS →
  (deadline_passed mark interval now = (interval <? elapsed mark now)
   ↔ (mark + interval < ULONG_MODULUS ↔ mark ≤ now))
  ∧ (ULONG_MODULUS ≤ mark + interval → mark ≤ now →
     deadline_passed mark interval now = true
     ∧ (interval <? elapsed mark now) = false)
  ∧ (mark + interval < ULONG_MODULUS → now < mark →
     deadline_passed mark interval now = false
     ∧ (interval <? elapsed mark now) = true).
Proof.
  intros Hmark Hnow Hint.
  assert (Hdeadline : deadline_passed mark interval now
                      = if mark + interval <? ULONG_MODULUS
                        then mark + interval <? now
                        else mark + interval - ULONG_MODULUS <? now).
  { destruct (Z.ltb_spec (mark + interval) ULONG_MODULUS).
    - apply deadline_passed_no_wrap; lia.
    - apply deadline_passed_wrapped. lia. }
  assert (Helapsed : elapsed mark now
                     = if mark <=? now then now - mark
                       else now - mark + ULONG_MODULUS).
  { unfold elapsed. destruct (Z.leb_spec mark now).
    - apply wrap32_small. lia.
    - unfold wrap32. symmetry.
      apply (Z.mod_unique (now - mark) ULONG_MODULUS (-1)); lia. }
  rewrite Hdeadline, Helapsed.
  destruct (Z.ltb_spec (mark + interval) ULONG_MODULUS) as [Hd | Hd],
           (Z.leb_spec mark now) as [Hc | Hc].
  - split; [| split; intros; lia].
    destruct (Z.ltb_spec (mark + interval) now), (Z.ltb_spec interval (now - mark));
      split; intros; try reflexivity; try discriminate; lia.
  - replace (mark + interval <? now) with false by (symmetry; apply Z.ltb_ge; lia).
    replace (interval <? now - mark + ULONG_MODULUS) with true
      by (symmetry; apply Z.ltb_lt; lia).
    split; [| split; intros; try lia; auto].
    split; [discriminate | intros; lia].
  - replace (mark + interval - ULONG_MODULUS <? now) with true
      by (symmetry; apply Z.ltb_lt; lia).
    replace (interval <? now - mark) with false by (symmetry; apply Z.ltb_ge; lia).
    split; [| split; intros; try lia; auto].
    split; [discriminate | intros; lia].
  - split; [| split; intros; lia].
    destruct (Z.ltb_spec (mark + interval - ULONG_MODULUS) now),
             (Z.ltb_spec interval (now - mark + ULONG_MODULUS));
      split; intros; try reflexivity; try discriminate; lia.
Qed.

Lemma deadline_passed_iff_wraps_agree_witness :
  deadline_passed 1000 DEBOUNCE_DELAY_MILLS 1041
  = (DEBOUNCE_DELAY_MILLS <? elapsed 1000 1041)
  ∧ deadline_passed 4294967286 DEBOUNCE_DELAY_MILLS 50
    = (DEBOUNCE_DELAY_MILLS <? elapsed 4294967286 50).
Proof.
  split.
  - destruct (deadline_passed_iff_wraps_agree 1000 DEBOUNCE_DELAY_MILLS 1041)
      as [[_ Hright] _]; try (unfold DEBOUNCE_DELAY_MILLS, ULONG_MODULUS; lia).
    apply Hright. unfold DEBOUNCE_DELAY_MILLS, ULONG_MODULUS. split; intros; lia.
  - destruct (deadline_passed_iff_wraps_agree 4294967286 DEBOUNCE_DELAY_MILLS 50)
      as [[_ Hright] _]; try (unfold DEBOUNCE_DELAY_MILLS, ULONG_MODULUS; lia).
    apply Hright. unfold DEBOUNCE_DELAY_MILLS, ULONG_MODULUS. split; intros; lia.
Defined.

(** C8, as stated, fails across the wrap, in both directions.  A mark taken
    10 ms before the clock wraps is reported as older than the debounce
    delay 5 ms later (the deadline has wrapped, the clock has not); a mark
    taken 296 ms before the wrap is reported as not older than the debounce
    delay 396 ms later (the clock has wrapped, the deadline has not). *)
Lemma timers_wraparound_counterexample :
  deadline_passed 4294967286 DEBOUNCE_DELAY_MILLS 4294967291 = true
  ∧ elapsed 4294967286 4294967291 = 5
  ∧ deadline_passed 4294967000 DEBOUNCE_DELAY_MILLS 100 = false
  ∧ elapsed 4294967000 100 = 396
  ∧ ¬ timers_wraparound_consistent.
Proof.
  split; [reflexivity |]. split; [reflexivity |].
  split; [reflexivity |]. split; [reflexivity |].
  intros Hclaim.
  specialize (Hclaim 4294967286 DEBOUNCE_DELAY_MILLS 4294967291).
  assert (Hcode : deadline_passed 4294967286 DEBOUNCE_DELAY_MILLS 4294967291 = true)
    by reflexivity.
  assert (Hspec : (DEBOUNCE_DELAY_MILLS <? elapsed 4294967286 4294967291) = false)
    by reflexivity.
  rewrite Hcode, Hspec in Hclaim.
  discriminate Hclaim.
  - unfold ULONG_MODULUS. lia.
  - unfold ULONG_MODULUS. lia.
  - simpl. auto.
Qed.

Arguments deadline_passed : simpl never.

(** ** From the arrays to one button *)

Lemma three_elements {A : Type} (l : list A) :
  length l = NUMBER_OF_BUTTONS → ∃ a b c, l = [a; b; c].
Proof.
  destruct l as [| a [| b [| c [| d l]]]]; intros H; try discriminate H. eauto.
Qed.

Lemma below_three (i : nat) :
  (i < NUMBER_OF_BUTTONS)%nat → i = 0%nat ∨ i = 1%nat ∨ i = 2%nat.
Proof. unfold NUMBER_OF_BUTTONS. lia. Qed.

Ltac explode c Hwf :=
  let bs := fresh "bs" in let lr := fresh "lr" in
  let ts := fresh "ts" in let fl := fresh "fl" in
  let Hbs := fresh "Hbs" in let Hlr := fresh "Hlr" in
  let Hfl := fresh "Hfl" in let Hts := fresh "Hts" in
  destruct c as [[bs lr ts fl] ? ? ? ? ? ?];
  destruct Hwf as (Hbs & Hlr & Hfl & Hts);
  cbn [btn button_state last_button_read last_button_state
       last_interaction_timestamp] in Hbs, Hlr, Hfl, Hts;
  apply three_elements in Hbs as (? & ? & ? & ->);
  apply three_elements in Hlr as (? & ? & ? & ->);
  apply three_elements in Hfl as (? & ? & ? & ->);
  try (destruct ts as [ts |];
       [apply three_elements in Hts as (? & ? & ? & ->) | clear Hts]).

Lemma elem_of_buttons_from (i start : nat) :
  i ∈ buttons_from start ↔ (start ≤ i < NUMBER_OF_BUTTONS)%nat.
Proof. unfold buttons_from. rewrite elem_of_seq. unfold NUMBER_OF_BUTTONS. lia. Qed.

Lemma buttons_from_below (start : nat) :
  Forall (λ j, (j < NUMBER_OF_BUTTONS)%nat) (buttons_from start).
Proof.
  apply Forall_forall. intros j Hj. apply elem_of_buttons_from in Hj. lia.
Qed.

Lemma buttons_from_NoDup (start : nat) : NoDup (buttons_from start).
Proof. apply NoDup_seq. Qed.

(** The poll loop entered with [start]: a button it reaches is read and
    classified, a button below [start] keeps its last read and its
    classification of the pass before. *)
Lemma poll_input_signals_view (start : nat) (dr : nat → bool) (c : controller)
    (i : nat) :
  wf c → (i < NUMBER_OF_BUTTONS)%nat →
  let c' := with_btn (poll_input_signals start dr) c in
  ((start ≤ i)%nat →
   view i c' = ButtonView (negb (dr (button_pins !!! i)))
                          (view_timestamp (view i c)) (view_flag (view i c))
   ∧ button_state (btn c') !!! i
     = classify (view_read (view i c)) (negb (dr (button_pins !!! i))))
  ∧ ((i < start)%nat →
     view i c' = view i c
     ∧ button_state (btn c') !!! i = button_state (btn c) !!! i)
  ∧ wf c'.
Proof.
  intros Hwf Hi. explode c Hwf;
    destruct (below_three i Hi) as [-> | [-> | ->]];
    destruct start as [| [| [| start]]];
    (split; [intros Hle; try (exfalso; lia); split; reflexivity |]);
    (split; [intros Hlt; try (exfalso; lia); split; reflexivity |]);
    repeat split; reflexivity.
Qed.

Lemma process_button_view (now : Z) (i : nat) (c : controller) :
  wf c → last_interaction_timestamp (btn c) ≠ None →
  (i < NUMBER_OF_BUTTONS)%nat →
  let r := button_resolve i now (button_state (btn c) !!! i) (view i c) in
  let c' := process_button now i c in
  view i c' = r.1
  ∧ (∀ j, j ≠ i → view j c' = view j c)
  ∧ button_state (btn c') = button_state (btn c)
  ∧ events c' = events c ++ r.2
  ∧ fsm c' = machine_run (map op_of_event r.2) (fsm c)
  ∧ wf c' ∧ last_interaction_timestamp (btn c') ≠ None.
Proof.
  intros Hwf Hsome Hi. explode c Hwf; [| contradiction]. clear Hsome.
  destruct (below_three i Hi) as [-> | [-> | ->]];
    unfold process_button, button_resolve, view, timestamps, with_fsm, emit,
      with_btn, set_timestamp, set_last_button_state, timestamps; simpl;
    repeat (case_match; simpl in *; simplify_eq);
    (repeat split; try reflexivity; try discriminate;
     try (intros [| [| [| j]]] Hj; try contradiction; reflexivity);
     try (rewrite app_nil_r; reflexivity)).
Qed.

Lemma events_of_app (i : nat) (l k : list logical_event) :
  events_of i (l ++ k) = events_of i l ++ events_of i k.
Proof. unfold events_of. apply filter_app. Qed.

Lemma button_resolve_events (i j : nat) (now : Z) (st : button_code)
    (v : button_view) :
  events_of i (button_resolve j now st v).2
  = if decide (i = j) then (button_resolve j now st v).2 else [].
Proof.
  unfold button_resolve, events_of.
  repeat case_match; simpl; try reflexivity;
    rewrite ?filter_cons, ?filter_nil; simpl;
    repeat case_decide; simplify_eq; try reflexivity; congruence.
Qed.

Lemma button_resolve_default (i : nat) (now : Z) (st : button_code)
    (r : bool) (ts : option Z) (f : button_code) :
  button_resolve i now st (ButtonView r (Some (default now ts)) f)
  = button_resolve i now st (ButtonView r ts f).
Proof. destruct ts; reflexivity. Qed.

Lemma machine_run_app (ops ops' : list machine_op) (m : machine) :
  machine_run (ops ++ ops') m = machine_run ops' (machine_run ops m).
Proof. unfold machine_run. apply fold_left_app. Qed.

Lemma process_button_fold (now : Z) (js : list nat) (c : controller) :
  wf c → last_interaction_timestamp (btn c) ≠ None →
  Forall (λ j, (j < NUMBER_OF_BUTTONS)%nat) js → NoDup js →
  let c' := fold_left (λ c j, process_button now j c) js c in
  (∀ i, view i c' =
        if decide (i ∈ js)
        then (button_resolve i now (button_state (btn c) !!! i) (view i c)).1
        else view i c)
  ∧ (∀ i, events_of i (events c') =
          events_of i (events c)
          ++ if decide (i ∈ js)
             then (button_resolve i now (button_state (btn c) !!! i) (view i c)).2
             else [])
  ∧ (∃ evs, events c' = events c ++ evs
            ∧ fsm c' = machine_run (map op_of_event evs) (fsm c))
  ∧ button_state (btn c') = button_state (btn c)
  ∧ wf c'.
Proof.
  intros Hwf Hsome Hjs Hnodup. revert c Hwf Hsome.
  induction Hjs as [| j js Hj Hrest IH]; intros c Hwf Hsome; simpl.
  - repeat split; try apply Hwf.
    + intros i. rewrite app_nil_r. reflexivity.
    + exists []. rewrite app_nil_r. auto.
  - apply NoDup_cons in Hnodup as [Hfresh Hnodup].
    destruct (process_button_view now j c Hwf Hsome Hj)
      as (Hv & Hother & Hbs & Hev & Hfsm & Hwf' & Hsome').
    destruct (IH Hnodup _ Hwf' Hsome') as (IHv & IHev & (evs & IHlog & IHfsm) & IHbs & IHwf).
    repeat split; try apply IHwf.
    + intros i. rewrite IHv. destruct (decide (i = j)) as [-> | Hne].
      * rewrite decide_False by exact Hfresh.
        rewrite decide_True by apply list_elem_of_here. exact Hv.
      * rewrite Hbs, (Hother i Hne).
        destruct (decide (i ∈ js)) as [Hin | Hout].
        -- rewrite decide_True by (apply list_elem_of_further; exact Hin). reflexivity.
        -- rewrite decide_False; [reflexivity |].
           intros Hin. apply elem_of_cons in Hin as [? | ?]; contradiction.
    + intros i. rewrite IHev, Hev. unfold events_of at 1. rewrite filter_app.
      fold (events_of i (events c)).
      fold (events_of i (button_resolve j now (button_state (btn c) !!! j) (view j c)).2).
      rewrite button_resolve_events, <- app_assoc. f_equal.
      destruct (decide (i = j)) as [-> | Hne].
      * rewrite decide_False by exact Hfresh.
        rewrite decide_True by apply list_elem_of_here. apply app_nil_r.
      * rewrite Hbs, (Hother i Hne). simpl.
        destruct (decide (i ∈ js)) as [Hin | Hout].
        -- rewrite decide_True by (apply list_elem_of_further; exact Hin). reflexivity.
        -- rewrite decide_False; [reflexivity |].
           intros Hin. apply elem_of_cons in Hin as [? | ?]; contradiction.
    + exists ((button_resolve j now (button_state (btn c) !!! j) (view j c)).2 ++ evs).
      rewrite IHlog, Hev, app_assoc. split; [reflexivity |].
      rewrite IHfsm, Hfsm, map_app, machine_run_app. reflexivity.
    + rewrite IHbs. exact Hbs.
Qed.

Lemma enter_process_buttons_view (now : Z) (c : controller) (i : nat) :
  wf c → (i < NUMBER_OF_BUTTONS)%nat →
  let c' := with_btn (enter_process_buttons now) c in
  view i c' = ButtonView (view_read (view i c))
                         (Some (default now (view_timestamp (view i c))))
                         (view_flag (view i c))
  ∧ wf c' ∧ last_interaction_timestamp (btn c') ≠ None.
Proof.
  intros Hwf Hi. explode c Hwf;
    destruct (below_three i Hi) as [-> | [-> | ->]];
    repeat split; discriminate.
Qed.

Lemma wf_frame (c c' : controller) : btn c' = btn c → wf c → wf c'.
Proof. unfold wf. intros ->. auto. Qed.

Lemma view_frame (i : nat) (c c' : controller) : btn c' = btn c → view i c' = view i c.
Proof. unfold view. intros ->. reflexivity. Qed.

Lemma process_fan_schedule_frame (now : Z) (c : controller) :
  btn (process_fan_schedule now c) = btn c
  ∧ fsm (process_fan_schedule now c) = fsm c
  ∧ events (process_fan_schedule now c) = events c.
Proof.
  unfold process_fan_schedule, process_fan_speed, process_fan_relay, set_fan_speed.
  repeat case_match; repeat case_bool_decide; auto.
Qed.

Lemma process_display_schedule_frame (now : Z) (c : controller) :
  btn (process_display_schedule now c) = btn c
  ∧ fsm (process_display_schedule now c) = fsm c
  ∧ events (process_display_schedule now c) = events c.
Proof. unfold process_display_schedule. repeat case_match; auto. Qed.

Lemma process_turbo_request_task_frame (now : Z) (c : controller) :
  btn (process_turbo_request_task now c) = btn c
  ∧ fsm (process_turbo_request_task now c) = process_turbo_request now (fsm c)
  ∧ events (process_turbo_request_task now c) = events c.
Proof. unfold process_turbo_request_task. repeat case_match; auto. Qed.

Lemma loop_frame (t : tick) (c : controller) :
  let c' := process_button_schedule (millis t) (digitalRead t)
                                    (poll_start t) (process_start t) c in
  btn (loop t c) = btn c'
  ∧ fsm (loop t c) = fsm c'
  ∧ events (loop t c) = events c'.
Proof.
  unfold loop.
  destruct (process_display_schedule_frame (millis t)
              (process_fan_schedule (millis t)
                 (process_button_schedule (millis t) (digitalRead t)
                    (poll_start t) (process_start t) c)))
    as (-> & -> & ->).
  apply process_fan_schedule_frame.
Qed.

(** One pass of the button task: what it does to button [i], which handler
    calls it logs, and what the state machine makes of them. *)
Lemma process_button_schedule_view (now : Z) (dr : nat → bool) (ps bs : nat)
    (c : controller) :
  wf c →
  let c' := process_button_schedule now dr ps bs c in
  (∀ i, (i < NUMBER_OF_BUTTONS)%nat → (ps ≤ i)%nat → (bs ≤ i)%nat →
        view i c' = (button_tick i now (negb (dr (button_pins !!! i))) (view i c)).1
        ∧ events_of i (drop (length (events c)) (events c'))
          = (button_tick i now (negb (dr (button_pins !!! i))) (view i c)).2)
  ∧ (∃ evs, events c' = events c ++ evs
            ∧ fsm c' = process_turbo_request now
                         (machine_run (map op_of_event evs) (fsm c)))
  ∧ wf c'.
Proof.
  intros Hwf c'. subst c'. unfold process_button_schedule, process_buttons.
  set (c1 := set_last_buttons_update now c).
  assert (Hwf1 : wf c1) by exact Hwf.
  set (c2 := with_btn (poll_input_signals ps dr) c1).
  set (c3 := with_btn (enter_process_buttons now) c2).
  assert (Hwf2 : wf c2).
  { destruct (poll_input_signals_view ps dr c1 0 Hwf1) as (_ & _ & H);
      [unfold NUMBER_OF_BUTTONS; lia | exact H]. }
  assert (H3 : wf c3 ∧ last_interaction_timestamp (btn c3) ≠ None).
  { destruct (enter_process_buttons_view now c2 0 Hwf2) as (_ & H);
      [unfold NUMBER_OF_BUTTONS; lia | exact H]. }
  destruct H3 as [Hwf3 Hsome3].
  destruct (process_button_fold now _ c3 Hwf3 Hsome3 (buttons_from_below bs)
              (buttons_from_NoDup bs))
    as (Hv & Hev & (evs & Hlog & Hfsm) & Hbs & Hwf4).
  set (c4 := fold_left (λ c j, process_button now j c) (buttons_from bs) c3)
    in *.
  destruct (process_turbo_request_task_frame now c4)
    as (Hb5 & Hf5 & He5).
  split; [| split].
  - intros i Hi Hps Hbs'.
    assert (Hin : i ∈ buttons_from bs).
    { apply elem_of_buttons_from. lia. }
    destruct (poll_input_signals_view ps dr c1 i Hwf1 Hi) as (Hpolled & _).
    destruct (Hpolled Hps) as (Hv2 & Hst2).
    destruct (enter_process_buttons_view now c2 i Hwf2 Hi) as (Hv3 & _).
    fold c2 in Hv2, Hst2. fold c3 in Hv3.
    assert (Hres : button_resolve i now (button_state (btn c3) !!! i) (view i c3)
                   = button_tick i now (negb (dr (button_pins !!! i))) (view i c)).
    { rewrite Hv3, Hv2. cbn [view_read view_timestamp view_flag].
      rewrite button_resolve_default. unfold button_tick.
      change (button_state (btn c3)) with (button_state (btn c2)).
      rewrite Hst2. reflexivity. }
    split.
    + rewrite (view_frame i _ _ Hb5), Hv, decide_True by exact Hin.
      rewrite Hres. reflexivity.
    + rewrite He5, Hlog.
      change (events c3) with (events c). rewrite drop_app_length.
      specialize (Hev i). rewrite Hlog in Hev. unfold events_of in Hev at 1.
      rewrite filter_app in Hev. apply app_inv_head in Hev.
      rewrite decide_True in Hev by exact Hin. rewrite Hres in Hev. exact Hev.
  - exists evs. rewrite He5, Hf5, Hlog, Hfsm. auto.
  - apply (wf_frame _ _ Hb5). exact Hwf4.
Qed.

Lemma button_tick_read (i : nat) (now : Z) (cur : bool) (v : button_view) :
  view_read (button_tick i now cur v).1 = cur.
Proof. unfold button_tick, button_resolve. repeat case_match; reflexivity. Qed.

Ltac clock_lia :=
  unfold DEBOUNCE_DELAY_MILLS, BUTTON_HOLD_FOR_TURBO_DELAY_IN_MILLIS,
    TURBO_TEXT_DISPLAY_TIME_IN_MILLIS, FAN_REFRESH_RATE_MILLIS,
    DISPLAY_REFRESH_RATE_MILLIS, ULONG_MODULUS in *;
  lia.

Lemma button_tick_credit (i : nat) (prev now : Z) (cur : bool) (v : button_view) :
  0 ≤ prev → prev + DEBOUNCE_DELAY_MILLS < ULONG_MODULUS →
  now ≤ prev + DEBOUNCE_DELAY_MILLS →
  0 ≤ now → now + DEBOUNCE_DELAY_MILLS < ULONG_MODULUS →
  (length (button_tick i now cur v).2 + credit now (button_tick i now cur v).1
   ≤ credit prev v + (if negb (view_read v) && cur then 1 else 0))%nat.
Proof.
  intros Hp0 Hp1 Hgap Hn0 Hn1.
  assert (Hidle : deadline_passed prev DEBOUNCE_DELAY_MILLS now = false).
  { rewrite deadline_passed_no_wrap by clock_lia. apply Z.ltb_ge. exact Hgap. }
  assert (Hfirst : deadline_passed now DEBOUNCE_DELAY_MILLS now = false).
  { rewrite deadline_passed_no_wrap by clock_lia. apply Z.ltb_ge. clock_lia. }
  destruct v as [rd ts fl]. unfold button_tick, button_resolve, classify, credit.
  cbn [view_read view_timestamp view_flag].
  destruct rd, cur; cbn [negb andb bool_decide decide_rel];
    repeat (case_bool_decide || case_match);
    cbn [fst snd length view_read view_timestamp view_flag negb andb] in *;
    simplify_eq; try lia; exfalso;
    first [ match goal with H : ¬ (_ ∨ _) |- _ => apply H; right; reflexivity end
          | match goal with
            | H : _ ∨ _ |- _ =>
                destruct H; simplify_eq; simpl in *; congruence
            end ].
Qed.

Lemma button_run_credit (i : nat) (ticks : list tick) (prev : Z) (v : button_view) :
  0 ≤ prev → prev + DEBOUNCE_DELAY_MILLS < ULONG_MODULUS →
  paced prev ticks →
  (length (button_run i ticks v).2 ≤ credit prev v + presses i (view_read v) ticks)%nat.
Proof.
  revert prev v. induction ticks as [| t ticks IH]; intros prev v Hp0 Hp1 Hpaced.
  - simpl. lia.
  - destruct Hpaced as (Hgap & Hn0 & Hn1 & Hrest).
    cbn [button_run presses fst snd]. rewrite length_app.
    pose proof (button_tick_credit i prev (millis t) (pressed t i) v
                  Hp0 Hp1 Hgap Hn0 Hn1) as Hstep.
    pose proof (IH (millis t) (button_tick i (millis t) (pressed t i) v).1
                  Hn0 Hn1 Hrest) as Hrun.
    rewrite button_tick_read in Hrun. lia.
Qed.

Lemma credit_le_1 (prev : Z) (v : button_view) : (credit prev v ≤ 1)%nat.
Proof. unfold credit. repeat case_match; lia. Qed.

Lemma button_tick_press (i : nat) (now : Z) (v : button_view) :
  view_read v = false → (button_tick i now true v).2 = [].
Proof.
  intros Hrd. destruct v as [rd ts fl]. simpl in Hrd. subst rd.
  unfold button_tick, button_resolve, classify. simpl. reflexivity.
Qed.

(** ** Runs, one button at a time *)

Lemma fold_left_step {A B : Type} (f : A → B → A) (x : B) (l : list B) (a : A) :
  fold_left f (x :: l) a = fold_left f l (f a x).
Proof. reflexivity. Qed.

Lemma run_cons (t : tick) (ticks : list tick) (c : controller) :
  run (t :: ticks) c = run ticks (loop t c).
Proof. exact (fold_left_step (λ c t, loop t c) t ticks c). Qed.

Lemma run_nil (c : controller) : run [] c = c.
Proof. reflexivity. Qed.

Lemma loop_view (t : tick) (c : controller) (i : nat) :
  wf c → (i < NUMBER_OF_BUTTONS)%nat → visits i t →
  view i (loop t c) = (button_tick i (millis t) (pressed t i) (view i c)).1
  ∧ events_of i (tick_events t c)
    = (button_tick i (millis t) (pressed t i) (view i c)).2.
Proof.
  intros Hwf Hi [Hps Hbs]. destruct (loop_frame t c) as (Hb & _ & He).
  destruct (process_button_schedule_view (millis t) (digitalRead t) (poll_start t)
              (process_start t) c Hwf)
    as (Hv & _ & _).
  destruct (Hv i Hi Hps Hbs) as [Hview Hevents]. unfold tick_events.
  rewrite (view_frame i _ _ Hb), He. split; assumption.
Qed.

Lemma loop_wf (t : tick) (c : controller) : wf c → wf (loop t c).
Proof.
  intros Hwf. destruct (loop_frame t c) as (Hb & _ & _).
  apply (wf_frame _ _ Hb).
  apply (process_button_schedule_view (millis t) (digitalRead t) (poll_start t)
              (process_start t) c Hwf).
Qed.

(** The state machine is driven by the logged handler calls, in order, and
    by the turbo check that ends the button task. *)
Lemma loop_machine (t : tick) (c : controller) :
  wf c →
  events (loop t c) = events c ++ tick_events t c
  ∧ fsm (loop t c)
    = machine_run (map op_of_event (tick_events t c) ++ [OpTurbo (millis t)]) (fsm c).
Proof.
  intros Hwf. destruct (loop_frame t c) as (_ & Hf & He).
  destruct (process_button_schedule_view (millis t) (digitalRead t) (poll_start t)
              (process_start t) c Hwf)
    as (_ & (evs & Hlog & Hfsm) & _).
  unfold tick_events. rewrite He, Hf, Hlog, drop_app_length, Hfsm.
  rewrite machine_run_app. auto.
Qed.

Lemma run_wf (ticks : list tick) (c : controller) : wf c → wf (run ticks c).
Proof.
  revert c. induction ticks as [| t ticks IH]; intros c Hwf.
  - exact Hwf.
  - rewrite run_cons. apply IH, loop_wf, Hwf.
Qed.

Lemma run_events_cons (t : tick) (ticks : list tick) (c : controller) :
  wf c →
  events (run ticks c) = events c ++ run_events ticks c
  ∧ run_events (t :: ticks) c = tick_events t c ++ run_events ticks (loop t c).
Proof.
  intros Hwf.
  assert (Hlog : ∀ ticks c, wf c →
                 events (run ticks c) = events c ++ run_events ticks c).
  { clear. induction ticks as [| t ticks IH]; intros c Hwf; unfold run_events.
    - rewrite run_nil, drop_all, app_nil_r. reflexivity.
    - rewrite run_cons, (IH _ (loop_wf t c Hwf)).
      destruct (loop_machine t c Hwf) as [-> _].
      rewrite <- app_assoc, drop_app_length. reflexivity. }
  split; [apply Hlog, Hwf |].
  unfold run_events at 1. rewrite run_cons, (Hlog _ _ (loop_wf t c Hwf)).
  destruct (loop_machine t c Hwf) as [-> _].
  rewrite <- app_assoc, drop_app_length. reflexivity.
Qed.

Lemma run_view (i : nat) (ticks : list tick) (c : controller) :
  wf c → (i < NUMBER_OF_BUTTONS)%nat → Forall (visits i) ticks →
  view i (run ticks c) = (button_run i ticks (view i c)).1
  ∧ events_of i (run_events ticks c) = (button_run i ticks (view i c)).2.
Proof.
  intros Hwf Hi Hvisits. revert c Hwf.
  induction Hvisits as [| t ticks Hvisit Hvisits IH]; intros c Hwf.
  - unfold run_events. rewrite run_nil, drop_all. auto.
  - destruct (loop_view t c i Hwf Hi Hvisit) as [Hv He].
    destruct (IH (loop t c) (loop_wf t c Hwf)) as [IHv IHe].
    destruct (run_events_cons t ticks c Hwf) as [_ Hsplit].
    cbn [button_run fst snd]. rewrite <- Hv, run_cons. split; [exact IHv |].
    rewrite Hsplit, events_of_app, He, IHe. reflexivity.
Qed.

Lemma booted_at_reachable (start : Z) (c : controller) :
  setup start (boot_ticks start) = Some c → reachable (booted_at start).
Proof.
  intros Hc. apply (reachable_setup start (boot_ticks start)).
  unfold booted_at. rewrite Hc. reflexivity.
Qed.

(** ** One event per press *)

Lemma button_tick_idle (i : nat) (prev now : Z) (v : button_view) :
  view_read v = false → view_timestamp v = Some prev →
  0 ≤ prev → prev + DEBOUNCE_DELAY_MILLS < ULONG_MODULUS →
  now ≤ prev + DEBOUNCE_DELAY_MILLS →
  button_tick i now false v = (ButtonView false (Some now) NOT_PROCESSED, []).
Proof.
  intros Hrd Hts Hp0 Hp1 Hgap. destruct v as [rd ts fl]. simpl in Hrd, Hts. subst.
  assert (Hdeb : deadline_passed prev DEBOUNCE_DELAY_MILLS now = false).
  { rewrite deadline_passed_no_wrap by clock_lia. apply Z.ltb_ge. exact Hgap. }
  unfold button_tick, button_resolve, classify.
  cbn [negb andb view_read view_timestamp view_flag default from_option].
  unfold id. rewrite Hdeb. reflexivity.
Qed.

(** Idling re-arms: while button [i] reads released in passes that follow
    each other by at most the debounce delay, each pass resets its timestamp
    to the clock reading and clears its flag, and calls no handler.  This is
    the state of the buttons at the end of a boot screen and after any idle
    period, at whatever clock reading. *)
Lemma idle_run_rearms (c : controller) (i : nat) (prev : Z) (ticks : list tick)
    (t : tick) :
  wf c → (i < NUMBER_OF_BUTTONS)%nat →
  view_read (view i c) = false → view_timestamp (view i c) = Some prev →
  0 ≤ prev → prev + DEBOUNCE_DELAY_MILLS < ULONG_MODULUS →
  paced prev (ticks ++ [t]) →
  Forall (visits i) (ticks ++ [t]) →
  Forall (λ t, pressed t i = false) (ticks ++ [t]) →
  view i (run (ticks ++ [t]) c) = ButtonView false (Some (millis t)) NOT_PROCESSED
  ∧ events_of i (run_events (ticks ++ [t]) c) = [].
Proof.
  intros Hwf Hi Hrd Hts Hp0 Hp1 Hpaced Hvisits Hidle.
  destruct (run_view i (ticks ++ [t]) c Hwf Hi Hvisits) as [-> ->]. clear Hvisits.
  revert Hrd Hts Hp0 Hp1 Hpaced Hidle. generalize (view i c) as v. revert prev.
  induction ticks as [| t' ticks IH]; intros prev v Hrd Hts Hp0 Hp1 Hpaced Hidle.
  - destruct Hpaced as (Hgap & _). apply Forall_cons in Hidle as [Hup _].
    cbn [app button_run fst snd]. rewrite Hup.
    rewrite (button_tick_idle i prev (millis t) v Hrd Hts Hp0 Hp1 Hgap). auto.
  - destruct Hpaced as (Hgap & Hn0 & Hn1 & Hrest).
    apply Forall_cons in Hidle as [Hup Hidle].
    cbn [app button_run fst snd]. rewrite Hup.
    rewrite (button_tick_idle i prev (millis t') v Hrd Hts Hp0 Hp1 Hgap).
    cbn [fst snd app]. apply (IH (millis t')); auto.
Qed.

(** C1. Take any state with the arrays at their declared length and a run
    that starts with a pass in which button [i] goes from released to
    pressed, and in every pass of which both button loops reach [i] (their
    uninitialised counters hold at most [i] on entry).  If every pass
    follows the one before by at most DEBOUNCE_DELAY_MILLS and no clock
    reading is within DEBOUNCE_DELAY_MILLS of [2^32], the handlers of [i]
    are called at most as many times as [i] goes from released to pressed in
    the run: one press, at most one click or hold. *)
Theorem one_event_per_press (c : controller) (i : nat) (t : tick)
    (ticks : list tick) :
  wf c → (i < NUMBER_OF_BUTTONS)%nat →
  Forall (visits i) (t :: ticks) →
  last_button_read (btn c) !!! i = false → pressed t i = true →
  paced (millis t) (t :: ticks) →
  (length (events_of i (run_events (t :: ticks) c))
   ≤ presses i false (t :: ticks))%nat.
Proof.
  intros Hwf Hi Hvisits Hread Hpress (_ & Hn0 & Hn1 & Hpaced).
  destruct (run_view i (t :: ticks) c Hwf Hi Hvisits) as [_ ->].
  cbn [button_run presses fst snd]. rewrite Hpress, length_app.
  rewrite button_tick_press by exact Hread. cbn [length negb andb].
  pose proof (button_run_credit i ticks (millis t)
                (button_tick i (millis t) true (view i c)).1 Hn0 Hn1 Hpaced) as Hrun.
  rewrite button_tick_read in Hrun.
  pose proof (credit_le_1 (millis t) (button_tick i (millis t) true (view i c)).1).
  lia.
Qed.

Lemma one_event_per_press_witness :
  (length (events_of ONOFF_TOGGLE_BUTTON
             (run_events [pressed_at ONOFF_TOGGLE_BUTTON 2000;
                          pressed_at ONOFF_TOGGLE_BUTTON 2030;
                          pressed_at ONOFF_TOGGLE_BUTTON 2060;
                          released_at 2090; released_at 2100; released_at 2130]
                         (booted_at 0))) ≤ 1)%nat.
Proof.
  apply (one_event_per_press (booted_at 0) ONOFF_TOGGLE_BUTTON
           (pressed_at ONOFF_TOGGLE_BUTTON 2000)
           [pressed_at ONOFF_TOGGLE_BUTTON 2030;
            pressed_at ONOFF_TOGGLE_BUTTON 2060;
            released_at 2090; released_at 2100; released_at 2130]).
  - vm_compute. auto.
  - unfold ONOFF_TOGGLE_BUTTON, NUMBER_OF_BUTTONS. lia.
  - vm_compute. repeat constructor.
  - vm_compute. reflexivity.
  - reflexivity.
  - simpl. clock_lia.
Defined.

(** C1, as stated, fails when the clock wraps.  The sketch boots at reading
    [2^32 - 5000], which leaves the buttons as any idle period does
    ([idle_run_rearms]); the power button is pressed once, for 60 ms, and
    its click is handled; the passes then follow each other by 40 ms with
    nothing pressed.  In the last pass before the wrap the click handler of
    the power button is called a second time (and so are those of the two
    buttons that were never pressed).  It fails as well, far from the wrap,
    when a pass comes more than the debounce delay after the one before:
    the idle button is clicked again.  In both runs the counters of the
    button loops hold 0 on entry in every pass. *)
Lemma one_event_per_press_counterexample :
  events_of ONOFF_TOGGLE_BUTTON (run_events near_wrap_press (booted_at 4294962296))
  = [Click ONOFF_TOGGLE_BUTTON; Click ONOFF_TOGGLE_BUTTON]
  ∧ presses ONOFF_TOGGLE_BUTTON false near_wrap_press = 1%nat
  ∧ events_of ONOFF_TOGGLE_BUTTON (run_events stalled_press (booted_at 0))
    = [Click ONOFF_TOGGLE_BUTTON; Click ONOFF_TOGGLE_BUTTON]
  ∧ presses ONOFF_TOGGLE_BUTTON false stalled_press = 1%nat
  ∧ ¬ one_event_per_press_always.
Proof.
  split; [vm_compute; reflexivity |]. split; [vm_compute; reflexivity |].
  split; [vm_compute; reflexivity |]. split; [vm_compute; reflexivity |].
  intros Hclaim.
  specialize (Hclaim (booted_at 4294962296) ONOFF_TOGGLE_BUTTON
                (pressed_at ONOFF_TOGGLE_BUTTON 4294964296)
                (tail near_wrap_press)).
  assert (Hcode : events_of ONOFF_TOGGLE_BUTTON
                    (run_events near_wrap_press (booted_at 4294962296))
                  = [Click ONOFF_TOGGLE_BUTTON; Click ONOFF_TOGGLE_BUTTON])
    by (vm_compute; reflexivity).
  assert (Hpress : presses ONOFF_TOGGLE_BUTTON false near_wrap_press = 1%nat)
    by (vm_compute; reflexivity).
  change (pressed_at ONOFF_TOGGLE_BUTTON 4294964296 :: tail near_wrap_press)
    with near_wrap_press in Hclaim.
  rewrite Hcode, Hpress in Hclaim.
  assert (Habsurd : (length [Click ONOFF_TOGGLE_BUTTON; Click ONOFF_TOGGLE_BUTTON]
                     ≤ 1)%nat); [| simpl in Habsurd; lia].
  apply Hclaim.
  - apply (booted_at_reachable 4294962296 (booted_at 4294962296)).
    vm_compute. reflexivity.
  - unfold ONOFF_TOGGLE_BUTTON, NUMBER_OF_BUTTONS. lia.
  - vm_compute. repeat constructor.
  - vm_compute. reflexivity.
  - reflexivity.
Qed.

Lemma view_timestamp_eq (i : nat) (c : controller) :
  view_timestamp (view i c) = timestamps (btn c) !! i.
Proof.
  unfold view, timestamps. cbn [view_timestamp].
  destruct (last_interaction_timestamp (btn c)); reflexivity.
Qed.

(** ** Clicks and the debounce delay *)

Lemma button_tick_click (i : nat) (now : Z) (cur : bool) (v : button_view) :
  Click i ∈ (button_tick i now cur v).2 →
  view_read v = false ∧ cur = false ∧ view_flag v = NOT_PROCESSED
  ∧ deadline_passed (default now (view_timestamp v)) DEBOUNCE_DELAY_MILLS now = true
  ∧ (button_tick i now cur v).2 = [Click i].
Proof.
  destruct v as [rd ts fl]. unfold button_tick, button_resolve, classify.
  cbn [view_read view_timestamp view_flag].
  destruct rd, cur; cbn [negb andb];
    repeat (case_bool_decide || case_match); cbn [fst snd];
    intros Hin; try (apply elem_of_nil in Hin; contradiction);
    try (apply list_elem_of_singleton in Hin; discriminate Hin);
    simplify_eq; repeat split; try reflexivity; try assumption.
  all: match goal with
       | H : _ && _ = true |- _ => apply andb_true_iff in H as [_ H]; exact H
       end.
Qed.

(** C6. In a pass in which both button loops reach button [i] (their
    uninitialised counters hold at most [i] on entry), a click handler is
    called for [i] only if the button read released both in the pass before
    and in this one, its processed flag is clear, and the test [timestamp +
    DEBOUNCE_DELAY_MILLS < millis()] on its timestamp succeeds; it is then
    the only call for [i] in that pass.  When the timestamp plus the delay
    does not wrap, more than DEBOUNCE_DELAY_MILLS lie between the timestamp
    and this pass.  The timestamp is the reading of the last pass that reset
    it, which for a press is a pass before the press: how long the button
    has been released does not enter. *)
Theorem click_after_debounce_deadline (c : controller) (i : nat) (t : tick) :
  wf c → (i < NUMBER_OF_BUTTONS)%nat → visits i t →
  In (Click i) (tick_events t c) →
  last_button_read (btn c) !!! i = false
  ∧ pressed t i = false
  ∧ last_button_state (btn c) !!! i = NOT_PROCESSED
  ∧ deadline_passed (default (millis t) (timestamps (btn c) !! i))
                    DEBOUNCE_DELAY_MILLS (millis t) = true
  ∧ events_of i (tick_events t c) = [Click i]
  ∧ (∀ ts, timestamps (btn c) !! i = Some ts →
           0 ≤ ts → ts + DEBOUNCE_DELAY_MILLS < ULONG_MODULUS →
           DEBOUNCE_DELAY_MILLS < millis t - ts).
Proof.
  intros Hwf Hi Hvisit Hin. destruct (loop_view t c i Hwf Hi Hvisit) as [_ Hev].
  assert (Hin' : Click i ∈ events_of i (tick_events t c)).
  { unfold events_of. apply list_elem_of_filter. split; [reflexivity |].
    apply list_elem_of_In. exact Hin. }
  rewrite Hev in Hin'. apply button_tick_click in Hin' as (Hrd & Hcur & Hfl & Hd & Hone).
  rewrite view_timestamp_eq in Hd. rewrite <- Hev in Hone.
  repeat split; try assumption.
  intros ts Hts Hts0 Hts1. rewrite Hts in Hd. cbn [default from_option] in Hd.
  unfold id in Hd. rewrite deadline_passed_no_wrap in Hd by clock_lia.
  apply Z.ltb_lt in Hd. lia.
Qed.

Lemma click_after_debounce_deadline_witness :
  pressed (released_at 2062) SPEED_UP_BUTTON = false
  ∧ events_of SPEED_UP_BUTTON
      (tick_events (released_at 2062) (run late_release_press (booted_at 0)))
    = [Click SPEED_UP_BUTTON].
Proof.
  destruct (click_after_debounce_deadline
              (run late_release_press (booted_at 0)) SPEED_UP_BUTTON
              (released_at 2062))
    as (_ & Hup & _ & _ & Hone & _).
  - apply run_wf. vm_compute. auto.
  - unfold SPEED_UP_BUTTON, NUMBER_OF_BUTTONS. lia.
  - vm_compute. repeat constructor.
  - vm_compute. auto.
  - split; [exact Hup | exact Hone].
Defined.

(** C6, as stated, fails for an ordinary press: the speed-up button is held
    from reading 2001 to reading 2060 and reads released at 2061; its click
    handler is called in the pass at 2062, 2 ms after the last pressed
    read.  The counters of the button loops hold 0 on entry in every
    pass. *)
Lemma click_needs_stable_release_counterexample :
  tick_events (released_at 2062) (run late_release_press (booted_at 0))
  = [Click SPEED_UP_BUTTON]
  ∧ In (pressed_at SPEED_UP_BUTTON 2060) late_release_press
  ∧ pressed (pressed_at SPEED_UP_BUTTON 2060) SPEED_UP_BUTTON = true
  ∧ ¬ click_needs_stable_release.
Proof.
  split; [vm_compute; reflexivity |]. split; [simpl; auto 10 |].
  split; [reflexivity |].
  intros Hclaim.
  assert (Hopen : pressed (pressed_at SPEED_UP_BUTTON 2060) SPEED_UP_BUTTON = false);
    [| discriminate Hopen].
  apply (Hclaim (booted_at 0) SPEED_UP_BUTTON late_release_press (released_at 2062)).
  - apply (booted_at_reachable 0 (booted_at 0)). vm_compute. reflexivity.
  - unfold SPEED_UP_BUTTON, NUMBER_OF_BUTTONS. lia.
  - vm_compute. repeat constructor.
  - vm_compute. auto.
  - simpl. auto 10.
  - simpl. clock_lia.
Qed.

(** ** Presses shorter than the debounce delay *)

Lemma button_tick_silent (i : nat) (t0 s now : Z) (cur : bool) (v : button_view) :
  view_timestamp v = Some s → t0 ≤ s ≤ t0 + DEBOUNCE_DELAY_MILLS →
  0 ≤ t0 →
  t0 + DEBOUNCE_DELAY_MILLS + BUTTON_HOLD_FOR_TURBO_DELAY_IN_MILLIS < ULONG_MODULUS →
  t0 ≤ now ≤ t0 + DEBOUNCE_DELAY_MILLS →
  (button_tick i now cur v).2 = []
  ∧ ∃ s', view_timestamp (button_tick i now cur v).1 = Some s'
          ∧ t0 ≤ s' ≤ t0 + DEBOUNCE_DELAY_MILLS.
Proof.
  intros Hts Hs Ht0 Hwrap Hnow. destruct v as [rd ts fl]. simpl in Hts. subst ts.
  assert (Hhold : deadline_passed s BUTTON_HOLD_FOR_TURBO_DELAY_IN_MILLIS now = false).
  { rewrite deadline_passed_no_wrap by clock_lia. apply Z.ltb_ge. clock_lia. }
  assert (Hdeb : deadline_passed s DEBOUNCE_DELAY_MILLS now = false).
  { rewrite deadline_passed_no_wrap by clock_lia. apply Z.ltb_ge. clock_lia. }
  unfold button_tick, button_resolve.
  cbn [view_read view_timestamp view_flag default from_option]. unfold id.
  rewrite Hhold, Hdeb, !andb_false_r.
  case_bool_decide; cbn [fst snd view_timestamp]; split; try reflexivity; eauto.
Qed.

Lemma button_run_silent (i : nat) (t0 : Z) (ticks : list tick) :
  0 ≤ t0 →
  t0 + DEBOUNCE_DELAY_MILLS + BUTTON_HOLD_FOR_TURBO_DELAY_IN_MILLIS < ULONG_MODULUS →
  Forall (λ t, t0 ≤ millis t ≤ t0 + DEBOUNCE_DELAY_MILLS) ticks →
  ∀ (s : Z) (v : button_view),
    view_timestamp v = Some s → t0 ≤ s ≤ t0 + DEBOUNCE_DELAY_MILLS →
    (button_run i ticks v).2 = [].
Proof.
  intros Ht0 Hwrap Hticks.
  induction Hticks as [| t ticks Ht Hrest IH]; intros s v Hts Hs.
  - reflexivity.
  - cbn [button_run fst snd].
    destruct (button_tick_silent i t0 s (millis t) (pressed t i) v Hts Hs Ht0 Hwrap Ht)
      as (-> & s' & Hts' & Hs').
    rewrite (IH s' _ Hts' Hs'). reflexivity.
Qed.

Lemma button_tick_idle_timestamp (i : nat) (now : Z) (v : button_view) :
  view_read v = false →
  view_timestamp (button_tick i now false v).1 = Some now.
Proof.
  destruct v as [rd ts fl]. simpl. intros ->.
  unfold button_tick, button_resolve, classify. cbn [negb andb view_flag].
  repeat (case_bool_decide || case_match); simplify_eq; reflexivity.
Qed.

(** C7. Both button loops reach button [i] in every pass considered (their
    uninitialised counters hold at most [i] on entry).  After a pass [idle]
    in which button [i] read released, as in the pass before it, no handler
    is called for [i] in any pass whose clock reading is at most
    DEBOUNCE_DELAY_MILLS after that of [idle], whatever the button reads in
    those passes (no reading being within 2040 ms of [2^32]).  So a press is
    silent when the first pass that classifies the button as not pressed
    after the release comes at most DEBOUNCE_DELAY_MILLS after the last such
    pass before the press. *)
Theorem press_within_debounce_is_silent (c : controller) (i : nat) (idle : tick)
    (ticks : list tick) :
  wf c → (i < NUMBER_OF_BUTTONS)%nat →
  Forall (visits i) (idle :: ticks) →
  last_button_read (btn c) !!! i = false → pressed idle i = false →
  0 ≤ millis idle →
  millis idle + DEBOUNCE_DELAY_MILLS + BUTTON_HOLD_FOR_TURBO_DELAY_IN_MILLIS
    < ULONG_MODULUS →
  Forall (λ t, millis idle ≤ millis t ≤ millis idle + DEBOUNCE_DELAY_MILLS) ticks →
  events_of i (run_events ticks (loop idle c)) = [].
Proof.
  intros Hwf Hi Hvisits Hread Hidle Ht0 Hwrap Hticks.
  apply Forall_cons in Hvisits as [Hvisit Hvisits].
  destruct (run_view i ticks (loop idle c) (loop_wf idle c Hwf) Hi Hvisits)
    as [_ ->].
  destruct (loop_view idle c i Hwf Hi Hvisit) as [-> _]. rewrite Hidle.
  apply (button_run_silent i (millis idle) ticks Ht0 Hwrap Hticks (millis idle)).
  - apply button_tick_idle_timestamp. exact Hread.
  - clock_lia.
Qed.

Lemma press_within_debounce_is_silent_witness :
  events_of SPEED_UP_BUTTON
    (run_events ten_ms_press (loop (released_at 2000) (booted_at 0))) = [].
Proof.
  apply (press_within_debounce_is_silent (booted_at 0) SPEED_UP_BUTTON
           (released_at 2000) ten_ms_press).
  - vm_compute. auto.
  - unfold SPEED_UP_BUTTON, NUMBER_OF_BUTTONS. lia.
  - vm_compute. repeat constructor.
  - vm_compute. reflexivity.
  - reflexivity.
  - simpl. lia.
  - simpl. clock_lia.
  - repeat constructor; simpl; clock_lia.
Defined.

(** C7, as stated, fails near the debounce delay: the speed-up button reads
    pressed from reading 2001 on and released at reading 2040, 39 ms later;
    its click handler is called in the pass at 2041.  The counters of the
    button loops hold 0 on entry in every pass. *)
Lemma short_press_is_silent_counterexample :
  events_of SPEED_UP_BUTTON
    (run_events
       [pressed_at SPEED_UP_BUTTON 2001; pressed_at SPEED_UP_BUTTON 2020;
        pressed_at SPEED_UP_BUTTON 2039; released_at 2040; released_at 2041]
       (loop (released_at 2000) (booted_at 0)))
  = [Click SPEED_UP_BUTTON]
  ∧ ¬ short_press_is_silent.
Proof.
  split; [vm_compute; reflexivity |].
  intros Hclaim.
  specialize (Hclaim (booted_at 0) SPEED_UP_BUTTON (released_at 2000)
                (pressed_at SPEED_UP_BUTTON 2001) (released_at 2040)
                [pressed_at SPEED_UP_BUTTON 2020; pressed_at SPEED_UP_BUTTON 2039]
                [released_at 2041]).
  assert (Hcode : events_of SPEED_UP_BUTTON
            (run_events
               (pressed_at SPEED_UP_BUTTON 2001
                :: [pressed_at SPEED_UP_BUTTON 2020; pressed_at SPEED_UP_BUTTON 2039]
                   ++ released_at 2040 :: [released_at 2041])
               (loop (released_at 2000) (booted_at 0)))
            = [Click SPEED_UP_BUTTON])
    by (vm_compute; reflexivity).
  rewrite Hcode in Hclaim.
  assert (Hnone : [Click SPEED_UP_BUTTON] = []); [| discriminate Hnone].
  apply Hclaim.
  - apply (booted_at_reachable 0 (booted_at 0)). vm_compute. reflexivity.
  - unfold SPEED_UP_BUTTON, NUMBER_OF_BUTTONS. lia.
  - vm_compute. repeat constructor.
  - vm_compute. reflexivity.
  - reflexivity.
  - repeat constructor.
  - repeat constructor.
  - simpl. clock_lia.
Qed.

(** ** Reachable states *)

Lemma process_button_schedule_machine (now : Z) (dr : nat → bool) (ps bs : nat)
    (c : controller) :
  wf c →
  wf (process_button_schedule now dr ps bs c)
  ∧ ∃ ops, fsm (process_button_schedule now dr ps bs c) = machine_run ops (fsm c).
Proof.
  intros Hwf.
  destruct (process_button_schedule_view now dr ps bs c Hwf)
    as (_ & (evs & _ & Hfsm) & Hwf').
  split; [exact Hwf' |].
  exists (map op_of_event evs ++ [OpTurbo now]).
  rewrite machine_run_app. exact Hfsm.
Qed.

Lemma boot_screen_loop_machine (timer : Z) (ticks : list tick) (c c' : controller) :
  wf c → boot_screen_loop timer ticks c = Some c' →
  wf c' ∧ ∃ ops, fsm c' = machine_run ops (fsm c).
Proof.
  revert c. induction ticks as [| t ticks IH]; intros c Hwf Hloop.
  - discriminate Hloop.
  - cbn [boot_screen_loop] in Hloop.
    destruct (process_button_schedule_machine (millis t) (digitalRead t) (poll_start t)
                (process_start t) c Hwf)
      as (Hwf1 & ops1 & Hops1).
    destruct (millis t <? wrap32 (timer + BOOTSCREEN_DISPLAY_TIME_IN_MILLIS)).
    + case_bool_decide.
      * simplify_eq. split; [exact Hwf1 | exists ops1; exact Hops1].
      * destruct (IH _ Hwf1 Hloop) as (Hwf2 & ops2 & Hops2).
        split; [exact Hwf2 |]. exists (ops1 ++ ops2).
        rewrite machine_run_app, <- Hops1. exact Hops2.
    + simplify_eq. split; [exact Hwf |]. exists []. reflexivity.
Qed.

Lemma reachable_machine (c : controller) :
  reachable c → wf c ∧ ∃ ops, fsm c = machine_run ops boot_machine.
Proof.
  induction 1 as [now ticks c Hsetup | t c Hreach (Hwf & ops & Hops)].
  - unfold setup, show_boot_screen in Hsetup.
    destruct (boot_screen_loop now ticks _) as [c1 |] eqn:Hloop; [| discriminate].
    apply boot_screen_loop_machine in Hloop as (Hwf1 & ops & Hops).
    + cbn in Hsetup. simplify_eq. split; [exact Hwf1 |]. exists ops. exact Hops.
    + repeat split.
  - split; [apply loop_wf, Hwf |].
    destruct (loop_machine t c Hwf) as [_ Hfsm].
    exists (ops ++ map op_of_event (tick_events t c) ++ [OpTurbo (millis t)]).
    rewrite machine_run_app, <- Hops. exact Hfsm.
Qed.

Lemma machine_run_invariant (P : machine → Prop) :
  (∀ op m, P m → P (machine_step op m)) →
  ∀ ops m, P m → P (machine_run ops m).
Proof.
  intros Hstep ops. induction ops as [| op ops IH]; intros m Hm.
  - exact Hm.
  - apply (IH (machine_step op m)), Hstep, Hm.
Qed.

Lemma off_speed_step (op : machine_op) (m : machine) :
  (onoff_state m = SYSTEM_OFF →
   user_fan_speed m = 0
   ∨ (save_fan_speed m = None ∧ user_fan_speed m = DEFAULT_FAN_SPEED)) →
  onoff_state (machine_step op m) = SYSTEM_OFF →
  user_fan_speed (machine_step op m) = 0
  ∨ (save_fan_speed (machine_step op m) = None
     ∧ user_fan_speed (machine_step op m) = DEFAULT_FAN_SPEED).
Proof.
  destruct m as [st fl sp sv tm]. simpl.
  destruct op as [i | i | now]; simpl; machine_cases;
    intros Hinv Hoff; simplify_eq; auto.
Qed.

(** C2. In every state the sketch reaches, if the system is Off then the fan
    speed level is 0 or, while the power-toggle click handler has not yet
    run (the saved speed is not initialised), DEFAULT_FAN_SPEED; and in
    either case the fan-speed task writes duty cycle 0. *)
Theorem off_speed_is_zero_or_default (c : controller) :
  reachable c → onoff_state (fsm c) = SYSTEM_OFF →
  (user_fan_speed (fsm c) = 0
   ∨ (save_fan_speed (fsm c) = None ∧ user_fan_speed (fsm c) = DEFAULT_FAN_SPEED))
  ∧ outputs (process_fan_speed c)
    = outputs c ++ [AnalogWrite FAN_CONTROL_PIN OFF_FAN_SPEED].
Proof.
  intros Hreach Hoff. split.
  - destruct (reachable_machine c Hreach) as (_ & ops & Hops).
    revert Hoff. rewrite Hops.
    apply (machine_run_invariant
             (λ m, onoff_state m = SYSTEM_OFF →
                   user_fan_speed m = 0
                   ∨ (save_fan_speed m = None
                      ∧ user_fan_speed m = DEFAULT_FAN_SPEED))).
    + intros op m. apply off_speed_step.
    + intros _. right. split; reflexivity.
  - unfold process_fan_speed. rewrite Hoff.
    rewrite bool_decide_eq_false_2 by (intros Hne; apply Hne; reflexivity).
    reflexivity.
Qed.

Lemma off_speed_is_zero_or_default_witness :
  user_fan_speed (fsm (booted_at 0)) = 0
  ∨ (save_fan_speed (fsm (booted_at 0)) = None
     ∧ user_fan_speed (fsm (booted_at 0)) = DEFAULT_FAN_SPEED).
Proof.
  apply (off_speed_is_zero_or_default (booted_at 0)).
  - apply (booted_at_reachable 0 (booted_at 0)). vm_compute. reflexivity.
  - vm_compute. reflexivity.
Defined.

(** C2, as stated, fails right after start-up: [setup] leaves the system Off
    with the fan speed level at its initial value 2. *)
Lemma off_means_speed_zero_counterexample :
  onoff_state (fsm (booted_at 0)) = SYSTEM_OFF
  ∧ user_fan_speed (fsm (booted_at 0)) = 2
  ∧ ¬ off_means_speed_zero.
Proof.
  split; [vm_compute; reflexivity |]. split; [vm_compute; reflexivity |].
  intros Hclaim.
  assert (Hzero : user_fan_speed (fsm (booted_at 0)) = 0);
    [| vm_compute in Hzero; discriminate Hzero].
  apply Hclaim.
  - apply (booted_at_reachable 0 (booted_at 0)). vm_compute. reflexivity.
  - vm_compute. reflexivity.
Qed.

(** ** Rate gates *)

Lemma app_longer {A : Type} (l k : list A) : k ≠ [] → l ++ k ≠ l.
Proof.
  intros Hk Heq. apply Hk. apply (app_inv_head l). rewrite app_nil_r. exact Heq.
Qed.

Lemma fan_gate (c : controller) (last now : Z) :
  last_fan_update c = Some last →
  (deadline_passed last FAN_REFRESH_RATE_MILLIS now = false →
   process_fan_schedule now c = c)
  ∧ (deadline_passed last FAN_REFRESH_RATE_MILLIS now = true →
     last_fan_update (process_fan_schedule now c) = Some now
     ∧ outputs (process_fan_schedule now c) ≠ outputs c).
Proof.
  intros Hlast. destruct c as [b m lb lf ld ev out]. simpl in Hlast. subst lf.
  unfold process_fan_schedule. cbn [last_fan_update set_last_fan_update default
    from_option btn fsm last_buttons_update last_display_update events outputs].
  unfold id. split; intros ->; [reflexivity |].
  unfold process_fan_speed, process_fan_relay, set_fan_speed.
  repeat (case_bool_decide || case_match);
    (split; [reflexivity |]); cbn [outputs hw_write]; rewrite <- ?app_assoc;
    apply app_longer; discriminate.
Qed.

Lemma display_gate (c : controller) (last now : Z) :
  last_display_update c = Some last →
  (deadline_passed last DISPLAY_REFRESH_RATE_MILLIS now = false →
   process_display_schedule now c = c)
  ∧ (deadline_passed last DISPLAY_REFRESH_RATE_MILLIS now = true →
     last_display_update (process_display_schedule now c) = Some now
     ∧ outputs (process_display_schedule now c) ≠ outputs c).
Proof.
  intros Hlast. destruct c as [b m lb lf ld ev out]. simpl in Hlast. subst ld.
  unfold process_display_schedule. cbn [last_display_update
    set_last_display_update default from_option btn fsm last_buttons_update
    last_fan_update events outputs].
  unfold id. split; intros ->; [reflexivity |].
  split; [reflexivity |]. cbn. apply app_longer. discriminate.
Qed.

(** C9. Let [last] be the recorded time of the last run of a gated task,
    with [last] and [last] plus the interval of the task not past the clock
    reading, respectively below [2^32].  The task writes to the hardware in
    this pass exactly when more than its interval lies between [last] and
    the clock reading; otherwise the pass leaves the whole state as it is.
    When the task runs it records the reading, and it then leaves the state
    as it is in every pass up to the interval later: two runs of a gated
    task are more than its interval apart. *)
Theorem gated_task_runs_after_interval (c : controller) (last now : Z) :
  0 ≤ last ≤ now → now < ULONG_MODULUS →
  (last_fan_update c = Some last →
   last + FAN_REFRESH_RATE_MILLIS < ULONG_MODULUS →
   (outputs (process_fan_schedule now c) ≠ outputs c
    ↔ FAN_REFRESH_RATE_MILLIS < now - last)
   ∧ (now - last ≤ FAN_REFRESH_RATE_MILLIS → process_fan_schedule now c = c)
   ∧ (FAN_REFRESH_RATE_MILLIS < now - last →
      ∀ later, now ≤ later ≤ now + FAN_REFRESH_RATE_MILLIS →
               now + FAN_REFRESH_RATE_MILLIS < ULONG_MODULUS →
               process_fan_schedule later (process_fan_schedule now c)
               = process_fan_schedule now c))
  ∧ (last_display_update c = Some last →
     last + DISPLAY_REFRESH_RATE_MILLIS < ULONG_MODULUS →
     (outputs (process_display_schedule now c) ≠ outputs c
      ↔ DISPLAY_REFRESH_RATE_MILLIS < now - last)
     ∧ (now - last ≤ DISPLAY_REFRESH_RATE_MILLIS →
        process_display_schedule now c = c)
     ∧ (DISPLAY_REFRESH_RATE_MILLIS < now - last →
        ∀ later, now ≤ later ≤ now + DISPLAY_REFRESH_RATE_MILLIS →
                 now + DISPLAY_REFRESH_RATE_MILLIS < ULONG_MODULUS →
                 process_display_schedule later (process_display_schedule now c)
                 = process_display_schedule now c)).
Proof.
  intros Hlast Hnow. split.
  - intros Hmark Hwrap. destruct (fan_gate c last now Hmark) as [Hshut Hopen].
    rewrite deadline_passed_no_wrap in Hshut, Hopen by clock_lia.
    destruct (Z.ltb_spec (last + FAN_REFRESH_RATE_MILLIS) now) as [Hlt | Hge].
    + destruct (Hopen eq_refl) as [Hrec Hout]. split; [| split].
      * split; [lia | intros _; exact Hout].
      * lia.
      * intros _ later Hlater Hwrap'.
        destruct (fan_gate _ now later Hrec) as [Hshut' _].
        apply Hshut'. rewrite deadline_passed_no_wrap by clock_lia.
        apply Z.ltb_ge. lia.
    + rewrite (Hshut eq_refl). split; [| split].
      * split; [intros Hne; contradiction | lia].
      * reflexivity.
      * lia.
  - intros Hmark Hwrap. destruct (display_gate c last now Hmark) as [Hshut Hopen].
    rewrite deadline_passed_no_wrap in Hshut, Hopen by clock_lia.
    destruct (Z.ltb_spec (last + DISPLAY_REFRESH_RATE_MILLIS) now) as [Hlt | Hge].
    + destruct (Hopen eq_refl) as [Hrec Hout]. split; [| split].
      * split; [lia | intros _; exact Hout].
      * lia.
      * intros _ later Hlater Hwrap'.
        destruct (display_gate _ now later Hrec) as [Hshut' _].
        apply Hshut'. rewrite deadline_passed_no_wrap by clock_lia.
        apply Z.ltb_ge. lia.
    + rewrite (Hshut eq_refl). split; [| split].
      * split; [intros Hne; contradiction | lia].
      * reflexivity.
      * lia.
Qed.

Lemma gated_task_runs_after_interval_witness :
  let c := loop (released_at 2000) (booted_at 0) in
  outputs (process_fan_schedule 2011 c) ≠ outputs c
  ∧ process_fan_schedule 2010 c = c.
Proof.
  intros c.
  destruct (gated_task_runs_after_interval c 2000 2011) as [Hfan _];
    [lia | clock_lia |].
  destruct (gated_task_runs_after_interval c 2000 2010) as [Hfan' _];
    [lia | clock_lia |].
  destruct Hfan as (Hruns & _); [vm_compute; reflexivity | clock_lia |].
  destruct Hfan' as (_ & Hidle & _); [vm_compute; reflexivity | clock_lia |].
  split; [apply Hruns; clock_lia | apply Hidle; clock_lia].
Defined.

(** C9, as stated, fails at the boundary: the fan task ran last at reading
    2011; at reading 2021 its interval of 10 ms has passed and it does not
    run. *)
Lemma gates_open_at_interval_counterexample :
  let c := loop (released_at 2011) (loop (released_at 2000) (booted_at 0)) in
  last_fan_update c = Some 2011
  ∧ process_fan_schedule 2021 c = c
  ∧ ¬ gates_open_at_interval.
Proof.
  intros c. subst c.
  split; [vm_compute; reflexivity |]. split; [vm_compute; reflexivity |].
  intros Hclaim.
  destruct (Hclaim (loop (released_at 2011) (loop (released_at 2000) (booted_at 0)))
                   2011 2021)
    as [Hfan _].
  - apply reachable_loop, reachable_loop.
    apply (booted_at_reachable 0 (booted_at 0)). vm_compute. reflexivity.
  - lia.
  - clock_lia.
  - destruct Hfan as [_ Hruns]; [vm_compute; reflexivity |].
    apply Hruns; [clock_lia |]. vm_compute. reflexivity.
Qed.

(** * Further properties of the sketch *)

(** ** Runs used as examples *)

Lemma run_reachable (ticks : list tick) (c : controller) :
  reachable c → reachable (run ticks c).
Proof.
  revert c. induction ticks as [| t ticks IH]; intros c Hreach.
  - rewrite run_nil. exact Hreach.
  - rewrite run_cons. apply IH, reachable_loop, Hreach.
Qed.

Lemma booted_reachable : reachable (booted_at 0).
Proof. apply (booted_at_reachable 0 (booted_at 0)). vm_compute. reflexivity. Qed.

Lemma hold_from_visits (i : nat) (start : Z) (passes : nat) :
  Forall (visits i) (hold_from start passes).
Proof.
  apply Forall_forall. intros t Ht. apply list_elem_of_In in Ht.
  unfold hold_from in Ht. apply in_map_iff in Ht as (k & <- & _).
  split; apply Nat.le_0_l.
Qed.

Lemma hold_from_pressed (start : Z) (passes : nat) :
  Forall (λ t, pressed t SPEED_UP_BUTTON = true) (hold_from start passes).
Proof.
  apply Forall_forall. intros t Ht. apply list_elem_of_In in Ht.
  unfold hold_from in Ht. apply in_map_iff in Ht as (k & <- & _). reflexivity.
Qed.

(** ** The fan speed level *)

Lemma levels_in_range_step (op : machine_op) (m : machine) :
  levels_in_range m → levels_in_range (machine_step op m).
Proof.
  destruct m as [st fl sp sv tm]. unfold levels_in_range. simpl.
  intros [Hsp Hsv].
  destruct op as [i | i | now]; simpl; machine_cases;
    unfold wrap8, MAX_FAN_SPEED, OFF_FAN_SPEED, MIN_FAN_SPEED,
      INCREMENT_FAN_SPEED in *;
    repeat match goal with
           | H : (_ =? _) = true |- _ => apply Z.eqb_eq in H
           | H : (_ =? _) = false |- _ => apply Z.eqb_neq in H
           | H : (_ <? _) = true |- _ => apply Z.ltb_lt in H
           | H : (_ <? _) = false |- _ => apply Z.ltb_ge in H
           | H : (_ <=? _) = true |- _ => apply Z.leb_le in H
           | H : (_ <=? _) = false |- _ => apply Z.leb_gt in H
           end;
    simplify_eq; rewrite ?Z.mod_small by lia; try (split; lia); auto.
Qed.

(** X1. In every state the sketch reaches between two passes the fan speed
    level lies between 0 and MAX_FAN_SPEED = 10, and so does the level saved
    by the power click once there is one: no sequence of handler calls takes
    the [byte] counters out of the range of the bar graph. *)
Theorem reachable_levels_in_range (c : controller) :
  reachable c →
  0 ≤ user_fan_speed (fsm c) ≤ 10
  ∧ ∀ v, save_fan_speed (fsm c) = Some v → 0 ≤ v ≤ 10.
Proof.
  intros Hreach. destruct (reachable_machine c Hreach) as (_ & ops & ->).
  assert (H : levels_in_range (machine_run ops boot_machine)).
  { apply machine_run_invariant.
    - intros op m. apply levels_in_range_step.
    - unfold levels_in_range. simpl. unfold DEFAULT_FAN_SPEED, MAX_FAN_SPEED,
        MIN_FAN_SPEED, INCREMENT_FAN_SPEED. lia. }
  destruct H as [Hsp Hsv]. split; [exact Hsp |].
  intros v Hv. rewrite Hv in Hsv. exact Hsv.
Qed.

Lemma reachable_levels_in_range_witness :
  0 ≤ user_fan_speed (fsm (run climb_to_prompt (booted_at 0))) ≤ 10.
Proof.
  destruct (reachable_levels_in_range (run climb_to_prompt (booted_at 0)))
    as [Hsp _]; [| exact Hsp].
  apply run_reachable, booted_reachable.
Defined.

Ltac z_cases :=
  repeat match goal with
         | H : (_ =? _) = true |- _ => apply Z.eqb_eq in H
         | H : (_ =? _) = false |- _ => apply Z.eqb_neq in H
         | H : (_ <? _) = true |- _ => apply Z.ltb_lt in H
         | H : (_ <? _) = false |- _ => apply Z.ltb_ge in H
         | H : (_ <=? _) = true |- _ => apply Z.leb_le in H
         | H : (_ <=? _) = false |- _ => apply Z.leb_gt in H
         end.

Ltac level_lia :=
  unfold wrap8, MAX_FAN_SPEED, MAX_PWM_SPEED, OFF_FAN_SPEED, MIN_FAN_SPEED,
    INCREMENT_FAN_SPEED, DEFAULT_FAN_SPEED in *;
  z_cases; Z.div_mod_to_equations; lia.

Lemma turbo_check_keeps_on (now : Z) (m : machine) :
  onoff_state m ≠ SYSTEM_OFF →
  onoff_state (process_turbo_request now m) ≠ SYSTEM_OFF
  ∧ user_fan_speed (process_turbo_request now m) = user_fan_speed m.
Proof.
  destruct m as [st fl sp sv tm]. simpl. intros Hon.
  machine_cases; simplify_eq; auto.
Qed.

Lemma speed_up_step (m : machine) :
  onoff_state m ≠ SYSTEM_OFF → 0 ≤ user_fan_speed m ≤ MAX_FAN_SPEED →
  onoff_state (process_button_click SPEED_UP_BUTTON m) = onoff_state m
  ∧ user_fan_speed (process_button_click SPEED_UP_BUTTON m)
    = if user_fan_speed m =? MAX_FAN_SPEED then MAX_FAN_SPEED
      else Z.min MAX_PWM_SPEED (user_fan_speed m + 1).
Proof.
  destruct m as [st fl sp sv tm]. simpl. intros Hon Hsp.
  machine_cases; simplify_eq; split; try reflexivity; try contradiction;
    level_lia.
Qed.

(** X2. While the system is not Off, speed-up clicks, with any number of
    turbo checks between them, never turn it Off and raise the level by one
    each up to MAX_PWM_SPEED = 9, where it stays; from MAX_FAN_SPEED = 10
    they leave the level at 10. *)
Theorem speed_up_clicks_saturate (m : machine) (ops : list machine_op) :
  onoff_state m ≠ SYSTEM_OFF → 0 ≤ user_fan_speed m ≤ MAX_FAN_SPEED →
  Forall (click_or_turbo SPEED_UP_BUTTON) ops →
  onoff_state (machine_run ops m) ≠ SYSTEM_OFF
  ∧ user_fan_speed (machine_run ops m)
    = if user_fan_speed m =? MAX_FAN_SPEED then MAX_FAN_SPEED
      else Z.min MAX_PWM_SPEED (user_fan_speed m + clicks_of SPEED_UP_BUTTON ops).
Proof.
  intros Hon Hsp Hops. revert m Hon Hsp.
  induction Hops as [| op ops Hop Hrest IH]; intros m Hon Hsp.
  - simpl. split; [exact Hon |]. destruct (Z.eqb_spec (user_fan_speed m) MAX_FAN_SPEED);
      level_lia.
  - assert (Hlen : 0 ≤ clicks_of SPEED_UP_BUTTON ops).
    { clear. induction ops as [| [j | j | t] ops IH]; simpl; try lia.
      destruct (j =? SPEED_UP_BUTTON)%nat; lia. }
    destruct op as [j | j | now]; simpl in Hop; [subst j | contradiction |].
    + destruct (speed_up_step m Hon Hsp) as [Hst Hstep].
      change (machine_run (OpClick SPEED_UP_BUTTON :: ops) m)
        with (machine_run ops (process_button_click SPEED_UP_BUTTON m)).
      destruct (IH (process_button_click SPEED_UP_BUTTON m)) as [Hon' Hsp'].
      * rewrite Hst. exact Hon.
      * rewrite Hstep. destruct (Z.eqb_spec (user_fan_speed m) MAX_FAN_SPEED); level_lia.
      * split; [exact Hon' |]. rewrite Hsp', Hstep.
        cbn [clicks_of]. rewrite Nat.eqb_refl.
        destruct (Z.eqb_spec (user_fan_speed m) MAX_FAN_SPEED) as [He | Hne].
        -- rewrite Z.eqb_refl. reflexivity.
        -- destruct (Z.eqb_spec (Z.min MAX_PWM_SPEED (user_fan_speed m + 1))
                       MAX_FAN_SPEED); level_lia.
    + destruct (turbo_check_keeps_on now m Hon) as [Hon1 Hsp1].
      change (machine_run (OpTurbo now :: ops) m)
        with (machine_run ops (process_turbo_request now m)).
      destruct (IH (process_turbo_request now m)) as [Hon' Hsp'].
      * exact Hon1.
      * rewrite Hsp1. exact Hsp.
      * split; [exact Hon' |]. rewrite Hsp', Hsp1. reflexivity.
Qed.

Lemma speed_up_clicks_saturate_witness :
  let m := Machine SYSTEM_ON false 7 (Some 2) (Some 1500) in
  let ops := [OpClick SPEED_UP_BUTTON; OpTurbo 3000; OpClick SPEED_UP_BUTTON;
              OpTurbo 3100; OpClick SPEED_UP_BUTTON; OpTurbo 3200] in
  user_fan_speed (machine_run ops m) = 9.
Proof.
  intros m ops.
  destruct (speed_up_clicks_saturate m ops) as [_ Hsp].
  - discriminate.
  - unfold MAX_FAN_SPEED. simpl. lia.
  - repeat constructor.
  - exact Hsp.
Defined.

Lemma speed_down_step (m : machine) :
  onoff_state m ≠ SYSTEM_OFF → 0 ≤ user_fan_speed m ≤ MAX_FAN_SPEED →
  onoff_state (process_button_click SPEED_DOWN_BUTTON m) = onoff_state m
  ∧ user_fan_speed (process_button_click SPEED_DOWN_BUTTON m)
    = Z.max (Z.min (user_fan_speed m) MIN_FAN_SPEED) (user_fan_speed m - 1).
Proof.
  destruct m as [st fl sp sv tm]. simpl. intros Hon Hsp.
  machine_cases; simplify_eq; split; try reflexivity; try contradiction;
    level_lia.
Qed.

Lemma clicks_of_nonneg (i : nat) (ops : list machine_op) : 0 ≤ clicks_of i ops.
Proof.
  induction ops as [| [j | j | t] ops IH]; simpl; try lia.
  destruct (j =? i)%nat; lia.
Qed.

(** X3. While the system is not Off, speed-down clicks, with any number of
    turbo checks between them, never turn it Off and lower the level by one
    each down to MIN_FAN_SPEED = 1, where it stays; a level of 0 stays 0. *)
Theorem speed_down_clicks_floor (m : machine) (ops : list machine_op) :
  onoff_state m ≠ SYSTEM_OFF → 0 ≤ user_fan_speed m ≤ MAX_FAN_SPEED →
  Forall (click_or_turbo SPEED_DOWN_BUTTON) ops →
  onoff_state (machine_run ops m) ≠ SYSTEM_OFF
  ∧ user_fan_speed (machine_run ops m)
    = Z.max (Z.min (user_fan_speed m) MIN_FAN_SPEED)
            (user_fan_speed m - clicks_of SPEED_DOWN_BUTTON ops).
Proof.
  intros Hon Hsp Hops. revert m Hon Hsp.
  induction Hops as [| op ops Hop Hrest IH]; intros m Hon Hsp.
  - simpl. split; [exact Hon |]. level_lia.
  - pose proof (clicks_of_nonneg SPEED_DOWN_BUTTON ops) as Hlen.
    destruct op as [j | j | now]; simpl in Hop; [subst j | contradiction |].
    + destruct (speed_down_step m Hon Hsp) as [Hst Hstep].
      change (machine_run (OpClick SPEED_DOWN_BUTTON :: ops) m)
        with (machine_run ops (process_button_click SPEED_DOWN_BUTTON m)).
      destruct (IH (process_button_click SPEED_DOWN_BUTTON m)) as [Hon' Hsp'].
      * rewrite Hst. exact Hon.
      * rewrite Hstep. level_lia.
      * split; [exact Hon' |]. rewrite Hsp', Hstep.
        cbn [clicks_of]. rewrite Nat.eqb_refl. level_lia.
    + destruct (turbo_check_keeps_on now m Hon) as [Hon1 Hsp1].
      change (machine_run (OpTurbo now :: ops) m)
        with (machine_run ops (process_turbo_request now m)).
      destruct (IH (process_turbo_request now m)) as [Hon' Hsp'].
      * exact Hon1.
      * rewrite Hsp1. exact Hsp.
      * split; [exact Hon' |]. rewrite Hsp', Hsp1. reflexivity.
Qed.

Lemma speed_down_clicks_floor_witness :
  let m := Machine SYSTEM_ON false 3 (Some 2) (Some 1500) in
  let ops := [OpClick SPEED_DOWN_BUTTON; OpTurbo 3000; OpClick SPEED_DOWN_BUTTON;
              OpTurbo 3100; OpClick SPEED_DOWN_BUTTON; OpTurbo 3200] in
  user_fan_speed (machine_run ops m) = 1.
Proof.
  intros m ops.
  destruct (speed_down_clicks_floor m ops) as [_ Hsp].
  - discriminate.
  - unfold MAX_FAN_SPEED. simpl. lia.
  - repeat constructor.
  - exact Hsp.
Defined.

(** X4. While the system is not Off, a speed-up click followed by a
    speed-down click gives the state machine back as it was at every level
    from 1 to 8, and a speed-down click followed by a speed-up click does so
    at every level from 2 to 9. *)
Theorem speed_step_round_trip (m : machine) :
  onoff_state m ≠ SYSTEM_OFF →
  (MIN_FAN_SPEED ≤ user_fan_speed m < MAX_PWM_SPEED →
   process_button_click SPEED_DOWN_BUTTON
     (process_button_click SPEED_UP_BUTTON m) = m)
  ∧ (MIN_FAN_SPEED < user_fan_speed m ≤ MAX_PWM_SPEED →
     process_button_click SPEED_UP_BUTTON
       (process_button_click SPEED_DOWN_BUTTON m) = m).
Proof.
  destruct m as [st fl sp sv tm]. simpl. intros Hon.
  split; intros Hsp; machine_cases; simplify_eq; try contradiction;
    try (exfalso; level_lia);
    unfold set_user_fan_speed; simpl; f_equal; level_lia.
Qed.

Lemma speed_step_round_trip_witness :
  let m := Machine SYSTEM_ON false 5 (Some 2) (Some 1500) in
  process_button_click SPEED_DOWN_BUTTON (process_button_click SPEED_UP_BUTTON m) = m
  ∧ process_button_click SPEED_UP_BUTTON (process_button_click SPEED_DOWN_BUTTON m) = m.
Proof.
  intros m. destruct (speed_step_round_trip m) as [Hup Hdown].
  - discriminate.
  - split; [apply Hup | apply Hdown];
      unfold MIN_FAN_SPEED, MAX_PWM_SPEED; simpl; lia.
Defined.

(** X5. Holding the power button while the system is On or shows the turbo
    prompt sets the level to MAX_FAN_SPEED = 10 and changes neither the
    state nor the saved level; the turbo check of the same pass then leaves
    the system On at level 10 with the request flag down, whatever the
    clock reads. *)
Theorem power_hold_sets_turbo (m : machine) (now : Z) :
  onoff_state m = SYSTEM_ON ∨ onoff_state m = TURBO_REQUESTED →
  let held := process_button_hold ONOFF_TOGGLE_BUTTON m in
  let ended := process_turbo_request now held in
  user_fan_speed held = MAX_FAN_SPEED
  ∧ onoff_state held = onoff_state m
  ∧ save_fan_speed held = save_fan_speed m
  ∧ user_fan_speed ended = MAX_FAN_SPEED
  ∧ onoff_state ended = SYSTEM_ON
  ∧ turbo_requested_by_user ended = false.
Proof.
  destruct m as [st fl sp sv tm]. simpl.
  intros [-> | ->]; unfold process_button_hold, process_onoff_hold,
    set_max_fan_speed, process_turbo_request, turbo_request_enter,
    turbo_request_exit; simpl; rewrite ?orb_true_r; simpl; auto 10.
Qed.

Lemma power_hold_sets_turbo_witness :
  let m := Machine SYSTEM_ON false 4 (Some 2) (Some 1500) in
  user_fan_speed (process_turbo_request 5000
                    (process_button_hold ONOFF_TOGGLE_BUTTON m)) = 10
  ∧ onoff_state (process_turbo_request 5000
                   (process_button_hold ONOFF_TOGGLE_BUTTON m)) = SYSTEM_ON.
Proof.
  intros m. destruct (power_hold_sets_turbo m 5000) as (_ & _ & _ & Hsp & Hst & _).
  - left. reflexivity.
  - split; [exact Hsp | exact Hst].
Defined.

(** X6. While the system is Off with the request flag down, every
    handler call other than the click of the power button, and every turbo
    check, leaves the state, the flag, the level and the saved level as they
    are. *)
Theorem off_ignores_all_but_power_click (m : machine) (ops : list machine_op) :
  onoff_state m = SYSTEM_OFF → turbo_requested_by_user m = false →
  Forall (λ op, op ≠ OpClick ONOFF_TOGGLE_BUTTON) ops →
  onoff_state (machine_run ops m) = SYSTEM_OFF
  ∧ turbo_requested_by_user (machine_run ops m) = false
  ∧ user_fan_speed (machine_run ops m) = user_fan_speed m
  ∧ save_fan_speed (machine_run ops m) = save_fan_speed m.
Proof.
  intros Hoff Hfl Hops. revert m Hoff Hfl.
  induction Hops as [| op ops Hop Hrest IH]; intros m Hoff Hfl.
  - auto.
  - destruct (off_step_frame op m Hoff Hfl Hop) as (Hs & Hf & Hp & Hv).
    destruct (IH _ Hs Hf) as (Hs' & Hf' & Hp' & Hv').
    change (machine_run (op :: ops) m) with (machine_run ops (machine_step op m)).
    rewrite Hs', Hf', Hp', Hv', Hp, Hv. auto.
Qed.

Lemma off_ignores_all_but_power_click_witness :
  let m := Machine SYSTEM_OFF false 0 (Some 6) (Some 1500) in
  let ops := [OpClick SPEED_UP_BUTTON; OpTurbo 3000; OpHold ONOFF_TOGGLE_BUTTON;
              OpTurbo 3100; OpClick SPEED_DOWN_BUTTON; OpTurbo 3200] in
  onoff_state (machine_run ops m) = SYSTEM_OFF
  ∧ user_fan_speed (machine_run ops m) = 0
  ∧ save_fan_speed (machine_run ops m) = Some 6.
Proof.
  intros m ops.
  destruct (off_ignores_all_but_power_click m ops) as (Hst & _ & Hsp & Hsv).
  - reflexivity.
  - reflexivity.
  - repeat constructor; discriminate.
  - auto.
Defined.

(** X7. When a speed-up click at level 9 and a power click are handled in
    the same pass, the power click turns the system Off and saves level 9,
    but the turbo request raised by the speed-up click is still pending: the
    turbo check that ends the pass leaves the system in TurboRequested at
    level 0, and once the prompt has been up for more than
    TURBO_TEXT_DISPLAY_TIME_IN_MILLIS the system is On at level 0. *)
Theorem power_off_keeps_turbo_request (m : machine) (now : Z) :
  onoff_state m ≠ SYSTEM_OFF → user_fan_speed m = MAX_PWM_SPEED →
  0 ≤ now → now + TURBO_TEXT_DISPLAY_TIME_IN_MILLIS < ULONG_MODULUS →
  let m' := machine_run [OpClick SPEED_UP_BUTTON; OpClick ONOFF_TOGGLE_BUTTON;
                         OpTurbo now] m in
  onoff_state m' = TURBO_REQUESTED
  ∧ user_fan_speed m' = OFF_FAN_SPEED
  ∧ save_fan_speed m' = Some MAX_PWM_SPEED
  ∧ ∀ later, now + TURBO_TEXT_DISPLAY_TIME_IN_MILLIS < later →
             onoff_state (process_turbo_request later m') = SYSTEM_ON
             ∧ user_fan_speed (process_turbo_request later m') = OFF_FAN_SPEED.
Proof.
  intros Hon Hsp Hn0 Hn1 m'. subst m'.
  assert (Hstay : deadline_passed now TURBO_TEXT_DISPLAY_TIME_IN_MILLIS now = false).
  { rewrite deadline_passed_no_wrap by clock_lia. apply Z.ltb_ge. clock_lia. }
  destruct m as [st fl sp sv tm]. cbn [onoff_state user_fan_speed] in Hon, Hsp.
  subst sp.
  assert (Hmid : process_button_click ONOFF_TOGGLE_BUTTON
                   (process_button_click SPEED_UP_BUTTON
                      (Machine st fl MAX_PWM_SPEED sv tm))
                 = Machine SYSTEM_OFF true OFF_FAN_SPEED (Some MAX_PWM_SPEED) tm).
  { destruct st; try contradiction; reflexivity. }
  assert (Hend : machine_run [OpClick SPEED_UP_BUTTON; OpClick ONOFF_TOGGLE_BUTTON;
                              OpTurbo now] (Machine st fl MAX_PWM_SPEED sv tm)
                 = Machine TURBO_REQUESTED false OFF_FAN_SPEED (Some MAX_PWM_SPEED)
                           (Some now)).
  { unfold machine_run. cbn [fold_left machine_step]. rewrite Hmid.
    unfold process_turbo_request, turbo_request_enter, turbo_request_exit.
    simpl. rewrite Hstay. reflexivity. }
  rewrite Hend. repeat split.
  - rewrite turbo_check_idle by reflexivity. unfold turbo_request_exit. simpl.
    rewrite deadline_passed_no_wrap by clock_lia.
    replace (now + TURBO_TEXT_DISPLAY_TIME_IN_MILLIS <? later) with true
      by (symmetry; apply Z.ltb_lt; lia).
    reflexivity.
  - rewrite turbo_check_idle by reflexivity. reflexivity.
Qed.

Lemma power_off_keeps_turbo_request_witness :
  let m := Machine SYSTEM_ON false 9 (Some 2) (Some 1500) in
  let m' := machine_run [OpClick SPEED_UP_BUTTON; OpClick ONOFF_TOGGLE_BUTTON;
                         OpTurbo 5000] m in
  onoff_state m' = TURBO_REQUESTED
  ∧ user_fan_speed m' = 0
  ∧ onoff_state (process_turbo_request 5501 m') = SYSTEM_ON
  ∧ user_fan_speed (process_turbo_request 5501 m') = 0.
Proof.
  intros m m'.
  destruct (power_off_keeps_turbo_request m 5000) as (Hst & Hsp & _ & Hlater).
  - discriminate.
  - reflexivity.
  - lia.
  - unfold TURBO_TEXT_DISPLAY_TIME_IN_MILLIS, ULONG_MODULUS. lia.
  - destruct (Hlater 5501) as [Hst' Hsp'].
    + unfold TURBO_TEXT_DISPLAY_TIME_IN_MILLIS. lia.
    + auto.
Defined.

(** ** What every pass leaves behind *)

Lemma boot_screen_loop_last_check (timer : Z) (ticks : list tick) (c c' : controller) :
  wf c → boot_screen_loop timer ticks c = Some c' →
  fsm c' = fsm c ∨ ∃ now m, fsm c' = process_turbo_request now m.
Proof.
  revert c. induction ticks as [| t ticks IH]; intros c Hwf Hloop.
  - discriminate Hloop.
  - cbn [boot_screen_loop] in Hloop.
    destruct (process_button_schedule_view (millis t) (digitalRead t) (poll_start t)
              (process_start t) c Hwf)
      as (_ & (evs & _ & Hfsm) & Hwf1).
    destruct (millis t <? wrap32 (timer + BOOTSCREEN_DISPLAY_TIME_IN_MILLIS)).
    + case_bool_decide.
      * simplify_eq. right. eauto.
      * destruct (IH _ Hwf1 Hloop) as [Heq | Hex]; [| right; exact Hex].
        right. rewrite Heq. eauto.
    + simplify_eq. left. reflexivity.
Qed.

Lemma reachable_last_check (c : controller) :
  reachable c →
  fsm c = boot_machine ∨ ∃ now m, fsm c = process_turbo_request now m.
Proof.
  induction 1 as [now ticks c Hsetup | t c Hreach _].
  - unfold setup, show_boot_screen in Hsetup.
    destruct (boot_screen_loop now ticks _) as [c1 |] eqn:Hloop; [| discriminate].
    apply boot_screen_loop_last_check in Hloop; [| repeat split].
    cbn in Hsetup. simplify_eq. exact Hloop.
  - right. destruct (reachable_machine c Hreach) as [Hwf _].
    destruct (loop_machine t c Hwf) as [_ Hfsm].
    rewrite machine_run_app in Hfsm. eauto.
Qed.

(** X8. The turbo request flag is down in every state the sketch reaches
    between two passes: a request is taken up or dropped by the turbo check
    of the pass that raised it. *)
Theorem turbo_request_is_one_shot (c : controller) :
  reachable c → turbo_requested_by_user (fsm c) = false.
Proof.
  intros Hreach. destruct (reachable_last_check c Hreach) as [-> | (now & m & ->)].
  - reflexivity.
  - destruct m as [st fl sp sv tm]. machine_cases; reflexivity.
Qed.

Lemma turbo_request_is_one_shot_witness :
  turbo_requested_by_user (fsm (run climb_to_prompt (booted_at 0))) = false.
Proof.
  apply (turbo_request_is_one_shot (run climb_to_prompt (booted_at 0))).
  apply run_reachable, booted_reachable.
Defined.

(** X9. In every reachable state that shows the turbo prompt the level is
    not MAX_FAN_SPEED = 10 and the prompt timer has been set. *)
Theorem no_turbo_prompt_at_max_speed (c : controller) :
  reachable c → onoff_state (fsm c) = TURBO_REQUESTED →
  user_fan_speed (fsm c) ≠ MAX_FAN_SPEED
  ∧ is_Some (turbo_request_displayed_timer (fsm c)).
Proof.
  intros Hreach. destruct (reachable_last_check c Hreach) as [-> | (now & m & ->)].
  - discriminate.
  - destruct m as [st fl sp sv tm]. machine_cases; intros Hst; simplify_eq;
      (split; [| eexists; reflexivity]); z_cases;
      repeat match goal with
             | H : _ || _ = false |- _ => apply orb_false_iff in H as [? ?]
             end; z_cases; try assumption; try congruence.
Qed.

Lemma no_turbo_prompt_at_max_speed_witness :
  user_fan_speed (fsm (run climb_to_prompt (booted_at 0))) ≠ MAX_FAN_SPEED.
Proof.
  destruct (no_turbo_prompt_at_max_speed (run climb_to_prompt (booted_at 0)))
    as [Hsp _].
  - apply run_reachable, booted_reachable.
  - vm_compute. reflexivity.
  - exact Hsp.
Defined.

(** ** The order of the handler calls *)

Lemma process_button_fold_log (now : Z) (js : list nat) (c : controller) :
  wf c → last_interaction_timestamp (btn c) ≠ None →
  Forall (λ j, (j < NUMBER_OF_BUTTONS)%nat) js → NoDup js →
  events (fold_left (λ c j, process_button now j c) js c)
  = events c
    ++ concat (map (λ j, (button_resolve j now (button_state (btn c) !!! j)
                                         (view j c)).2) js).
Proof.
  intros Hwf Hsome Hjs Hnodup. revert c Hwf Hsome.
  induction Hjs as [| j js Hj Hrest IH]; intros c Hwf Hsome.
  - simpl. rewrite app_nil_r. reflexivity.
  - apply NoDup_cons in Hnodup as [Hfresh Hnodup].
    destruct (process_button_view now j c Hwf Hsome Hj)
      as (_ & Hother & Hbs & Hev & _ & Hwf' & Hsome').
    cbn [fold_left map concat]. rewrite (IH Hnodup _ Hwf' Hsome'), Hev, <- app_assoc.
    do 3 f_equal. apply map_ext_in. intros i Hin.
    rewrite Hbs, Hother; [reflexivity |].
    intros ->. apply Hfresh, list_elem_of_In, Hin.
Qed.

Lemma button_resolve_one_call (i : nat) (now : Z) (st : button_code)
    (v : button_view) :
  (button_resolve i now st v).2 = []
  ∨ (button_resolve i now st v).2 = [Click i]
  ∨ (button_resolve i now st v).2 = [Hold i].
Proof. unfold button_resolve. repeat case_match; auto. Qed.

(** The handler calls of one pass of the button task, whatever the counters
    of its loops hold on entry. *)
Lemma process_button_schedule_calls (now : Z) (dr : nat → bool) (ps bs : nat)
    (c : controller) :
  wf c →
  ∃ up down power,
    events (process_button_schedule now dr ps bs c) = events c ++ up ++ down ++ power
    ∧ (up = [] ∨ up = [Click SPEED_UP_BUTTON] ∨ up = [Hold SPEED_UP_BUTTON])
    ∧ (down = [] ∨ down = [Click SPEED_DOWN_BUTTON]
       ∨ down = [Hold SPEED_DOWN_BUTTON])
    ∧ (power = [] ∨ power = [Click ONOFF_TOGGLE_BUTTON]
       ∨ power = [Hold ONOFF_TOGGLE_BUTTON])
    ∧ ((SPEED_UP_BUTTON < bs)%nat → up = [])
    ∧ ((SPEED_DOWN_BUTTON < bs)%nat → down = [])
    ∧ ((ONOFF_TOGGLE_BUTTON < bs)%nat → power = []).
Proof.
  intros Hwf. unfold process_button_schedule, process_buttons.
  set (c1 := set_last_buttons_update now c).
  assert (Hwf1 : wf c1) by exact Hwf.
  set (c2 := with_btn (poll_input_signals ps dr) c1).
  set (c3 := with_btn (enter_process_buttons now) c2).
  assert (Hwf2 : wf c2).
  { destruct (poll_input_signals_view ps dr c1 0 Hwf1) as (_ & _ & H);
      [unfold NUMBER_OF_BUTTONS; lia | exact H]. }
  assert (H3 : wf c3 ∧ last_interaction_timestamp (btn c3) ≠ None).
  { destruct (enter_process_buttons_view now c2 0 Hwf2) as (_ & H);
      [unfold NUMBER_OF_BUTTONS; lia | exact H]. }
  destruct H3 as [Hwf3 Hsome3].
  pose proof (process_button_fold_log now _ c3 Hwf3 Hsome3 (buttons_from_below bs)
                (buttons_from_NoDup bs)) as Hlog.
  set (c4 := fold_left (λ c j, process_button now j c) (buttons_from bs) c3) in *.
  destruct (process_turbo_request_task_frame now c4) as (_ & _ & ->).
  rewrite Hlog. change (events c3) with (events c). clear Hlog.
  set (call := λ j, (button_resolve j now (button_state (btn c3) !!! j) (view j c3)).2).
  assert (Hcall : ∀ j, call j = [] ∨ call j = [Click j] ∨ call j = [Hold j])
    by (intros j; apply button_resolve_one_call).
  unfold SPEED_UP_BUTTON, SPEED_DOWN_BUTTON, ONOFF_TOGGLE_BUTTON.
  destruct bs as [| [| [| bs]]]; cbn [buttons_from seq NUMBER_OF_BUTTONS Nat.sub
    map concat]; rewrite ?app_nil_r.
  - exists (call 0%nat), (call 1%nat), (call 2%nat).
    repeat split; try apply Hcall; intros; exfalso; lia.
  - exists [], (call 1%nat), (call 2%nat).
    repeat split; try apply Hcall; auto; intros; exfalso; lia.
  - exists [], [], (call 2%nat).
    repeat split; try apply Hcall; auto; intros; exfalso; lia.
  - exists [], [], []. cbn [app]. rewrite app_nil_r. repeat split; auto.
Qed.

(** X10. Whatever the counters of the button loops hold on entry, one pass
    of [loop] calls at most one handler for each button, in the order
    speed-up, speed-down, power, none for a button below the start of the
    loop of [process_buttons], and then runs the turbo check once: the state
    machine after the pass is the turbo check applied to the handler calls
    in that order. *)
Theorem handlers_called_in_button_order (t : tick) (c : controller) :
  wf c →
  ∃ up down power,
    tick_events t c = up ++ down ++ power
    ∧ (up = [] ∨ up = [Click SPEED_UP_BUTTON] ∨ up = [Hold SPEED_UP_BUTTON])
    ∧ (down = [] ∨ down = [Click SPEED_DOWN_BUTTON]
       ∨ down = [Hold SPEED_DOWN_BUTTON])
    ∧ (power = [] ∨ power = [Click ONOFF_TOGGLE_BUTTON]
       ∨ power = [Hold ONOFF_TOGGLE_BUTTON])
    ∧ ((SPEED_UP_BUTTON < process_start t)%nat → up = [])
    ∧ ((SPEED_DOWN_BUTTON < process_start t)%nat → down = [])
    ∧ ((ONOFF_TOGGLE_BUTTON < process_start t)%nat → power = [])
    ∧ fsm (loop t c)
      = process_turbo_request (millis t)
          (machine_run (map op_of_event (up ++ down ++ power)) (fsm c)).
Proof.
  intros Hwf.
  destruct (process_button_schedule_calls (millis t) (digitalRead t) (poll_start t)
              (process_start t) c Hwf)
    as (up & down & power & Hlog & Hup & Hdown & Hpower & Hno0 & Hno1 & Hno2).
  exists up, down, power.
  assert (Hev : tick_events t c = up ++ down ++ power).
  { unfold tick_events. destruct (loop_frame t c) as (_ & _ & ->).
    rewrite Hlog, drop_app_length. reflexivity. }
  repeat (split; [assumption |]).
  destruct (loop_machine t c Hwf) as [_ Hfsm].
  rewrite machine_run_app in Hfsm. rewrite <- Hev. exact Hfsm.
Qed.

Lemma handlers_called_in_button_order_witness :
  tick_events (released_at 2080)
              (run two_button_press (loop (released_at 2000) (booted_at 0)))
  = [Click SPEED_UP_BUTTON; Click ONOFF_TOGGLE_BUTTON]
  ∧ ∃ up down power,
      [Click SPEED_UP_BUTTON; Click ONOFF_TOGGLE_BUTTON] = up ++ down ++ power
      ∧ (up = [] ∨ up = [Click SPEED_UP_BUTTON] ∨ up = [Hold SPEED_UP_BUTTON])
      ∧ (down = [] ∨ down = [Click SPEED_DOWN_BUTTON]
         ∨ down = [Hold SPEED_DOWN_BUTTON])
      ∧ (power = [] ∨ power = [Click ONOFF_TOGGLE_BUTTON]
         ∨ power = [Hold ONOFF_TOGGLE_BUTTON]).
Proof.
  assert (Hpass : tick_events (released_at 2080)
                    (run two_button_press (loop (released_at 2000) (booted_at 0)))
                  = [Click SPEED_UP_BUTTON; Click ONOFF_TOGGLE_BUTTON])
    by (vm_compute; reflexivity).
  split; [exact Hpass |].
  destruct (handlers_called_in_button_order (released_at 2080)
              (run two_button_press (loop (released_at 2000) (booted_at 0))))
    as (up & down & power & Hev & Hup & Hdown & Hpower & _).
  - apply run_wf, loop_wf. vm_compute. auto.
  - exists up, down, power. rewrite <- Hpass. auto.
Defined.

(** ** Start-up *)

Lemma off_handler_call (e : list logical_event) (i : nat) (m : machine) :
  onoff_state m = SYSTEM_OFF →
  e = [] ∨ e = [Click i] ∨ e = [Hold i] →
  e ≠ [Click ONOFF_TOGGLE_BUTTON] →
  machine_run (map op_of_event e) m = m.
Proof.
  intros Hoff [-> | [-> | ->]] Hne; try reflexivity;
    destruct m as [st fl sp sv tm]; simpl in Hoff; subst st;
    unfold machine_run; cbn [map op_of_event fold_left machine_step];
    unfold process_button_click, process_button_hold, process_onoff_hold,
      process_speed_up_click, process_speed_down_click;
    repeat (case_match; try reflexivity).
  exfalso. apply Hne. f_equal. f_equal.
  match goal with H : (_ =? _)%nat = true |- _ => apply Nat.eqb_eq in H; exact H end.
Qed.

Lemma boot_pass (now : Z) (dr : nat → bool) (ps bs : nat) (c : controller) :
  wf c →
  onoff_state (fsm c) = SYSTEM_OFF → turbo_requested_by_user (fsm c) = false →
  user_fan_speed (fsm c) = DEFAULT_FAN_SPEED → save_fan_speed (fsm c) = None →
  let m := fsm (process_button_schedule now dr ps bs c) in
  turbo_requested_by_user m = false ∧ user_fan_speed m = DEFAULT_FAN_SPEED
  ∧ ((onoff_state m = SYSTEM_OFF ∧ save_fan_speed m = None)
     ∨ (onoff_state m = SYSTEM_ON ∧ save_fan_speed m = Some DEFAULT_FAN_SPEED)).
Proof.
  intros Hwf Hoff Hfl Hsp Hsv m. subst m.
  destruct (process_button_schedule_view now dr ps bs c Hwf)
    as (_ & (evs & Hlog & Hfsm) & _).
  destruct (process_button_schedule_calls now dr ps bs c Hwf)
    as (up & down & power & Hcalls & Hup & Hdown & Hpower & _).
  rewrite Hcalls in Hlog. apply app_inv_head in Hlog.
  rewrite Hfsm, <- Hlog, !map_app, !machine_run_app.
  rewrite (off_handler_call up SPEED_UP_BUTTON (fsm c) Hoff Hup)
    by (destruct Hup as [-> | [-> | ->]]; discriminate).
  rewrite (off_handler_call down SPEED_DOWN_BUTTON (fsm c) Hoff Hdown)
    by (destruct Hdown as [-> | [-> | ->]]; discriminate).
  destruct Hpower as [-> | [-> | ->]];
    destruct (fsm c) as [st fl sp sv tm]; simpl in Hoff, Hfl, Hsp, Hsv; subst;
    vm_compute; auto.
Qed.

Lemma boot_screen_loop_result (timer : Z) (ticks : list tick) (c c' : controller) :
  wf c →
  onoff_state (fsm c) = SYSTEM_OFF → turbo_requested_by_user (fsm c) = false →
  user_fan_speed (fsm c) = DEFAULT_FAN_SPEED → save_fan_speed (fsm c) = None →
  boot_screen_loop timer ticks c = Some c' →
  turbo_requested_by_user (fsm c') = false
  ∧ user_fan_speed (fsm c') = DEFAULT_FAN_SPEED
  ∧ ((onoff_state (fsm c') = SYSTEM_OFF ∧ save_fan_speed (fsm c') = None)
     ∨ (onoff_state (fsm c') = SYSTEM_ON
        ∧ save_fan_speed (fsm c') = Some DEFAULT_FAN_SPEED)).
Proof.
  revert c. induction ticks as [| t ticks IH]; intros c Hwf Hoff Hfl Hsp Hsv Hloop.
  - discriminate Hloop.
  - cbn [boot_screen_loop] in Hloop.
    destruct (boot_pass (millis t) (digitalRead t) (poll_start t) (process_start t)
                c Hwf Hoff Hfl Hsp Hsv)
      as (Hfl1 & Hsp1 & Hcase).
    destruct (process_button_schedule_view (millis t) (digitalRead t) (poll_start t)
              (process_start t) c Hwf)
      as (_ & _ & Hwf1).
    destruct (millis t <? wrap32 (timer + BOOTSCREEN_DISPLAY_TIME_IN_MILLIS)).
    + case_bool_decide as Hon.
      * simplify_eq. auto.
      * destruct Hcase as [[Hoff1 Hsv1] | [Hon1 _]];
          [| exfalso; rewrite Hon1 in Hon; first [discriminate Hon | apply Hon; discriminate]].
        apply (IH _ Hwf1 Hoff1 Hfl1 Hsp1 Hsv1 Hloop).
    + simplify_eq. auto.
Qed.

(** X11. Whenever [setup] returns, the level is DEFAULT_FAN_SPEED = 2 and
    the request flag is down; the system is either Off with nothing saved, or
    On with the default level saved (a power click during the boot screen). *)
Theorem setup_ends_off_or_on_at_default (now : Z) (ticks : list tick)
    (c : controller) :
  setup now ticks = Some c →
  user_fan_speed (fsm c) = DEFAULT_FAN_SPEED
  ∧ turbo_requested_by_user (fsm c) = false
  ∧ ((onoff_state (fsm c) = SYSTEM_OFF ∧ save_fan_speed (fsm c) = None)
     ∨ (onoff_state (fsm c) = SYSTEM_ON
        ∧ save_fan_speed (fsm c) = Some DEFAULT_FAN_SPEED)).
Proof.
  unfold setup, show_boot_screen. intros Hsetup.
  destruct (boot_screen_loop now ticks _) as [c1 |] eqn:Hloop; [| discriminate].
  apply boot_screen_loop_result in Hloop as (Hfl & Hsp & Hcase);
    try reflexivity; [| repeat split].
  cbn in Hsetup. simplify_eq. auto.
Qed.

Lemma setup_ends_off_or_on_at_default_witness :
  user_fan_speed (fsm (booted_at 0)) = DEFAULT_FAN_SPEED.
Proof.
  destruct (setup_ends_off_or_on_at_default 0 (boot_ticks 0) (booted_at 0))
    as [Hsp _]; [| exact Hsp].
  vm_compute. reflexivity.
Defined.

(** X12. [setup] returns as soon as a pass of the boot screen finds the
    clock at or past the deadline [bootscreen_timer +
    BOOTSCREEN_DISPLAY_TIME_IN_MILLIS] (reduced modulo [2^32]). *)
Theorem setup_completes (now : Z) (ticks : list tick) :
  Exists (λ t, wrap32 (now + BOOTSCREEN_DISPLAY_TIME_IN_MILLIS) ≤ millis t) ticks →
  is_Some (setup now ticks).
Proof.
  intros Hticks. unfold setup, show_boot_screen.
  generalize (with_fsm (set_onoff_state SYSTEM_OFF)
                (hw_write (DigitalWrite FAN_PULSE_READ_PIN HIGH)
                   (hw_write (DigitalWrite RELAY_CONTROL_PIN RELAY_OFF) power_on))).
  intros c.
  assert (Hloop : is_Some (boot_screen_loop now ticks c)).
  { revert c. induction Hticks as [t ticks Ht | t ticks Hlater IH]; intros c;
      cbn [boot_screen_loop].
    - replace (millis t <? wrap32 (now + BOOTSCREEN_DISPLAY_TIME_IN_MILLIS))
        with false by (symmetry; apply Z.ltb_ge; exact Ht).
      eexists. reflexivity.
    - destruct (millis t <? wrap32 (now + BOOTSCREEN_DISPLAY_TIME_IN_MILLIS));
        [| eexists; reflexivity].
      case_bool_decide; [eexists; reflexivity | apply IH]. }
  destruct Hloop as [c' ->]. eexists. reflexivity.
Qed.

Lemma setup_completes_witness :
  is_Some (setup 0 [released_at 1000; released_at 2000; released_at 3000]).
Proof.
  apply (setup_completes 0 [released_at 1000; released_at 2000; released_at 3000]).
  apply Exists_cons_tl, Exists_cons_hd. vm_compute. discriminate.
Defined.

(** ** Holding a button *)

Lemma button_tick_held_quiet (i : nat) (now : Z) (v : button_view) :
  view_flag v ≠ NOT_PROCESSED →
  (button_tick i now true v).2 = []
  ∧ view_flag (button_tick i now true v).1 ≠ NOT_PROCESSED.
Proof.
  destruct v as [rd ts fl]. simpl. intros Hfl.
  unfold button_tick, button_resolve, classify. cbn [view_read view_flag].
  destruct rd; cbn [negb andb];
    repeat (case_bool_decide || case_match); simplify_eq; cbn; auto.
Qed.

Lemma button_run_held_quiet (i : nat) (ticks : list tick) (v : button_view) :
  view_flag v ≠ NOT_PROCESSED →
  Forall (λ t, pressed t i = true) ticks →
  (button_run i ticks v).2 = [].
Proof.
  intros Hfl Hticks. revert v Hfl.
  induction Hticks as [| t ticks Ht Hrest IH]; intros v Hfl; [reflexivity |].
  cbn [button_run fst snd]. rewrite Ht.
  destruct (button_tick_held_quiet i (millis t) v Hfl) as [-> Hfl'].
  rewrite (IH _ Hfl'). reflexivity.
Qed.

Lemma button_tick_held (i : nat) (now : Z) (v : button_view) :
  ((button_tick i now true v).2 = []
   ∧ view_flag (button_tick i now true v).1 = view_flag v)
  ∨ ((button_tick i now true v).2 = [Hold i]
     ∧ view_flag (button_tick i now true v).1 = PROCESSED).
Proof.
  destruct v as [rd ts fl].
  unfold button_tick, button_resolve, classify. cbn [view_read view_flag].
  destruct rd; cbn [negb andb];
    repeat (case_bool_decide || case_match); simplify_eq; cbn; auto.
Qed.

Lemma button_run_held (i : nat) (ticks : list tick) (v : button_view) :
  Forall (λ t, pressed t i = true) ticks →
  (button_run i ticks v).2 = [] ∨ (button_run i ticks v).2 = [Hold i].
Proof.
  intros Hticks. revert v.
  induction Hticks as [| t ticks Ht Hrest IH]; intros v; [left; reflexivity |].
  cbn [button_run fst snd]. rewrite Ht.
  destruct (button_tick_held i (millis t) v) as [[-> _] | [-> Hfl]].
  - apply IH.
  - right. rewrite button_run_held_quiet; [reflexivity | | exact Hrest].
    rewrite Hfl. discriminate.
Qed.

(** X13. Over passes in which both button loops reach the button (their
    uninitialised counters hold at most its index on entry): however long
    the button reads pressed, and whatever the clock does meanwhile, the
    passes in which it reads pressed call no handler for it but, at most
    once, its hold handler. *)
Theorem held_button_fires_at_most_once (c : controller) (i : nat)
    (ticks : list tick) :
  wf c → (i < NUMBER_OF_BUTTONS)%nat →
  Forall (visits i) ticks →
  Forall (λ t, pressed t i = true) ticks →
  events_of i (run_events ticks c) = []
  ∨ events_of i (run_events ticks c) = [Hold i].
Proof.
  intros Hwf Hi Hvisits Hticks.
  destruct (run_view i ticks c Hwf Hi Hvisits) as [_ ->].
  apply button_run_held. exact Hticks.
Qed.

Lemma held_button_fires_at_most_once_witness :
  events_of SPEED_UP_BUTTON (run_events (hold_from 2020 120) (booted_at 0)) = []
  ∨ events_of SPEED_UP_BUTTON (run_events (hold_from 2020 120) (booted_at 0))
    = [Hold SPEED_UP_BUTTON].
Proof.
  apply (held_button_fires_at_most_once (booted_at 0) SPEED_UP_BUTTON (hold_from 2020 120)).
  - vm_compute. auto.
  - unfold SPEED_UP_BUTTON, NUMBER_OF_BUTTONS. lia.
  - apply hold_from_visits.
  - apply Forall_forall. intros t Ht. apply list_elem_of_In in Ht.
    unfold hold_from in Ht. apply in_map_iff in Ht as (k & <- & _). reflexivity.
Defined.

Lemma button_run_held_armed (i : nat) (t0 : Z) (ticks : list tick) :
  0 ≤ t0 → t0 + BUTTON_HOLD_FOR_TURBO_DELAY_IN_MILLIS < ULONG_MODULUS →
  Forall (λ t, pressed t i = true) ticks →
  (button_run i ticks (ButtonView true (Some t0) NOT_PROCESSED)).2
  = (if existsb (λ t, t0 + BUTTON_HOLD_FOR_TURBO_DELAY_IN_MILLIS <? millis t) ticks
     then [Hold i] else [])
  ∧ (existsb (λ t, t0 + BUTTON_HOLD_FOR_TURBO_DELAY_IN_MILLIS <? millis t) ticks
     = false →
     (button_run i ticks (ButtonView true (Some t0) NOT_PROCESSED)).1
     = ButtonView true (Some t0) NOT_PROCESSED).
Proof.
  intros Ht0 Hwrap Hticks.
  induction Hticks as [| t ticks Ht Hrest [IHev IHview]]; [split; reflexivity |].
  assert (Htick : button_tick i (millis t) true (ButtonView true (Some t0) NOT_PROCESSED)
                  = if t0 + BUTTON_HOLD_FOR_TURBO_DELAY_IN_MILLIS <? millis t
                    then (ButtonView true (Some (millis t)) PROCESSED, [Hold i])
                    else (ButtonView true (Some t0) NOT_PROCESSED, [])).
  { unfold button_tick, button_resolve, classify.
    cbn [view_read view_timestamp view_flag negb andb default from_option].
    unfold id. rewrite deadline_passed_no_wrap by clock_lia.
    rewrite bool_decide_eq_true_2 by reflexivity. cbn [andb].
    destruct (t0 + BUTTON_HOLD_FOR_TURBO_DELAY_IN_MILLIS <? millis t).
    - rewrite bool_decide_eq_true_2 by reflexivity. reflexivity.
    - rewrite bool_decide_eq_false_2 by discriminate. reflexivity. }
  cbn [button_run fst snd existsb]. rewrite Ht, Htick.
  destruct (t0 + BUTTON_HOLD_FOR_TURBO_DELAY_IN_MILLIS <? millis t) eqn:Hd.
  - cbn [fst snd orb].
    rewrite button_run_held_quiet; [| discriminate | exact Hrest].
    split; [reflexivity | discriminate].
  - cbn [fst snd orb app]. split; [exact IHev | exact IHview].
Qed.

(** X14. Both button loops reach the button in every pass considered (their
    uninitialised counters hold at most its index on entry).  For a button
    that was released and re-armed with timestamp
    [t0], and is then read pressed in every pass: its hold handler is called,
    once, exactly when one of the passes after the first one reads the clock
    above [t0 + BUTTON_HOLD_FOR_TURBO_DELAY_IN_MILLIS]; the delay runs from
    the last idle pass before the press, and the first pressed pass never
    calls a handler. *)
Theorem hold_fires_after_hold_delay (c : controller) (i : nat) (t0 : Z)
    (t : tick) (ticks : list tick) :
  wf c → (i < NUMBER_OF_BUTTONS)%nat →
  last_button_read (btn c) !!! i = false →
  last_button_state (btn c) !!! i = NOT_PROCESSED →
  timestamps (btn c) !! i = Some t0 →
  0 ≤ t0 → t0 + BUTTON_HOLD_FOR_TURBO_DELAY_IN_MILLIS < ULONG_MODULUS →
  Forall (visits i) (t :: ticks) →
  Forall (λ t, pressed t i = true) (t :: ticks) →
  events_of i (run_events (t :: ticks) c)
  = if existsb (λ t', t0 + BUTTON_HOLD_FOR_TURBO_DELAY_IN_MILLIS <? millis t') ticks
    then [Hold i] else [].
Proof.
  intros Hwf Hi Hrd Hfl Hts Ht0 Hwrap Hvisits Hticks.
  apply Forall_cons in Hticks as [Ht Hticks].
  destruct (run_view i (t :: ticks) c Hwf Hi Hvisits) as [_ ->].
  cbn [button_run fst snd]. rewrite Ht.
  assert (Hfirst : button_tick i (millis t) true (view i c)
                   = (ButtonView true (Some t0) NOT_PROCESSED, [])).
  { pose proof (view_timestamp_eq i c) as Hvt. rewrite Hts in Hvt.
    unfold view in *. cbn [view_timestamp] in Hvt.
    unfold button_tick, button_resolve, classify.
    cbn [view_read view_timestamp view_flag]. rewrite Hrd, Hfl, Hvt.
    reflexivity. }
  rewrite Hfirst. cbn [fst snd app].
  apply (button_run_held_armed i t0 ticks Ht0 Hwrap Hticks).
Qed.

Lemma hold_fires_after_hold_delay_witness :
  let c := loop (released_at 2000) (booted_at 0) in
  events_of SPEED_UP_BUTTON
    (run_events (pressed_at SPEED_UP_BUTTON 2020 :: hold_from 2040 120) c)
  = [Hold SPEED_UP_BUTTON].
Proof.
  intros c.
  rewrite (hold_fires_after_hold_delay c SPEED_UP_BUTTON 2000
             (pressed_at SPEED_UP_BUTTON 2020) (hold_from 2040 120)).
  - vm_compute. reflexivity.
  - vm_compute. auto.
  - unfold SPEED_UP_BUTTON, NUMBER_OF_BUTTONS. lia.
  - vm_compute. reflexivity.
  - vm_compute. reflexivity.
  - vm_compute. reflexivity.
  - lia.
  - clock_lia.
  - apply Forall_cons_2; [split; apply Nat.le_0_l | apply hold_from_visits].
  - apply Forall_cons_2; [reflexivity | apply hold_from_pressed].
Defined.

(** ** A whole press *)

Lemma button_run_app (i : nat) (l k : list tick) (v : button_view) :
  button_run i (l ++ k) v
  = ((button_run i k (button_run i l v).1).1,
     (button_run i l v).2 ++ (button_run i k (button_run i l v).1).2).
Proof.
  revert v. induction l as [| t l IH]; intros v.
  - cbn [app button_run fst snd]. destruct (button_run i k v). reflexivity.
  - cbn [app button_run fst snd]. rewrite IH. cbn [fst snd].
    rewrite app_assoc. reflexivity.
Qed.

Lemma button_run_held_view (i : nat) (ticks : list tick) (v : button_view) :
  Forall (λ t, pressed t i = true) ticks → view_read v = true →
  view_read (button_run i ticks v).1 = true
  ∧ (view_flag v ≠ NOT_PROCESSED →
     view_flag (button_run i ticks v).1 ≠ NOT_PROCESSED)
  ∧ ((button_run i ticks v).2 = [Hold i] →
     view_flag (button_run i ticks v).1 ≠ NOT_PROCESSED).
Proof.
  intros Hticks. revert v.
  induction Hticks as [| t ticks Ht Hrest IH]; intros v Hrd.
  - cbn [button_run fst snd]. repeat split; auto; discriminate.
  - cbn [button_run fst snd]. rewrite Ht.
    pose proof (button_tick_read i (millis t) true v) as Hrd1.
    destruct (IH _ Hrd1) as (IHrd & IHfl & IHev).
    split; [exact IHrd |]. split.
    + intros Hfl. apply IHfl.
      apply (button_tick_held_quiet i (millis t) v Hfl).
    + destruct (button_tick_held i (millis t) v) as [[-> _] | [-> Hfl]].
      * exact IHev.
      * intros _. apply IHfl. rewrite Hfl. discriminate.
Qed.

Lemma button_release_quiet (i : nat) (u1 u2 : tick) (v : button_view) :
  view_read v = true → view_flag v ≠ NOT_PROCESSED →
  pressed u1 i = false → pressed u2 i = false →
  (button_run i [u1; u2] v).2 = [].
Proof.
  destruct v as [rd ts fl]. simpl. intros -> Hfl Hu1 Hu2.
  cbn [button_run fst snd]. rewrite Hu1, Hu2.
  unfold button_tick, button_resolve, classify.
  cbn [view_read view_timestamp view_flag negb andb fst snd].
  repeat (case_bool_decide || case_match); simplify_eq; cbn; reflexivity.
Qed.

Lemma button_release_armed (i : nat) (t0 : Z) (u1 u2 : tick) :
  0 ≤ t0 → t0 + DEBOUNCE_DELAY_MILLS < ULONG_MODULUS →
  pressed u1 i = false → pressed u2 i = false →
  (button_run i [u1; u2] (ButtonView true (Some t0) NOT_PROCESSED)).2
  = if t0 + DEBOUNCE_DELAY_MILLS <? millis u2 then [Click i] else [].
Proof.
  intros Ht0 Hwrap Hu1 Hu2. cbn [button_run fst snd]. rewrite Hu1, Hu2.
  assert (Hrel : button_tick i (millis u1) false
                   (ButtonView true (Some t0) NOT_PROCESSED)
                 = (ButtonView false (Some t0) NOT_PROCESSED, [])) by reflexivity.
  rewrite Hrel. cbn [fst snd app].
  unfold button_tick, button_resolve. simpl.
  rewrite deadline_passed_no_wrap by clock_lia.
  destruct (t0 + DEBOUNCE_DELAY_MILLS <? millis u2); reflexivity.
Qed.

(** X15. Both button loops reach the button in every pass considered (their
    uninitialised counters hold at most its index on entry).  One whole
    press of a re-armed button with timestamp [t0], from
    the first pass that reads it pressed to the second pass after its
    release: the handler calls for the button are one Hold if a pressed pass
    after the first read the clock above [t0 +
    BUTTON_HOLD_FOR_TURBO_DELAY_IN_MILLIS]; otherwise one Click if the second
    released pass reads the clock above [t0 + DEBOUNCE_DELAY_MILLS]; and
    nothing otherwise.  A press never gives both. *)
Theorem press_gives_hold_or_click (c : controller) (i : nat) (t0 : Z)
    (t : tick) (down : list tick) (u1 u2 : tick) :
  wf c → (i < NUMBER_OF_BUTTONS)%nat →
  last_button_read (btn c) !!! i = false →
  last_button_state (btn c) !!! i = NOT_PROCESSED →
  timestamps (btn c) !! i = Some t0 →
  0 ≤ t0 → t0 + BUTTON_HOLD_FOR_TURBO_DELAY_IN_MILLIS < ULONG_MODULUS →
  Forall (visits i) (t :: down ++ [u1; u2]) →
  Forall (λ t, pressed t i = true) (t :: down) →
  pressed u1 i = false → pressed u2 i = false →
  events_of i (run_events (t :: down ++ [u1; u2]) c)
  = if existsb (λ t', t0 + BUTTON_HOLD_FOR_TURBO_DELAY_IN_MILLIS <? millis t') down
    then [Hold i]
    else if t0 + DEBOUNCE_DELAY_MILLS <? millis u2 then [Click i] else [].
Proof.
  intros Hwf Hi Hrd Hfl Hts Ht0 Hwrap Hvisits Hticks Hu1 Hu2.
  apply Forall_cons in Hticks as [Ht Hdown].
  destruct (run_view i (t :: down ++ [u1; u2]) c Hwf Hi Hvisits) as [_ ->].
  cbn [button_run fst snd]. rewrite Ht.
  assert (Hfirst : button_tick i (millis t) true (view i c)
                   = (ButtonView true (Some t0) NOT_PROCESSED, [])).
  { pose proof (view_timestamp_eq i c) as Hvt. rewrite Hts in Hvt.
    unfold view in *. cbn [view_timestamp] in Hvt.
    unfold button_tick, button_resolve, classify.
    cbn [view_read view_timestamp view_flag]. rewrite Hrd, Hfl, Hvt.
    reflexivity. }
  rewrite Hfirst. cbn [fst snd app]. rewrite button_run_app. cbn [fst snd].
  destruct (button_run_held_armed i t0 down Ht0 Hwrap Hdown) as [Hev Hview].
  destruct (button_run_held_view i down (ButtonView true (Some t0) NOT_PROCESSED)
              Hdown eq_refl) as (Hrd' & _ & Hfl').
  rewrite Hev.
  destruct (existsb _ down).
  - rewrite button_release_quiet; auto.
  - rewrite (Hview eq_refl). cbn [app].
    apply button_release_armed; auto. clock_lia.
Qed.

Lemma press_gives_hold_or_click_witness :
  let c := loop (released_at 2000) (booted_at 0) in
  events_of SPEED_UP_BUTTON
    (run_events (pressed_at SPEED_UP_BUTTON 2020
                 :: [pressed_at SPEED_UP_BUTTON 2040; pressed_at SPEED_UP_BUTTON 2060]
                    ++ [released_at 2080; released_at 2100]) c)
  = [Click SPEED_UP_BUTTON].
Proof.
  intros c.
  rewrite (press_gives_hold_or_click c SPEED_UP_BUTTON 2000
             (pressed_at SPEED_UP_BUTTON 2020)
             [pressed_at SPEED_UP_BUTTON 2040; pressed_at SPEED_UP_BUTTON 2060]
             (released_at 2080) (released_at 2100)).
  - vm_compute. reflexivity.
  - vm_compute. auto.
  - unfold SPEED_UP_BUTTON, NUMBER_OF_BUTTONS. lia.
  - vm_compute. reflexivity.
  - vm_compute. reflexivity.
  - vm_compute. reflexivity.
  - lia.
  - clock_lia.
  - vm_compute. repeat constructor.
  - repeat constructor.
  - reflexivity.
  - reflexivity.
Defined.

(** X16. In a pass in which both button loops reach the button (their
    uninitialised counters hold at most its index on entry), the hold
    handler of the button is called only if the button read pressed in the
    pass before and reads pressed in this one, no handler has been called
    for it since it was last re-armed, and the timer comparison against its
    timestamp succeeds; it is then the only call for that button in the pass
    and, when the timestamp plus the hold delay does not wrap, more than
    BUTTON_HOLD_FOR_TURBO_DELAY_IN_MILLIS have passed since the
    timestamp. *)
Theorem hold_after_hold_deadline (c : controller) (i : nat) (t : tick) :
  wf c → (i < NUMBER_OF_BUTTONS)%nat → visits i t →
  In (Hold i) (tick_events t c) →
  last_button_read (btn c) !!! i = true
  ∧ pressed t i = true
  ∧ last_button_state (btn c) !!! i = NOT_PROCESSED
  ∧ deadline_passed (default (millis t) (timestamps (btn c) !! i))
                    BUTTON_HOLD_FOR_TURBO_DELAY_IN_MILLIS (millis t) = true
  ∧ events_of i (tick_events t c) = [Hold i]
  ∧ (∀ ts, timestamps (btn c) !! i = Some ts →
           0 ≤ ts → ts + BUTTON_HOLD_FOR_TURBO_DELAY_IN_MILLIS < ULONG_MODULUS →
           BUTTON_HOLD_FOR_TURBO_DELAY_IN_MILLIS < millis t - ts).
Proof.
  intros Hwf Hi Hvisit Hin. destruct (loop_view t c i Hwf Hi Hvisit) as [_ Hev].
  assert (Hin' : Hold i ∈ events_of i (tick_events t c)).
  { unfold events_of. apply list_elem_of_filter. split; [reflexivity |].
    apply list_elem_of_In. exact Hin. }
  rewrite Hev in Hin'.
  assert (Hcase : view_read (view i c) = true ∧ pressed t i = true
                  ∧ view_flag (view i c) = NOT_PROCESSED
                  ∧ deadline_passed (default (millis t) (view_timestamp (view i c)))
                      BUTTON_HOLD_FOR_TURBO_DELAY_IN_MILLIS (millis t) = true
                  ∧ (button_tick i (millis t) (pressed t i) (view i c)).2 = [Hold i]).
  { revert Hin'. generalize (view i c) as v. generalize (pressed t i) as cur.
    intros cur [rd ts fl]. unfold button_tick, button_resolve, classify.
    cbn [view_read view_timestamp view_flag].
    destruct rd, cur; cbn [negb andb];
      repeat (case_bool_decide || case_match); cbn [fst snd];
      intros Hin'; try (apply elem_of_nil in Hin'; contradiction);
      try (apply list_elem_of_singleton in Hin'; discriminate Hin');
      simplify_eq; repeat split; try reflexivity; try assumption.
    all: match goal with
         | H : _ && _ = true |- _ => apply andb_true_iff in H as [_ H]; exact H
         end. }
  destruct Hcase as (Hrd & Hcur & Hfl & Hd & Hone).
  rewrite view_timestamp_eq in Hd. rewrite <- Hev in Hone.
  repeat split; try assumption.
  intros ts Hts Hts0 Hts1. rewrite Hts in Hd. cbn [default from_option] in Hd.
  unfold id in Hd. rewrite deadline_passed_no_wrap in Hd by clock_lia.
  apply Z.ltb_lt in Hd. lia.
Qed.

Lemma hold_after_hold_deadline_witness :
  let c := run (hold_from 2020 100) (loop (released_at 2000) (booted_at 0)) in
  events_of SPEED_UP_BUTTON (tick_events (pressed_at SPEED_UP_BUTTON 4020) c)
  = [Hold SPEED_UP_BUTTON]
  ∧ last_button_read (btn c) !!! SPEED_UP_BUTTON = true.
Proof.
  intros c.
  destruct (hold_after_hold_deadline c SPEED_UP_BUTTON
              (pressed_at SPEED_UP_BUTTON 4020))
    as (Hread & _ & _ & _ & Hone & _).
  - apply run_wf. vm_compute. auto.
  - unfold SPEED_UP_BUTTON, NUMBER_OF_BUTTONS. lia.
  - split; apply Nat.le_0_l.
  - vm_compute. left. reflexivity.
  - split; [exact Hone | exact Hread].
Defined.

(** ** The duty cycle *)

Lemma duty_cycle_value (level : Z) :
  MIN_FAN_SPEED ≤ level ≤ MAX_PWM_SPEED →
  duty_cycle level = 155 + (level - 1) * 100 / 8.
Proof.
  unfold duty_cycle, arduino_map, wrap8, MIN_FAN_SPEED, MAX_PWM_SPEED,
    MIN_FAN_DUTYCYCLE_ANALOG, MAX_FAN_DUTYCYCLE_ANALOG. intros Hl.
  replace (255 - 155) with 100 by lia. replace (9 - 1) with 8 by lia.
  rewrite Z.quot_div_nonneg by lia.
  assert (0 ≤ (level - 1) * 100 / 8 ≤ 100).
  { split; [apply Z.div_pos; lia | apply Z.div_le_upper_bound; lia]. }
  rewrite Z.mod_small by lia. lia.
Qed.

(** X17. For a level from MIN_FAN_SPEED = 1 to MAX_PWM_SPEED = 9,
    [set_fan_speed] writes one value to the fan control pin, the duty cycle
    that [map] gives; it lies between MIN_FAN_DUTYCYCLE_ANALOG = 155 and
    MAX_FAN_DUTYCYCLE_ANALOG = 255 (so the conversion to [byte] loses
    nothing), is 155 at level 1 and 255 at level 9, and grows strictly with
    the level. *)
Theorem duty_cycle_in_range (c : controller) (level : Z) :
  MIN_FAN_SPEED ≤ level ≤ MAX_PWM_SPEED →
  outputs (set_fan_speed level c)
  = outputs c ++ [AnalogWrite FAN_CONTROL_PIN (duty_cycle level)]
  ∧ MIN_FAN_DUTYCYCLE_ANALOG ≤ duty_cycle level ≤ MAX_FAN_DUTYCYCLE_ANALOG
  ∧ duty_cycle MIN_FAN_SPEED = MIN_FAN_DUTYCYCLE_ANALOG
  ∧ duty_cycle MAX_PWM_SPEED = MAX_FAN_DUTYCYCLE_ANALOG
  ∧ (∀ higher, level < higher ≤ MAX_PWM_SPEED →
               duty_cycle level < duty_cycle higher).
Proof.
  intros Hl. split; [| split; [| split; [| split]]].
  - unfold set_fan_speed.
    replace (level =? OFF_FAN_SPEED) with false
      by (symmetry; apply Z.eqb_neq; unfold OFF_FAN_SPEED, MIN_FAN_SPEED in *; lia).
    reflexivity.
  - rewrite duty_cycle_value by exact Hl.
    unfold MIN_FAN_SPEED, MAX_PWM_SPEED, MIN_FAN_DUTYCYCLE_ANALOG,
      MAX_FAN_DUTYCYCLE_ANALOG in *.
    assert (0 ≤ (level - 1) * 100 / 8 ≤ 100); [| lia].
    split; [apply Z.div_pos; lia | apply Z.div_le_upper_bound; lia].
  - reflexivity.
  - reflexivity.
  - intros higher Hh. rewrite !duty_cycle_value
      by (unfold MIN_FAN_SPEED, MAX_PWM_SPEED in *; lia).
    unfold MIN_FAN_SPEED, MAX_PWM_SPEED in *.
    assert ((level - 1) * 100 / 8 < (higher - 1) * 100 / 8); [| lia].
    apply Z.div_lt_upper_bound; [lia |].
    assert (8 * ((higher - 1) * 100 / 8) > (higher - 1) * 100 - 8).
    { pose proof (Z.mul_div_le ((higher - 1) * 100) 8 ltac:(lia)).
      pose proof (Z.mod_pos_bound ((higher - 1) * 100) 8 ltac:(lia)).
      pose proof (Z.div_mod ((higher - 1) * 100) 8 ltac:(lia)). lia. }
    lia.
Qed.

Lemma duty_cycle_in_range_witness :
  MIN_FAN_DUTYCYCLE_ANALOG ≤ duty_cycle 5 ≤ MAX_FAN_DUTYCYCLE_ANALOG
  ∧ duty_cycle 5 < duty_cycle 6.
Proof.
  destruct (duty_cycle_in_range (booted_at 0) 5) as (_ & Hrange & _ & _ & Hmono).
  - unfold MIN_FAN_SPEED, MAX_PWM_SPEED. lia.
  - split; [exact Hrange | apply Hmono; unfold MAX_PWM_SPEED; lia].
Defined.

(** ** What reaches the hardware *)

Lemma reachable_levels (c : controller) : reachable c → levels_in_range (fsm c).
Proof.
  intros Hreach. destruct (reachable_machine c Hreach) as (_ & ops & ->).
  apply machine_run_invariant.
  - intros op m. apply levels_in_range_step.
  - unfold levels_in_range. simpl. unfold DEFAULT_FAN_SPEED, MAX_FAN_SPEED,
      MIN_FAN_SPEED, INCREMENT_FAN_SPEED. lia.
Qed.

Lemma process_button_outputs (now : Z) (i : nat) (c : controller) :
  outputs (process_button now i c) = outputs c.
Proof. unfold process_button. repeat case_match; reflexivity. Qed.

Lemma process_button_schedule_outputs (now : Z) (dr : nat → bool) (ps bs : nat)
    (c : controller) :
  outputs (process_button_schedule now dr ps bs c) = outputs c
  ∨ outputs (process_button_schedule now dr ps bs c) = outputs c ++ [LcdClear].
Proof.
  unfold process_button_schedule, process_buttons.
  set (c3 := with_btn (enter_process_buttons now) _).
  assert (Hfold : ∀ js c, outputs (fold_left (λ c j, process_button now j c) js c)
                          = outputs c).
  { induction js as [| j js IH]; intros c0; [reflexivity |].
    cbn [fold_left]. rewrite IH. apply process_button_outputs. }
  unfold process_turbo_request_task.
  destruct (turbo_request_exit now _); [right | left];
    cbn [outputs hw_write with_fsm]; rewrite Hfold; reflexivity.
Qed.

Lemma fan_outputs_in_range (now : Z) (c : controller) :
  levels_in_range (fsm c) →
  Forall output_in_range (outputs c) →
  Forall output_in_range (outputs (process_fan_schedule now c)).
Proof.
  intros [Hsp _] Hout. unfold process_fan_schedule.
  destruct (deadline_passed _ _ _); [| exact Hout].
  unfold process_fan_speed, process_fan_relay.
  assert (Hset : ∀ v c0, v = 0 ∨ MIN_FAN_SPEED ≤ v ≤ MAX_PWM_SPEED →
                 Forall output_in_range (outputs c0) →
                 Forall output_in_range (outputs (set_fan_speed v c0))).
  { intros v c0 Hv Hc0. unfold set_fan_speed.
    destruct (Z.eqb_spec v OFF_FAN_SPEED) as [-> | Hne];
      cbn [outputs hw_write]; apply Forall_app; (split; [exact Hc0 |]);
      (apply Forall_cons_2; [| apply Forall_nil_2]);
      (split; [reflexivity |]).
    - left. reflexivity.
    - right. destruct Hv as [-> | Hv]; [contradiction Hne; reflexivity |].
      fold (duty_cycle v).
      apply (duty_cycle_value v) in Hv as Hval. rewrite Hval.
      unfold MIN_FAN_SPEED, MAX_PWM_SPEED, MIN_FAN_DUTYCYCLE_ANALOG,
        MAX_FAN_DUTYCYCLE_ANALOG in *.
      assert (0 ≤ (v - 1) * 100 / 8 ≤ 100); [| lia].
      split; [apply Z.div_pos; lia | apply Z.div_le_upper_bound; lia]. }
  assert (Hrelay : ∀ b c0, Forall output_in_range (outputs c0) →
                   Forall output_in_range
                     (outputs (hw_write (DigitalWrite RELAY_CONTROL_PIN b) c0))).
  { intros b c0 Hc0. cbn [outputs hw_write]. apply Forall_app.
    split; [exact Hc0 | repeat constructor]. }
  set (c1 := set_last_fan_update now _).
  assert (Hc1 : Forall output_in_range (outputs c1)) by exact Hout.
  assert (Hfsm : fsm c1 = fsm c) by reflexivity.
  clearbody c1. unfold process_fan_relay. rewrite Hfsm.
  destruct (bool_decide (onoff_state (fsm c) ≠ SYSTEM_OFF)) eqn:Hon;
    unfold process_fan_speed; cbn [fsm hw_write]; rewrite Hfsm, Hon.
  - destruct (Z.eqb_spec (user_fan_speed (fsm c)) MAX_FAN_SPEED) as [Hmax | Hne].
    + cbn [outputs hw_write]. apply Forall_app. split; [| repeat constructor].
      apply Hset; [left; reflexivity | apply Hrelay, Hc1].
    + apply Hset; [| apply Hrelay, Hc1].
      unfold MAX_FAN_SPEED, MIN_FAN_SPEED, MAX_PWM_SPEED in *. lia.
  - apply Hset; [left; reflexivity | apply Hrelay, Hc1].
Qed.

Lemma display_outputs_in_range (now : Z) (c : controller) :
  Forall output_in_range (outputs c) →
  Forall output_in_range (outputs (process_display_schedule now c)).
Proof.
  intros Hout. unfold process_display_schedule.
  destruct (deadline_passed _ _ _); [| exact Hout].
  cbn. apply Forall_app. split; [exact Hout | repeat constructor].
Qed.

Lemma button_outputs_in_range (now : Z) (dr : nat → bool) (ps bs : nat)
    (c : controller) :
  Forall output_in_range (outputs c) →
  Forall output_in_range (outputs (process_button_schedule now dr ps bs c)).
Proof.
  intros Hout.
  destruct (process_button_schedule_outputs now dr ps bs c) as [-> | ->];
    [exact Hout |].
  apply Forall_app. split; [exact Hout | repeat constructor].
Qed.

Lemma boot_screen_loop_outputs (timer : Z) (ticks : list tick) (c c' : controller) :
  Forall output_in_range (outputs c) →
  boot_screen_loop timer ticks c = Some c' →
  Forall output_in_range (outputs c').
Proof.
  revert c. induction ticks as [| t ticks IH]; intros c Hout Hloop.
  - discriminate Hloop.
  - cbn [boot_screen_loop] in Hloop.
    pose proof (button_outputs_in_range (millis t) (digitalRead t) (poll_start t)
                  (process_start t) c Hout) as Hout1.
    destruct (millis t <? wrap32 (timer + BOOTSCREEN_DISPLAY_TIME_IN_MILLIS)).
    + case_bool_decide.
      * simplify_eq. exact Hout1.
      * apply (IH _ Hout1 Hloop).
    + simplify_eq. exact Hout.
Qed.

(** X18. Every analog write the sketch ever makes goes to the fan
    control pin, and its value is either 0 or a duty cycle between
    MIN_FAN_DUTYCYCLE_ANALOG and MAX_FAN_DUTYCYCLE_ANALOG. *)
Theorem reachable_outputs_in_range (c : controller) :
  reachable c →
  ∀ pin value, In (AnalogWrite pin value) (outputs c) →
    pin = FAN_CONTROL_PIN
    ∧ (value = 0 ∨ MIN_FAN_DUTYCYCLE_ANALOG ≤ value ≤ MAX_FAN_DUTYCYCLE_ANALOG).
Proof.
  intros Hreach.
  assert (Hall : Forall output_in_range (outputs c)).
  { induction Hreach as [now ticks c Hsetup | t c Hreach IH].
    - unfold setup, show_boot_screen in Hsetup.
      destruct (boot_screen_loop now ticks _) as [c1 |] eqn:Hloop; [| discriminate].
      apply boot_screen_loop_outputs in Hloop; [| repeat constructor].
      cbn in Hsetup. simplify_eq. cbn [outputs hw_write].
      apply Forall_app. split; [exact Hloop | repeat constructor].
    - unfold loop. apply display_outputs_in_range, fan_outputs_in_range.
      + pose proof (reachable_levels _ (reachable_loop t c Hreach)) as Hlev.
        destruct (loop_frame t c) as (_ & <- & _). exact Hlev.
      + apply button_outputs_in_range, IH. }
  intros pin value Hin. rewrite Forall_forall in Hall.
  apply (Hall (AnalogWrite pin value)). apply list_elem_of_In. exact Hin.
Qed.

Lemma reachable_outputs_in_range_witness :
  let c := run (released_at 2000 :: press_at ONOFF_TOGGLE_BUTTON 2020)
               (booted_at 0) in
  In (AnalogWrite FAN_CONTROL_PIN 167) (outputs c)
  ∧ (167 = 0 ∨ MIN_FAN_DUTYCYCLE_ANALOG ≤ 167 ≤ MAX_FAN_DUTYCYCLE_ANALOG).
Proof.
  intros c.
  assert (Hin : In (AnalogWrite FAN_CONTROL_PIN 167) (outputs c))
    by (vm_compute; repeat (first [left; reflexivity | right])).
  split; [exact Hin |].
  destruct (reachable_outputs_in_range c (run_reachable _ _ booted_reachable)
              FAN_CONTROL_PIN 167 Hin) as [_ Hrange].
  exact Hrange.
Defined.

(** ** Buttons do not disturb each other *)

Lemma button_run_ext (i : nat) (ticks ticks' : list tick) (v : button_view) :
  Forall2 (same_for_button i) ticks ticks' →
  button_run i ticks v = button_run i ticks' v.
Proof.
  intros Hsame. revert v.
  induction Hsame as [| t t' ticks ticks' [Hm Hp] Hrest IH]; intros v.
  - reflexivity.
  - cbn [button_run]. rewrite Hm, Hp, IH. reflexivity.
Qed.

(** X19. As long as both button loops reach button [i] in every pass, the
    handler calls for [i] depend only on the clock readings and on the reads
    of [i]: two runs that start with the same last read, processed flag and
    timestamp for the button, and whose passes agree on the clock and on the
    button, call the same handlers for it, whatever the other buttons do and
    wherever at or below [i] the loops start. *)
Theorem buttons_are_independent (c c' : controller) (i : nat)
    (ticks ticks' : list tick) :
  wf c → wf c' → (i < NUMBER_OF_BUTTONS)%nat →
  Forall (visits i) ticks → Forall (visits i) ticks' →
  last_button_read (btn c) !!! i = last_button_read (btn c') !!! i →
  last_button_state (btn c) !!! i = last_button_state (btn c') !!! i →
  timestamps (btn c) !! i = timestamps (btn c') !! i →
  Forall2 (same_for_button i) ticks ticks' →
  events_of i (run_events ticks c) = events_of i (run_events ticks' c').
Proof.
  intros Hwf Hwf' Hi Hvisits Hvisits' Hrd Hfl Hts Hsame.
  destruct (run_view i ticks c Hwf Hi Hvisits) as [_ ->].
  destruct (run_view i ticks' c' Hwf' Hi Hvisits') as [_ ->].
  assert (Hview : view i c = view i c').
  { pose proof (view_timestamp_eq i c) as H1.
    pose proof (view_timestamp_eq i c') as H2.
    unfold view in *. cbn [view_timestamp] in H1, H2.
    rewrite H1, H2, Hts, Hrd, Hfl. reflexivity. }
  rewrite Hview, (button_run_ext i ticks ticks' _ Hsame). reflexivity.
Qed.

Lemma buttons_are_independent_witness :
  let c := loop (released_at 2000) (booted_at 0) in
  events_of ONOFF_TOGGLE_BUTTON (run_events (press_at ONOFF_TOGGLE_BUTTON 2020) c)
  = events_of ONOFF_TOGGLE_BUTTON
      (run_events (map (λ t, entered_at 2 1 (also_pressed SPEED_UP_BUTTON t))
                       (press_at ONOFF_TOGGLE_BUTTON 2020)) c).
Proof.
  intros c.
  apply (buttons_are_independent c c ONOFF_TOGGLE_BUTTON
           (press_at ONOFF_TOGGLE_BUTTON 2020)
           (map (λ t, entered_at 2 1 (also_pressed SPEED_UP_BUTTON t))
                (press_at ONOFF_TOGGLE_BUTTON 2020))).
  - vm_compute. auto.
  - vm_compute. auto.
  - unfold ONOFF_TOGGLE_BUTTON, NUMBER_OF_BUTTONS. lia.
  - vm_compute. repeat constructor.
  - vm_compute. repeat constructor.
  - reflexivity.
  - reflexivity.
  - reflexivity.
  - repeat constructor.
Defined.

(** ** The bar graph *)

Lemma print_loop_counts (ch : ascii) (fuel : nat) (i limit : Z) :
  0 ≤ i → limit ≤ 255 → (Z.to_nat (limit - i) ≤ fuel)%nat →
  print_loop fuel i limit ch
  = (replicate (Z.to_nat (limit - i)) ch, Z.max i limit).
Proof.
  revert i. induction fuel as [| fuel IH]; intros i Hi Hlimit Hfuel.
  - cbn [print_loop]. replace (Z.to_nat (limit - i)) with 0%nat by lia.
    f_equal. lia.
  - cbn [print_loop]. destruct (Z.ltb_spec i limit) as [Hlt | Hge].
    + assert (Hw : wrap8 (i + 1) = i + 1) by (apply Z.mod_small; lia).
      rewrite Hw, IH by lia. cbn [fst snd].
      replace (Z.to_nat (limit - i)) with (S (Z.to_nat (limit - (i + 1)))) by lia.
      cbn [replicate]. f_equal. lia.
    + replace (Z.to_nat (limit - i)) with 0%nat by lia. f_equal. lia.
Qed.

Lemma bargraph_value (level : Z) :
  0 ≤ level ≤ 255 →
  bargraph level
  = replicate (Z.to_nat level) "#"%char
    ++ replicate (Z.to_nat (MAX_FAN_SPEED - level)) " "%char.
Proof.
  intros Hl. unfold bargraph.
  rewrite (print_loop_counts "#" 256 0 level) by lia.
  cbn [fst snd]. rewrite Z.sub_0_r.
  rewrite print_loop_counts by (unfold MAX_FAN_SPEED; lia).
  cbn [fst snd]. do 2 f_equal. lia.
Qed.

(** X20. In every reachable state the two loops that draw the bar graph
    print exactly ten characters: one mark per level, then blanks up to
    MAX_FAN_SPEED; the bar ends where the text that follows it begins. *)
Theorem bargraph_fills_ten_cells (c : controller) :
  reachable c →
  length (bargraph (user_fan_speed (fsm c))) = 10%nat
  ∧ bargraph (user_fan_speed (fsm c))
    = replicate (Z.to_nat (user_fan_speed (fsm c))) "#"%char
      ++ replicate (Z.to_nat (10 - user_fan_speed (fsm c))) " "%char.
Proof.
  intros Hreach. destruct (reachable_levels c Hreach) as [Hsp _].
  unfold MAX_FAN_SPEED in Hsp.
  rewrite bargraph_value by lia. split; [| reflexivity].
  rewrite length_app, !length_replicate. unfold MAX_FAN_SPEED. lia.
Qed.

Lemma bargraph_fills_ten_cells_witness :
  length (bargraph (user_fan_speed (fsm (run climb_to_prompt (booted_at 0)))))
  = 10%nat.
Proof.
  destruct (bargraph_fills_ten_cells (run climb_to_prompt (booted_at 0)))
    as [Hlen _]; [| exact Hlen].
  apply run_reachable, booted_reachable.
Defined.

(** ** The fan while the system is Off *)

Lemma process_fan_schedule_off (now : Z) (c : controller) :
  onoff_state (fsm c) = SYSTEM_OFF →
  outputs (process_fan_schedule now c) = outputs c
  ∨ outputs (process_fan_schedule now c)
    = outputs c ++ [DigitalWrite RELAY_CONTROL_PIN RELAY_OFF;
                    AnalogWrite FAN_CONTROL_PIN 0].
Proof.
  intros Hoff. unfold process_fan_schedule.
  destruct (deadline_passed _ _ _); [right | left; reflexivity].
  set (c1 := set_last_fan_update now _).
  assert (Hfsm : fsm c1 = fsm c) by reflexivity.
  assert (Hout : outputs c1 = outputs c) by reflexivity.
  assert (Hno : bool_decide (SYSTEM_OFF ≠ SYSTEM_OFF) = false)
    by (apply bool_decide_eq_false_2; intros Hne; apply Hne; reflexivity).
  clearbody c1. unfold process_fan_relay. rewrite Hfsm, Hoff, Hno.
  unfold process_fan_speed. cbn [fsm hw_write]. rewrite Hfsm, Hoff, Hno.
  unfold set_fan_speed. cbn. rewrite Hout, <- app_assoc. reflexivity.
Qed.

Lemma process_display_schedule_outputs (now : Z) (c : controller) :
  outputs (process_display_schedule now c) = outputs c
  ∨ outputs (process_display_schedule now c)
    = outputs c ++ [LcdRefresh (onoff_state (fsm c)) (user_fan_speed (fsm c))].
Proof.
  unfold process_display_schedule.
  destruct (deadline_passed _ _ _); [right | left]; reflexivity.
Qed.

Lemma process_button_schedule_off_outputs (now : Z) (dr : nat → bool)
    (ps bs : nat) (c : controller) :
  onoff_state (fsm (process_button_schedule now dr ps bs c)) = SYSTEM_OFF →
  outputs (process_button_schedule now dr ps bs c) = outputs c.
Proof.
  unfold process_button_schedule, process_buttons.
  set (c3 := with_btn (enter_process_buttons now) _).
  assert (Hfold : ∀ js c, outputs (fold_left (λ c j, process_button now j c) js c)
                          = outputs c).
  { induction js as [| j js IH]; intros c0; [reflexivity |].
    cbn [fold_left]. rewrite IH. apply process_button_outputs. }
  set (c4 := fold_left _ _ c3). unfold process_turbo_request_task.
  assert (Hout : outputs c4 = outputs c) by (subst c4; rewrite Hfold; reflexivity).
  unfold process_turbo_request.
  destruct (turbo_request_exit now (turbo_request_enter now (fsm c4))) eqn:Hexit;
    cbn [fsm outputs hw_write with_fsm]; rewrite Hexit;
    [discriminate | intros _; exact Hout].
Qed.

(** X21. The hardware calls the sketch itself makes in a pass of [loop]
    that ends with the system Off, in order: when the fan gate is open,
    [digitalWrite(RELAY_CONTROL_PIN, RELAY_OFF)] and
    [analogWrite(FAN_CONTROL_PIN, 0)]; when the display gate is open, one
    display refresh, drawn for the Off state; and nothing else (no
    [lcd.clear()], no relay-on call, no other duty cycle).  The fan task
    sees the state the button task of the same pass has left.  What the
    display library writes to its own pins during the refresh is not
    described here; its register-select line is pin 7, the pin of the
    relay. *)
Theorem off_pass_hardware_calls (t : tick) (c : controller) :
  onoff_state (fsm (loop t c)) = SYSTEM_OFF →
  ∃ fan display,
    outputs (loop t c) = outputs c ++ fan ++ display
    ∧ (fan = []
       ∨ fan = [DigitalWrite RELAY_CONTROL_PIN RELAY_OFF;
                AnalogWrite FAN_CONTROL_PIN 0])
    ∧ (display = []
       ∨ display = [LcdRefresh SYSTEM_OFF (user_fan_speed (fsm (loop t c)))]).
Proof.
  intros Hoff. destruct (loop_frame t c) as (_ & Hfsm & _).
  rewrite Hfsm in *. unfold loop.
  set (c1 := process_button_schedule (millis t) (digitalRead t) (poll_start t)
               (process_start t) c) in *.
  set (c2 := process_fan_schedule (millis t) c1).
  assert (Hb : outputs c1 = outputs c)
    by (apply process_button_schedule_off_outputs; exact Hoff).
  assert (Hfsm2 : fsm c2 = fsm c1) by apply process_fan_schedule_frame.
  destruct (process_fan_schedule_off (millis t) c1 Hoff) as [Hf | Hf];
    destruct (process_display_schedule_outputs (millis t) c2) as [Hd | Hd];
    fold c2 in Hf; rewrite Hd, Hf, Hb, ?Hfsm2, ?Hoff.
  - exists [], []. rewrite !app_nil_r. auto.
  - exists [], [LcdRefresh SYSTEM_OFF (user_fan_speed (fsm c1))]. auto.
  - exists [DigitalWrite RELAY_CONTROL_PIN RELAY_OFF; AnalogWrite FAN_CONTROL_PIN 0],
           [].
    rewrite !app_nil_r. auto.
  - exists [DigitalWrite RELAY_CONTROL_PIN RELAY_OFF; AnalogWrite FAN_CONTROL_PIN 0],
           [LcdRefresh SYSTEM_OFF (user_fan_speed (fsm c1))].
    rewrite <- app_assoc. auto.
Qed.

Lemma off_pass_hardware_calls_witness :
  outputs (loop (released_at 2300)
             (run (press_at ONOFF_TOGGLE_BUTTON 2020
                   ++ press_at ONOFF_TOGGLE_BUTTON 2160) (booted_at 0)))
  = outputs (run (press_at ONOFF_TOGGLE_BUTTON 2020
                  ++ press_at ONOFF_TOGGLE_BUTTON 2160) (booted_at 0))
    ++ [DigitalWrite RELAY_CONTROL_PIN RELAY_OFF; AnalogWrite FAN_CONTROL_PIN 0]
  ∧ ∃ fan display,
      outputs (loop (released_at 2300)
                 (run (press_at ONOFF_TOGGLE_BUTTON 2020
                       ++ press_at ONOFF_TOGGLE_BUTTON 2160) (booted_at 0)))
      = outputs (run (press_at ONOFF_TOGGLE_BUTTON 2020
                      ++ press_at ONOFF_TOGGLE_BUTTON 2160) (booted_at 0))
        ++ fan ++ display
      ∧ (fan = []
         ∨ fan = [DigitalWrite RELAY_CONTROL_PIN RELAY_OFF;
                  AnalogWrite FAN_CONTROL_PIN 0]).
Proof.
  split; [vm_compute; reflexivity |].
  destruct (off_pass_hardware_calls (released_at 2300)
              (run (press_at ONOFF_TOGGLE_BUTTON 2020
                    ++ press_at ONOFF_TOGGLE_BUTTON 2160) (booted_at 0)))
    as (fan & display & Hout & Hfan & _).
  - vm_compute. reflexivity.
  - exists fan, display. split; [exact Hout | exact Hfan].
Defined.

(** ** Passes that do not reach the buttons *)

Lemma tick_events_none (t : tick) (c : controller) :
  wf c → (NUMBER_OF_BUTTONS ≤ process_start t)%nat →
  tick_events t c = []
  ∧ fsm (loop t c) = process_turbo_request (millis t) (fsm c).
Proof.
  intros Hwf Hstart.
  destruct (process_button_schedule_calls (millis t) (digitalRead t) (poll_start t)
              (process_start t) c Hwf)
    as (up & down & power & Hlog & _ & _ & _ & Hno0 & Hno1 & Hno2).
  unfold SPEED_UP_BUTTON, SPEED_DOWN_BUTTON, ONOFF_TOGGLE_BUTTON,
    NUMBER_OF_BUTTONS in *.
  rewrite Hno0, Hno1, Hno2 in Hlog by lia.
  assert (Hev : tick_events t c = []).
  { unfold tick_events. destruct (loop_frame t c) as (_ & _ & ->).
    rewrite Hlog, drop_app_length. reflexivity. }
  split; [exact Hev |].
  destruct (loop_machine t c Hwf) as [_ Hfsm]. rewrite Hev in Hfsm. exact Hfsm.
Qed.

(** X22. While the counter of the loop of [process_buttons] holds
    NUMBER_OF_BUTTONS or more whenever the loop is entered, no handler is
    ever called, whatever the buttons read and however long: the state
    machine only sees the turbo check of each pass. *)
Theorem no_handler_without_process_loop (ticks : list tick) (c : controller) :
  wf c →
  Forall (λ t, (NUMBER_OF_BUTTONS ≤ process_start t)%nat) ticks →
  run_events ticks c = []
  ∧ fsm (run ticks c) = machine_run (map (λ t, OpTurbo (millis t)) ticks) (fsm c).
Proof.
  intros Hwf Hticks. revert c Hwf.
  induction Hticks as [| t ticks Ht Hrest IH]; intros c Hwf.
  - unfold run_events. rewrite run_nil, drop_all. auto.
  - destruct (tick_events_none t c Hwf Ht) as [Hev Hfsm].
    destruct (IH (loop t c) (loop_wf t c Hwf)) as [IHev IHfsm].
    destruct (run_events_cons t ticks c Hwf) as [_ Hsplit].
    rewrite Hsplit, Hev, IHev, run_cons, IHfsm, Hfsm. auto.
Qed.

Lemma no_handler_without_process_loop_witness :
  run_events (map (entered_at 0 3)
                  (released_at 2000
                   :: hold_from 2020 120 ++ press_at ONOFF_TOGGLE_BUTTON 4420))
             (booted_at 0) = []
  ∧ run_events (released_at 2000
                :: hold_from 2020 120 ++ press_at ONOFF_TOGGLE_BUTTON 4420)
               (booted_at 0)
    = [Hold SPEED_UP_BUTTON; Click ONOFF_TOGGLE_BUTTON].
Proof.
  split; [| vm_compute; reflexivity].
  apply (no_handler_without_process_loop
           (map (entered_at 0 3)
                (released_at 2000
                 :: hold_from 2020 120 ++ press_at ONOFF_TOGGLE_BUTTON 4420))
           (booted_at 0)).
  - vm_compute. auto.
  - apply Forall_forall. intros t Ht. apply list_elem_of_In in Ht.
    apply in_map_iff in Ht as (t' & <- & _). apply Nat.le_refl.
Defined.
